(** * The decision engine of [scripts/generate_doc_pack.py]

    A shallow embedding of the requirement normalizer, the quality gate,
    the combo scorer, the complexity classifier, the mode and selection
    resolvers and the document planner, with the properties of each.

    Conventions of the embedding:
    - Python [str] values are UTF-8 byte strings ([string]).  Substring
      tests and lexicographic comparison on well-formed UTF-8 agree with
      the same operations on code points.
    - [str.strip], [str.lower] and [int] of a string come twice.  [PyStr]
      has them on the ASCII range, where bytes above 127 are neither
      whitespace nor cased nor digits, so that the embedding can be run.
      The module [Py] takes them as parameters, and what is proved there
      holds for the operations of Python on all of Unicode.
    - Python [int] is [Z], [bool] is [bool], a [dict] with string keys is a
      [gmap string _], a [set] is a [gset].
    - An uncaught exception is [None] in the option monad. *)

From Stdlib Require Import ZArith Lia Ascii.
From Stdlib Require String.
From stdpp Require Import base option list gmap strings pretty sorting.

Local Open Scope Z_scope.

(** * The embedding of the script *)

(** ** Built-in string operations used by the script *)

Module PyStr.

Definition code (a : ascii) : Z := Z.of_N (N_of_ascii a).

(** [str.isspace] on the ASCII range: TAB, LF, VT, FF, CR, FS, GS, RS,
    US and SPACE. *)
Definition is_space (a : ascii) : bool :=
  let n := code a in
  ((9 <=? n) && (n <=? 13)) || ((28 <=? n) && (n <=? 32)).

Fixpoint lstrip (s : string) : string :=
  match s with
  | String a t => if is_space a then lstrip t else s
  | EmptyString => EmptyString
  end.

Fixpoint rstrip (s : string) : string :=
  match s with
  | String a t =>
      match rstrip t with
      | EmptyString => if is_space a then EmptyString else String a EmptyString
      | t' => String a t'
      end
  | EmptyString => EmptyString
  end.

(** [s.strip()] *)
Definition strip (s : string) : string := rstrip (lstrip s).

Definition lower_char (a : ascii) : ascii :=
  let n := code a in
  if (65 <=? n) && (n <=? 90) then ascii_of_N (Z.to_N (n + 32)) else a.

(** [s.lower()] *)
Fixpoint lower (s : string) : string :=
  match s with
  | String a t => String (lower_char a) (lower t)
  | EmptyString => EmptyString
  end.

(** [sub in s] *)
Fixpoint contains (sub s : string) : bool :=
  String.prefix sub s ||
  match s with
  | String _ t => contains sub t
  | EmptyString => false
  end.

(** [len(s)]: the number of code points, that is, of bytes that are not
    UTF-8 continuation bytes (10xxxxxx). *)
Fixpoint len (s : string) : Z :=
  match s with
  | String a t => (if Z.land (code a) 192 =? 128 then 0 else 1) + len t
  | EmptyString => 0
  end.

(** Truthiness of a string: [bool(s)], as used by [not s] and [s or d]. *)
Definition truthy (s : string) : bool :=
  match s with EmptyString => false | _ => true end.

(** [s or d] *)
Definition or_else (s d : string) : string := if truthy s then s else d.

Definition digit_of (a : ascii) : option Z :=
  let n := code a in
  if (48 <=? n) && (n <=? 57) then Some (n - 48) else None.

(** Decimal digits, single underscores allowed between two digits. *)
Fixpoint parse_digits (acc : Z) (after_digit : bool) (s : string) : option Z :=
  match s with
  | EmptyString => if after_digit then Some acc else None
  | String a t =>
      if Ascii.eqb a "_" then
        if after_digit then parse_digits acc false t else None
      else
        match digit_of a with
        | Some d => parse_digits (10 * acc + d) true t
        | None => None
        end
  end.

(** The whitespace [int] skips around the digits: TAB, LF, VT, FF, CR and
    SPACE.  FS, GS, RS and US, which [str.strip] removes, are not among
    them. *)
Definition is_int_space (a : ascii) : bool :=
  let n := code a in
  ((9 <=? n) && (n <=? 13)) || (n =? 32).

Fixpoint int_lstrip (s : string) : string :=
  match s with
  | String a t => if is_int_space a then int_lstrip t else s
  | EmptyString => EmptyString
  end.

Fixpoint int_rstrip (s : string) : string :=
  match s with
  | String a t =>
      match int_rstrip t with
      | EmptyString => if is_int_space a then EmptyString else String a EmptyString
      | t' => String a t'
      end
  | EmptyString => EmptyString
  end.

(** [int(s)] for a string in base 10, on ASCII digits: surrounding
    whitespace, an optional sign, then the digits; [None] is [ValueError].
    The bound that Python 3.11 puts on the number of digits (4300 unless
    configured otherwise) is left out. *)
Definition parse_int (s : string) : option Z :=
  match int_rstrip (int_lstrip s) with
  | String a t =>
      if Ascii.eqb a "+" then parse_digits 0 false t
      else if Ascii.eqb a "-" then Z.opp <$> parse_digits 0 false t
      else parse_digits 0 false (String a t)
  | EmptyString => None
  end.

End PyStr.

(** ** Constant tables *)

Definition LEVEL_MAP : gmap string Z := {[ "low" := 0; "medium" := 1; "high" := 2 ]}.

Definition SPEED_MAP : gmap string Z := {[ "slow" := 0; "normal" := 1; "fast" := 2 ]}.

Definition DESIGN_VALUES : gset string := {[ "none"; "wireframe"; "figma" ]}.

Definition MODE_VALUES : gset string := {[ "minimal"; "standard"; "full"; "single-file" ]}.

Definition COMBO_VALUES : gset string := {[ "c1"; "c2"; "c3"; "c4"; "c5"; "c6" ]}.

(** A document of a plan: file name and title. *)
Abbreviation doc := (string * string)%type.

Definition BASELINE_DOCS : list doc :=
  [ ("00-epic-map.md", "Epic Map");
    ("01-feature-story-map.md", "Feature Story Map");
    ("02-core-spec.md", "Core Spec") ].

Definition BASE_DOCS : list doc :=
  [ ("03-combo-decision.md", "组合决策记录");
    ("04-milestone-plan.md", "里程碑计划");
    ("05-ai-prompt-pack.md", "AI 执行 Prompt 包") ].

Definition COMBO_MIN_DOCS : gmap string (list doc) :=
  {[ "c1" := [ ("30-requirement-canvas.md", "需求画布");
               ("31-prototype-brief.md", "原型说明") ];
     "c2" := [ ("30-iteration-slice.md", "迭代切片计划");
               ("31-iteration-backlog.md", "迭代任务清单") ];
     "c3" := [ ("30-scenario-list.md", "场景清单");
               ("31-api-contract-priority.md", "接口契约优先级");
               ("32-data-model.md", "数据模型") ];
     "c4" := [ ("30-ui-flow-map.md", "UI 流程与设计约束");
               ("31-figma-to-prompt-map.md", "Figma 到 Prompt 映射") ];
     "c5" := [ ("30-mvp-hypothesis.md", "MVP 假设");
               ("31-feedback-loop.md", "反馈闭环") ];
     "c6" := [ ("30-domain-map.md", "领域拆分");
               ("31-ubiquitous-language.md", "统一语言");
               ("32-service-boundary.md", "应用服务边界") ] ]}.

Definition STANDARD_DOCS : list doc :=
  [ ("10-prd-lite.md", "PRD Lite");
    ("11-architecture-lite.md", "Architecture Lite");
    ("12-api-spec.md", "API Spec");
    ("13-database-design.md", "Database Design");
    ("14-risk-checklist.md", "风险与回归清单") ].

Definition FULL_DOCS : list doc :=
  [ ("20-module-spec-index.md", "模块 Spec 索引");
    ("21-test-regression-plan.md", "测试与回归计划");
    ("22-ops-runbook.md", "运维 Runbook");
    ("23-change-log-governance.md", "变更治理") ].

Definition SINGLE_FILE_DOC : doc := ("00-single-file-pack.md", "单文件项目文档包").

(** ** Raw input values

    The values [json.loads] can put in the parsed mapping.  A float carries
    what the script can observe of it: its [str()] rendering and its
    truncation toward zero.  Arrays and objects carry their rendering. *)

Inductive pyfloat :=
| FFinite (repr : string) (trunc : Z)
| FNan
| FInf (negative : bool).

Inductive pyval :=
| PNone
| PBool (b : bool)
| PInt (n : Z)
| PFloat (f : pyfloat)
| PStr (s : string)
| PContainer (repr : string).

(** [str(v)] *)
Definition py_str (v : pyval) : string :=
  match v with
  | PNone => "None"
  | PBool true => "True"
  | PBool false => "False"
  | PInt n => pretty n
  | PFloat (FFinite repr _) => repr
  | PFloat FNan => "nan"
  | PFloat (FInf false) => "inf"
  | PFloat (FInf true) => "-inf"
  | PStr s => s
  | PContainer repr => repr
  end.

(** Outcome of [int(v)]: a value, one of the two exceptions [to_int]
    catches, or the [OverflowError] it lets through. *)
Inductive int_outcome :=
| IntValue (n : Z)
| IntTypeError
| IntValueError
| IntOverflowError.

(** [int(v)] *)
Definition py_int (v : pyval) : int_outcome :=
  match v with
  | PNone => IntTypeError
  | PBool b => IntValue (if b then 1 else 0)
  | PInt n => IntValue n
  | PFloat (FFinite _ trunc) => IntValue trunc
  | PFloat FNan => IntValueError
  | PFloat (FInf _) => IntOverflowError
  | PStr s => match PyStr.parse_int s with Some n => IntValue n | None => IntValueError end
  | PContainer _ => IntTypeError
  end.

(** ** Requirement normalizer *)

Definition to_int (value : pyval) (default : Z) : option Z :=
  match py_int value with
  | IntValue n => Some n
  | IntTypeError | IntValueError => Some default
  | IntOverflowError => None
  end.

Definition is_none (v : pyval) : bool :=
  match v with PNone => true | _ => false end.

Definition normalize_level (value : pyval) (default : string) : string :=
  let text := if is_none value then default else PyStr.lower (PyStr.strip (py_str value)) in
  if bool_decide (text ∈ dom LEVEL_MAP) then text else default.

Definition normalize_speed (value : pyval) (default : string) : string :=
  let text := if is_none value then default else PyStr.lower (PyStr.strip (py_str value)) in
  if bool_decide (text ∈ dom SPEED_MAP) then text else default.

Definition normalize_design (value : pyval) (default : string) : string :=
  let text := if is_none value then default else PyStr.lower (PyStr.strip (py_str value)) in
  if bool_decide (text ∈ DESIGN_VALUES) then text else default.

Definition normalize_bool (value : pyval) (default : bool) : bool :=
  match value with
  | PBool b => b
  | PStr s =>
      let lowered := PyStr.lower (PyStr.strip s) in
      if bool_decide (lowered ∈ ({[ "true"; "1"; "yes"; "y" ]} : gset string)) then true
      else if bool_decide (lowered ∈ ({[ "false"; "0"; "no"; "n" ]} : gset string)) then false
      else default
  | _ => default
  end.

(** The dict built by [load_requirements]: always these thirteen keys, with
    values of these types. *)
Record Requirement := {
  project_name : string;
  project_goal : string;
  target_users : string;
  team_size : Z;
  module_count : Z;
  ui_priority : string;
  backend_complexity : string;
  domain_complexity : string;
  compliance_level : string;
  design_source : string;
  frontend_backend_separation : bool;
  need_fast_validation : bool;
  iteration_speed : string
}.

(** [data.get(key)] and [data.get(key, d)] *)
Definition dict_get (data : gmap string pyval) (key : string) : pyval :=
  default PNone (data !! key).

Definition dict_get_or (data : gmap string pyval) (key : string) (d : pyval) : pyval :=
  default d (data !! key).

(** [load_requirements] after the file has been read and parsed into
    [data].  The only exception that escapes is the [OverflowError] of
    [int] on an infinite float, which [to_int] does not catch. *)
Definition load_requirements (data : gmap string pyval) : option Requirement :=
  team ← to_int (dict_get data "team_size") 2;
  modules ← to_int (dict_get data "module_count") 3;
  Some {|
    project_name :=
      PyStr.or_else (PyStr.strip (py_str (dict_get_or data "project_name" (PStr "New Project")))) "New Project";
    project_goal :=
      PyStr.or_else (PyStr.strip (py_str (dict_get_or data "project_goal" (PStr "待补充项目目标")))) "待补充项目目标";
    target_users :=
      PyStr.or_else (PyStr.strip (py_str (dict_get_or data "target_users" (PStr "待补充目标用户")))) "待补充目标用户";
    team_size := Z.max team 1;
    module_count := Z.max modules 1;
    ui_priority := normalize_level (dict_get data "ui_priority") "medium";
    backend_complexity := normalize_level (dict_get data "backend_complexity") "medium";
    domain_complexity := normalize_level (dict_get data "domain_complexity") "low";
    compliance_level := normalize_level (dict_get data "compliance_level") "low";
    design_source := normalize_design (dict_get data "design_source") "none";
    frontend_backend_separation := normalize_bool (dict_get data "frontend_backend_separation") false;
    need_fast_validation := normalize_bool (dict_get data "need_fast_validation") true;
    iteration_speed := normalize_speed (dict_get data "iteration_speed") "normal"
  |}.

(** ** Quality gate *)

Definition placeholder_hints : list string :=
  [ "待补充"; "todo"; "tbd"; "to be determined"; "new project";
    "example"; "示例"; "unknown"; "未定" ].

(** The [required_fields] dict, in insertion order: key and label. *)
Definition required_fields : list (string * string) :=
  [ ("project_name", "项目名称");
    ("project_goal", "项目目标");
    ("target_users", "目标用户") ].

(** [str(req.get(key, ""))] for the keys the gate reads. *)
Definition req_text (req : Requirement) (key : string) : string :=
  if String.eqb key "project_name" then project_name req
  else if String.eqb key "project_goal" then project_goal req
  else if String.eqb key "target_users" then target_users req
  else "".

(** One iteration of the loop over [required_fields]: the issue list before
    and after.  Each [continue] ends the iteration. *)
Definition gate_step (req : Requirement) (issues : list string)
    (field : string * string) : list string :=
  let '(key, label) := field in
  let raw := PyStr.strip (req_text req key) in
  let lowered := PyStr.lower raw in
  if negb (PyStr.truthy raw) then
    issues ++ [label +:+ " 为空"]
  else if PyStr.contains "<" raw || PyStr.contains ">" raw then
    issues ++ [label +:+ " 仍包含模板占位符"]
  else if existsb (λ token, PyStr.contains token lowered) placeholder_hints then
    issues ++ [label +:+ " 仍是占位/示例文本：" +:+ raw]
  else if String.eqb key "project_goal" && (PyStr.len raw <? 8) then
    issues ++ ["项目目标过短，建议写清业务结果与验收口径"]
  else issues.

Definition find_requirement_quality_issues (req : Requirement) : list string :=
  foldl (gate_step req) [] required_fields.

(** ** Combo scorer *)

(** [score[k] += d]; a missing key is a [KeyError]. *)
Definition bump (k : string) (d : Z) (score : gmap string Z) : option (gmap string Z) :=
  v ← score !! k; Some (<[k := v + d]> score).

(** [if c: stmt] *)
Definition when (c : bool) (stmt : gmap string Z → option (gmap string Z))
    (score : gmap string Z) : option (gmap string Z) :=
  if c then stmt score else Some score.

(** [{k: 2 for k in COMBO_VALUES}] *)
Definition initial_scores : gmap string Z := gset_to_gmap 2 COMBO_VALUES.

Definition score_combos (req : Requirement) : option (gmap string Z) :=
  let team := team_size req in
  let modules := module_count req in
  ui ← LEVEL_MAP !! ui_priority req;
  backend ← LEVEL_MAP !! backend_complexity req;
  domain ← LEVEL_MAP !! domain_complexity req;
  compliance ← LEVEL_MAP !! compliance_level req;
  let design := design_source req in
  let separation := frontend_backend_separation req in
  let fast := need_fast_validation req in
  speed ← SPEED_MAP !! iteration_speed req;

  let score := initial_scores in

  score ← when (team <=? 2) (bump "c1" 2) score;
  score ← when (modules <=? 3) (bump "c1" 2) score;
  score ← when fast (bump "c1" 2) score;
  score ← when (bool_decide (design ∈ ({[ "none"; "wireframe" ]} : gset string))) (bump "c1" 1) score;
  score ← bump "c1" (Z.max 0 (1 - domain)) score;
  score ← when (compliance >=? 1) (bump "c1" (-1)) score;

  score ← when ((2 <=? team) && (team <=? 5)) (bump "c2" 2) score;
  score ← when ((3 <=? modules) && (modules <=? 8)) (bump "c2" 2) score;
  score ← when (speed >=? 1) (bump "c2" 2) score;
  score ← when (domain >=? 1) (bump "c2" 1) score;
  score ← when fast (bump "c2" 1) score;

  score ← when separation (bump "c3" 3) score;
  score ← when (backend >=? 1) (bump "c3" 2) score;
  score ← when (modules >=? 4) (bump "c3" 2) score;
  score ← when (compliance >=? 1) (bump "c3" 1) score;

  score ← when (String.eqb design "figma") (bump "c4" 4) score;
  score ← when (ui =? 2) (bump "c4" 3) score;
  score ← when fast (bump "c4" 1) score;
  score ← when (domain =? 2) (bump "c4" (-1)) score;

  score ← when fast (bump "c5" 3) score;
  score ← when (team <=? 3) (bump "c5" 2) score;
  score ← when (speed =? 2) (bump "c5" 2) score;
  score ← when (modules <=? 5) (bump "c5" 1) score;
  score ← when (domain =? 2) (bump "c5" (-1)) score;

  score ← when (domain =? 2) (bump "c6" 4) score;
  score ← when (compliance >=? 1) (bump "c6" 2) score;
  score ← when (team >=? 5) (bump "c6" 2) score;
  score ← when (modules >=? 6) (bump "c6" 2) score;
  score ← when fast (bump "c6" (-1)) score;

  Some score.

(** ** Complexity classifier *)

Definition complexity_level (req : Requirement) : option string :=
  let team := team_size req in
  let modules := module_count req in
  domain ← LEVEL_MAP !! domain_complexity req;
  compliance ← LEVEL_MAP !! compliance_level req;
  backend ← LEVEL_MAP !! backend_complexity req;
  let separation := if frontend_backend_separation req then 1 else 0 in

  let score := 0 in
  let score :=
    if team <=? 2 then score + 0
    else if team <=? 5 then score + 1
    else if team <=? 8 then score + 2
    else score + 3 in

  let score :=
    if modules <=? 3 then score + 0
    else if modules <=? 6 then score + 1
    else if modules <=? 10 then score + 2
    else score + 3 in

  let score := score + (domain + compliance + backend + separation) in

  if score <=? 4 then Some "S"
  else if score <=? 7 then Some "M"
  else if score <=? 10 then Some "L"
  else Some "XL".

(** ** Mode resolver *)

Definition recommend_mode (req : Requirement) (complexity forced_mode : string)
    : option string :=
  if bool_decide (forced_mode ∈ MODE_VALUES) then Some forced_mode
  else
    compliance ← LEVEL_MAP !! compliance_level req;
    if String.eqb complexity "S" && need_fast_validation req then Some "minimal"
    else if String.eqb complexity "XL" || (compliance =? 2) then Some "full"
    else Some "standard".

(** ** Selection resolver *)

(** The sort key [(-item[1], item[0])] and Python's order on such tuples. *)
Definition sort_key (item : string * Z) : Z * string := (- item.2, item.1).

Definition key_le (a b : Z * string) : Prop :=
  a.1 < b.1 ∨ (a.1 = b.1 ∧ String.le a.2 b.2).

Definition item_le (x y : string * Z) : Prop := key_le (sort_key x) (sort_key y).

#[global] Instance key_le_dec : RelDecision key_le.
Proof. intros a b. unfold key_le. apply _. Defined.

#[global] Instance item_le_dec : RelDecision item_le.
Proof. intros x y. unfold item_le. apply _. Defined.

(** [sorted(scores.items(), key=...)].  The keys of the items are pairwise
    distinct and [item_le] is a total order on them, so the sorted list does
    not depend on the order in which the dict yields its items
    ([sorted_items_unique] below). *)
Definition sorted_items (scores : gmap string Z) : list (string * Z) :=
  merge_sort item_le (map_to_list scores).

Definition select_combo (scores : gmap string Z) (forced_combo : string)
    : option (string * option string) :=
  let ordered := sorted_items scores in
  if bool_decide (forced_combo ∈ COMBO_VALUES) then
    let otherwise := fst <$> ordered !! 1%nat in
    let secondary :=
      match ordered !! 0%nat with
      | Some top => if bool_decide (top.1 ≠ forced_combo) then Some top.1 else otherwise
      | None => otherwise
      end in
    Some (forced_combo, secondary)
  else
    top ← ordered !! 0%nat;
    let primary := top.1 in
    let secondary :=
      match ordered !! 1%nat with
      | Some second => if top.2 - second.2 <=? 2 then Some second.1 else None
      | None => None
      end in
    Some (primary, secondary).

(** ** Document planner *)

Definition planned_docs (primary_combo mode : string) : option (list doc) :=
  if String.eqb mode "single-file" then Some [SINGLE_FILE_DOC]
  else
    let docs := BASELINE_DOCS in
    let docs := docs ++ BASE_DOCS in
    combo_docs ← COMBO_MIN_DOCS !! primary_combo;
    let docs := docs ++ combo_docs in
    let docs :=
      if bool_decide (mode ∈ ({[ "standard"; "full" ]} : gset string))
      then docs ++ STANDARD_DOCS else docs in
    let docs := if String.eqb mode "full" then docs ++ FULL_DOCS else docs in
    Some docs.

(** ** The scenarios of the specification *)

Definition scenario1_data : gmap string pyval :=
  {[ "team_size" := PInt 2; "module_count" := PInt 2;
     "need_fast_validation" := PBool true; "design_source" := PStr "none";
     "domain_complexity" := PStr "low"; "compliance_level" := PStr "low" ]}.

Definition scenario2_data : gmap string pyval :=
  {[ "team_size" := PInt 2; "module_count" := PInt 5;
     "need_fast_validation" := PBool true; "design_source" := PStr "none";
     "domain_complexity" := PStr "low"; "compliance_level" := PStr "low";
     "frontend_backend_separation" := PBool true;
     "backend_complexity" := PStr "high" ]}.

Definition scenario1 : Requirement :=
  {| project_name := "New Project"; project_goal := "待补充项目目标";
     target_users := "待补充目标用户"; team_size := 2; module_count := 2;
     ui_priority := "medium"; backend_complexity := "medium";
     domain_complexity := "low"; compliance_level := "low";
     design_source := "none"; frontend_backend_separation := false;
     need_fast_validation := true; iteration_speed := "normal" |}.

Definition scenario2 : Requirement :=
  {| project_name := "New Project"; project_goal := "待补充项目目标";
     target_users := "待补充目标用户"; team_size := 2; module_count := 5;
     ui_priority := "medium"; backend_complexity := "high";
     domain_complexity := "low"; compliance_level := "low";
     design_source := "none"; frontend_backend_separation := true;
     need_fast_validation := true; iteration_speed := "normal" |}.

(** ** Argument and slug helpers *)

Definition MODE_ALIAS : gmap string string :=
  {[ "single" := "single-file"; "single_file" := "single-file";
     "single-file" := "single-file" ]}.

(** A character of the class [a-z0-9]. *)
Definition is_slug_char (a : ascii) : bool :=
  let n := PyStr.code a in
  ((97 <=? n) && (n <=? 122)) || ((48 <=? n) && (n <=? 57)).

Definition is_dash (a : ascii) : bool := Ascii.eqb a "-".

(** [re.sub(r"[^a-z0-9]+", "-", text)]: every maximal run of characters
    outside the class becomes one dash.  [in_run] tells that the run has
    been replaced already.  A character outside ASCII is a run of bytes
    outside the class, so bytes and code points give the same result. *)
Fixpoint sub_non_slug (in_run : bool) (text : string) : string :=
  match text with
  | String a t =>
      if is_slug_char a then String a (sub_non_slug false t)
      else if in_run then sub_non_slug true t
      else String "-" (sub_non_slug true t)
  | EmptyString => EmptyString
  end.

(** [re.sub(r"-{2,}", "-", text)]: a run of two or more dashes becomes one
    dash, and so every run of dashes ends up as one dash. *)
Fixpoint sub_dashes (in_run : bool) (text : string) : string :=
  match text with
  | String a t =>
      if is_dash a then
        if in_run then sub_dashes true t else String a (sub_dashes true t)
      else String a (sub_dashes false t)
  | EmptyString => EmptyString
  end.

Fixpoint lstrip_dashes (s : string) : string :=
  match s with
  | String a t => if is_dash a then lstrip_dashes t else s
  | EmptyString => EmptyString
  end.

Fixpoint rstrip_dashes (s : string) : string :=
  match s with
  | String a t =>
      match rstrip_dashes t with
      | EmptyString => if is_dash a then EmptyString else String a EmptyString
      | t' => String a t'
      end
  | EmptyString => EmptyString
  end.

(** [s.strip("-")] *)
Definition strip_dashes (s : string) : string := rstrip_dashes (lstrip_dashes s).

(** [s[:n]] *)
Fixpoint str_take (n : nat) (s : string) : string :=
  match n, s with
  | S n', String a t => String a (str_take n' t)
  | _, _ => EmptyString
  end.

Definition slugify (value : string) : string :=
  let text := PyStr.lower (PyStr.strip value) in
  let text := sub_non_slug false text in
  let text := strip_dashes (sub_dashes false text) in
  str_take 64 text.

(** ** Reasons of the report *)

Record Combo := {
  code : string;
  name : string;
  pipeline : string;
  fit : string
}.

Definition COMBOS : gmap string Combo :=
  {[ "c1" := {| code := "c1"; name := "需求画布驱动";
                pipeline := "需求画布 -> 原型 -> AI 生成";
                fit := "个人工具、轻量项目、快速起步" |};
     "c2" := {| code := "c2"; name := "Story Mapping 驱动";
                pipeline := "Story Mapping -> 任务拆解 -> AI 迭代";
                fit := "中小项目、持续迭代、多人协作" |};
     "c3" := {| code := "c3"; name := "场景与契约驱动";
                pipeline := "场景驱动(SDD) -> 接口定义 -> 前后端并行";
                fit := "前后端分离、接口协作、联调成本高" |};
     "c4" := {| code := "c4"; name := "设计驱动";
                pipeline := "Figma -> Prompt -> AI 全栈";
                fit := "UI/交互导向项目、设计优先" |};
     "c5" := {| code := "c5"; name := "精益 MVP 驱动";
                pipeline := "精益 MVP -> 反馈 -> AI 快迭代";
                fit := "想法验证、快速试错" |};
     "c6" := {| code := "c6"; name := "DDD 精简驱动";
                pipeline := "DDD 精简 -> 骨架 -> AI 填充";
                fit := "复杂领域、团队交付、长期维护" |} ]}.

Definition base_reason : string :=
  "所有组合统一使用 Epic -> Feature/Story -> Core Spec 作为执行基座".

(** [reasons.append(x)] under [if c]. *)
Definition append_if (c : bool) (x : string) (reasons : list string) : list string :=
  if c then reasons ++ [x] else reasons.

Definition build_reasons (req : Requirement) (combo_code : string) : list string :=
  let reasons := [base_reason] in
  let reasons :=
    if String.eqb combo_code "c1" then
      let reasons :=
        append_if (team_size req <=? 2)
          "团队规模较小，先用需求画布和原型降低沟通成本" reasons in
      append_if (module_count req <=? 3) "模块较少，适合快速出可运行版本" reasons
    else if String.eqb combo_code "c2" then
      let reasons := reasons ++ ["项目需要持续迭代，Story 切片更容易稳定交付"] in
      append_if (module_count req >=? 3) "中等模块规模适合按迭代分批推进" reasons
    else if String.eqb combo_code "c3" then
      let reasons := reasons ++ ["前后端分离/接口协作需求明显，契约先行更稳"] in
      append_if
        (bool_decide (backend_complexity req ∈ ({[ "medium"; "high" ]} : gset string)))
        "后端复杂度偏高，先定 API 可降低联调成本" reasons
    else if String.eqb combo_code "c4" then
      let reasons := reasons ++ ["项目强调视觉和交互，设计驱动路径更高效"] in
      reasons ++ ["可通过设计稿到 Prompt 映射避免只还原界面"]
    else if String.eqb combo_code "c5" then
      let reasons := reasons ++ ["当前目标偏验证，MVP 路线可最低成本试错"] in
      reasons ++ ["反馈闭环可以快速驱动下一轮迭代"]
    else if String.eqb combo_code "c6" then
      let reasons := reasons ++ ["领域复杂或合规要求较高，先做领域边界更安全"] in
      reasons ++ ["DDD 精简骨架能减少后续结构性返工"]
    else reasons in
  take 4 reasons.

(** ** Templates of the document bodies *)

(** The template [doc_body] renders for a file name: one of its own for the
    names it tests in turn, the generic one otherwise.  The text of the
    templates is left out. *)
Inductive doc_template :=
| OwnTemplate (filename : string)
| GenericTemplate.

Definition own_template_names : list string :=
  [ "00-epic-map.md"; "01-feature-story-map.md"; "02-core-spec.md";
    "03-combo-decision.md"; "04-milestone-plan.md"; "05-ai-prompt-pack.md";
    "10-prd-lite.md"; "11-architecture-lite.md"; "12-api-spec.md";
    "13-database-design.md"; "14-risk-checklist.md";
    "20-module-spec-index.md"; "21-test-regression-plan.md";
    "22-ops-runbook.md"; "23-change-log-governance.md" ].

Definition doc_body_template (filename : string) : doc_template :=
  match find (String.eqb filename) own_template_names with
  | Some own => OwnTemplate own
  | None => GenericTemplate
  end.

#[global] Instance doc_template_eq_dec : EqDecision doc_template.
Proof. solve_decision. Defined.

(** ** The selection report *)

(** [str(n)] of an integer, as an f-string renders it. *)
Definition str_int (n : Z) : string := pretty n.

Definition newline : string := String (ascii_of_nat 10) "".

(** [COMBOS[code]]; the [KeyError] of a code outside the table is [None]. *)
Definition report_row (item : string * Z) : option string :=
  combo ← COMBOS !! item.1;
  Some ("| " +:+ item.1 +:+ " | " +:+ pipeline combo +:+ " | " +:+ str_int item.2 +:+ " |").

Definition report_markdown (req : Requirement) (scores : gmap string Z)
    (primary : Combo) (secondary : option Combo) (mode complexity : string)
    (docs : list doc) : option string :=
  let lines :=
    [ "# 选型与文档包报告";
      "";
      "## 1. 输入摘要";
      "";
      "- 项目：" +:+ project_name req;
      "- 目标：" +:+ project_goal req;
      "- 团队规模：" +:+ str_int (team_size req);
      "- 模块数：" +:+ str_int (module_count req);
      "- UI 优先级：" +:+ ui_priority req;
      "- 后端复杂度：" +:+ backend_complexity req;
      "- 领域复杂度：" +:+ domain_complexity req;
      "- 合规等级：" +:+ compliance_level req;
      "";
      "## 2. 组合评分";
      "";
      "| 组合 | 流程 | 分数 |";
      "|---|---|---|" ] in
  rows ← mapM report_row (sorted_items scores);
  let lines := lines ++ rows in
  let lines :=
    lines ++
    [ "";
      "## 3. 推荐结果";
      "";
      "- 主组合：" +:+ code primary +:+ " " +:+ name primary;
      "- 副组合：" +:+
        match secondary with
        | Some combo => code combo +:+ " " +:+ name combo
        | None => "无"
        end;
      "- 复杂度：" +:+ complexity;
      "- 文档模式：" +:+ mode;
      "- 固定基座：Epic -> Feature/Story -> Core Spec";
      "";
      "### 主组合理由";
      "" ] in
  let lines := lines ++ map (λ reason, "- " +:+ reason) (build_reasons req (code primary)) in
  let lines := lines ++ [ ""; "## 4. 文档清单"; "" ] in
  let lines := lines ++ map (λ '(filename, title), "- `" +:+ filename +:+ "`: " +:+ title) docs in
  let lines :=
    lines ++
    [ "";
      "## 5. 下一步执行";
      "";
      "1. 先补全 Epic/Feature/Story/Core Spec 基座。";
      "2. 再执行组合层文档和 M0 实现。";
      "3. 每次变更后同步更新组合决策与里程碑。" ] in
  Some (String.concat newline lines).

(** * The flow runner, [scripts/run_umx_flow.py] *)

Definition VALID_DOCS : list string := [ "prd"; "architecture"; "api"; "database" ].

Definition DOC_ALIAS : gmap string string :=
  {[ "prd" := "prd"; "product" := "prd"; "architecture" := "architecture";
     "arch" := "architecture"; "api" := "api"; "database" := "database";
     "db" := "database" ]}.

(** [s.split(sep)] for a separator of one character: the pieces between the
    separators, the empty ones included. *)
Fixpoint split_on (sep : ascii) (s : string) : list string :=
  match s with
  | String a t =>
      if Ascii.eqb a sep then EmptyString :: split_on sep t
      else match split_on sep t with
           | piece :: pieces => String a piece :: pieces
           | [] => [String a EmptyString]
           end
  | EmptyString => [EmptyString]
  end.

(** One iteration of the loop over [items]: [picked] before and after. *)
Definition pick_doc (picked : list string) (item : string) : list string :=
  match DOC_ALIAS !! item with
  | Some key =>
      if PyStr.truthy key && negb (bool_decide (key ∈ picked))
      then picked ++ [key] else picked
  | None => picked
  end.

Definition normalize_docs (raw : string) : list string :=
  let items :=
    map (λ x, PyStr.lower (PyStr.strip x))
        (List.filter (λ x, PyStr.truthy (PyStr.strip x)) (split_on "," raw)) in
  let items := match items with [] => VALID_DOCS | _ => items end in
  let picked := foldl pick_doc [] items in
  let picked := match picked with [] => VALID_DOCS | _ => picked end in
  List.filter (λ d, bool_decide (d ∈ picked)) VALID_DOCS.

Definition acceptance_phrases : gset string :=
  {[ "接受推荐"; "确认"; "确认推荐"; "确认方案"; "开始生成"; "开始生成文档"; "接受" ]}.

Definition accepted_overrides : gmap string string :=
  {[ "path" := "direct"; "combo" := "auto"; "mode" := "single-file" ]}.

(** The body of the loop over the tokens for a flag [key] with its value. *)
Definition set_flag (key val : string) (result : gmap string string)
    : gmap string string :=
  if String.eqb key "--docs" then <["traditional_docs" := val]> result
  else if String.eqb key "--combo" then <["combo" := val]> result
  else if String.eqb key "--mode" then <["mode" := val]> result
  else if String.eqb key "--output" then <["output" := val]> result
  else if String.eqb key "--path" then <["path" := val]> result
  else result.

(** The loop [while i < len(tokens)] over the tokens after the action: a
    token that starts with two dashes and has a successor takes it as its
    value and both are passed; any other token is passed alone. *)
Fixpoint parse_flags (tokens : list string) (result : gmap string string)
    : gmap string string :=
  match tokens with
  | key :: tl =>
      match tl with
      | val :: rest =>
          if String.prefix "--" key then parse_flags rest (set_flag key val result)
          else parse_flags tl result
      | [] => result
      end
  | [] => result
  end.

(** The overrides an action starts with; [None] for an unknown action. *)
Definition action_overrides (action : string) : option (gmap string string) :=
  if String.eqb action "traditional" then Some {[ "path" := "traditional-first" ]}
  else if String.eqb action "direct" then Some {[ "path" := "direct" ]}
  else if String.eqb action "recommend" then Some {[ "recommend" := "1" ]}
  else if bool_decide (action ∈ ({[ "accept"; "accepted"; "accept-recommend" ]} : gset string))
  then Some (<["mode" := "single-file"]> (<["combo" := "auto"]> {[ "path" := "direct" ]}))
  else None.

Section ParseCommand.

(** [shlex.split] of Python's library: the tokens of a command line, or
    [None] for the [ValueError] it raises on an unclosed quotation. *)
Variable shlex_split : string → option (list string).

Definition parse_command (raw : string) : option (gmap string string) :=
  let cleaned := PyStr.strip raw in
  if negb (PyStr.truthy cleaned) then Some ∅
  else if bool_decide (cleaned ∈ acceptance_phrases) then Some accepted_overrides
  else
    tokens ← shlex_split cleaned;
    match tokens with
    | [] => Some ∅
    | first :: others =>
        let tokens :=
          if bool_decide (first ∈ ({[ "/umx"; "umx" ]} : gset string))
          then others else tokens in
        match tokens with
        | [] => Some ∅
        | head :: flags =>
            let action := PyStr.lower head in
            if String.eqb action "start" then Some {[ "path" := "ask" ]}
            else
              match action_overrides action with
              | Some result => Some (parse_flags flags result)
              | None => Some ∅
              end
        end
    end.

End ParseCommand.

(** The keys a parsed command can hold. *)
Definition override_keys : gset string :=
  {[ "path"; "combo"; "mode"; "recommend"; "traditional_docs"; "output" ]}.

(** * The scripts over the string operations of Python itself

    [str.strip], [str.lower] and [int] of a string follow the tables of
    Unicode: U+3000 is whitespace, U+212A comes out of [lower] as [k], a
    digit of any script counts.  The module [Py] takes no side: it embeds
    the functions of the two scripts that go through these operations once
    more, with the three operations as parameters, and what is proved of
    them holds for every choice of the three, the one of Python and the one
    of [PyStr] alike.  It also embeds [main], from the value of
    [parse_args] to the test of [--print-only]. *)

Module Py.

(** The [argparse.Namespace] that [parse_args] returns. *)
Record Namespace := {
  input : string;
  output : string;
  combo : string;
  mode : string;
  project_slug : string;
  print_only : bool;
  flat : bool;
  allow_placeholder : bool
}.

(** What [json.loads(path.read_text(encoding="utf-8"))] comes to for the
    path of the input: an exception of reading, decoding or parsing, a JSON
    value that is not an object (an array, a string, a number, a boolean or
    null), or the mapping of a JSON object. *)
Inductive parsed_input :=
| Unreadable
| NotAnObject
| JsonObject (data : gmap string pyval).

(** What [main] has at hand when it reaches the test of [--print-only]. *)
Record Plan := {
  plan_req : Requirement;
  plan_scores : gmap string Z;
  plan_primary : Combo;
  plan_secondary : option Combo;
  plan_complexity : string;
  plan_mode : string;
  plan_docs : list doc;
  plan_report : string
}.

(** How [main] fares from the value of [parse_args] to the test of
    [--print-only]: it raises [SystemExit] with a message; another
    exception escapes it; it takes the branch of [--print-only], where the
    report goes to [print] and [main] returns with no file written; or it
    goes on to the output folder and the files, which this embedding does
    not follow. *)
Inductive main_outcome :=
| SystemExit (message : string)
| Uncaught
| Printed (plan : Plan)
| GoesOnToWrite (plan : Plan).

(** [raise SystemExit(...)] of a failed quality check. *)
Definition quality_exit (quality_issues : list string) : main_outcome :=
  let details := String.concat newline (map (λ item, "- " +:+ item) quality_issues) in
  SystemExit
    ("Input quality check failed. Please complete concrete requirements before generating docs:"
     +:+ newline +:+ details +:+ newline
     +:+ "Tip: this guardrail helps reduce hallucination/context-loss/bug-loop in follow-up AI coding. "
     +:+ "Use --allow-placeholder only for temporary drafts.").

(** [x] if the option holds a value, the uncaught exception otherwise. *)
Definition or_uncaught {A} (x : option A) (k : A → main_outcome) : main_outcome :=
  match x with Some a => k a | None => Uncaught end.

Section Builtins.

(** [s.strip()] and [s.lower()] *)
Variables strip lower : string → string.

(** [int(s)] of a string; [None] is its [ValueError]. *)
Variable int_of_str : string → option Z.

(** [int(v)] *)
Definition py_int (v : pyval) : int_outcome :=
  match v with
  | PNone => IntTypeError
  | PBool b => IntValue (if b then 1 else 0)
  | PInt n => IntValue n
  | PFloat (FFinite _ trunc) => IntValue trunc
  | PFloat FNan => IntValueError
  | PFloat (FInf _) => IntOverflowError
  | PStr s => match int_of_str s with Some n => IntValue n | None => IntValueError end
  | PContainer _ => IntTypeError
  end.

Definition to_int (value : pyval) (default : Z) : option Z :=
  match py_int value with
  | IntValue n => Some n
  | IntTypeError | IntValueError => Some default
  | IntOverflowError => None
  end.

Definition normalize_level (value : pyval) (default : string) : string :=
  let text := if is_none value then default else lower (strip (py_str value)) in
  if bool_decide (text ∈ dom LEVEL_MAP) then text else default.

Definition normalize_speed (value : pyval) (default : string) : string :=
  let text := if is_none value then default else lower (strip (py_str value)) in
  if bool_decide (text ∈ dom SPEED_MAP) then text else default.

Definition normalize_design (value : pyval) (default : string) : string :=
  let text := if is_none value then default else lower (strip (py_str value)) in
  if bool_decide (text ∈ DESIGN_VALUES) then text else default.

Definition normalize_bool (value : pyval) (default : bool) : bool :=
  match value with
  | PBool b => b
  | PStr s =>
      let lowered := lower (strip s) in
      if bool_decide (lowered ∈ ({[ "true"; "1"; "yes"; "y" ]} : gset string)) then true
      else if bool_decide (lowered ∈ ({[ "false"; "0"; "no"; "n" ]} : gset string)) then false
      else default
  | _ => default
  end.

Definition normalize_mode_arg (raw : string) : string :=
  let mode := lower (strip raw) in
  default mode (MODE_ALIAS !! mode).

(** [load_requirements(path)], [file] being what reading and parsing the
    path comes to.  [data.get] of a value that is not an object is an
    [AttributeError]; on an object the one exception is the [OverflowError]
    of [int] on an infinite float, which [to_int] does not catch. *)
Definition load_requirements (file : parsed_input) : option Requirement :=
  match file with
  | Unreadable | NotAnObject => None
  | JsonObject data =>
      team ← to_int (dict_get data "team_size") 2;
      modules ← to_int (dict_get data "module_count") 3;
      Some {|
        project_name :=
          PyStr.or_else (strip (py_str (dict_get_or data "project_name" (PStr "New Project")))) "New Project";
        project_goal :=
          PyStr.or_else (strip (py_str (dict_get_or data "project_goal" (PStr "待补充项目目标")))) "待补充项目目标";
        target_users :=
          PyStr.or_else (strip (py_str (dict_get_or data "target_users" (PStr "待补充目标用户")))) "待补充目标用户";
        team_size := Z.max team 1;
        module_count := Z.max modules 1;
        ui_priority := normalize_level (dict_get data "ui_priority") "medium";
        backend_complexity := normalize_level (dict_get data "backend_complexity") "medium";
        domain_complexity := normalize_level (dict_get data "domain_complexity") "low";
        compliance_level := normalize_level (dict_get data "compliance_level") "low";
        design_source := normalize_design (dict_get data "design_source") "none";
        frontend_backend_separation := normalize_bool (dict_get data "frontend_backend_separation") false;
        need_fast_validation := normalize_bool (dict_get data "need_fast_validation") true;
        iteration_speed := normalize_speed (dict_get data "iteration_speed") "normal"
      |}
  end.

(** One iteration of the loop over [required_fields]: the issue list before
    and after.  Each [continue] ends the iteration. *)
Definition gate_step (req : Requirement) (issues : list string)
    (field : string * string) : list string :=
  let '(key, label) := field in
  let raw := strip (req_text req key) in
  let lowered := lower raw in
  if negb (PyStr.truthy raw) then
    issues ++ [label +:+ " 为空"]
  else if PyStr.contains "<" raw || PyStr.contains ">" raw then
    issues ++ [label +:+ " 仍包含模板占位符"]
  else if existsb (λ token, PyStr.contains token lowered) placeholder_hints then
    issues ++ [label +:+ " 仍是占位/示例文本：" +:+ raw]
  else if String.eqb key "project_goal" && (PyStr.len raw <? 8) then
    issues ++ ["项目目标过短，建议写清业务结果与验收口径"]
  else issues.

Definition find_requirement_quality_issues (req : Requirement) : list string :=
  foldl (gate_step req) [] required_fields.

(** [main] from the namespace [args] of [parse_args] to the test of
    [--print-only], [file] being what reading and parsing [args.input]
    comes to at the call of [load_requirements]. *)
Definition main (args : Namespace) (file : parsed_input) : main_outcome :=
  let combo_arg := lower (strip (combo args)) in
  let mode_arg := normalize_mode_arg (mode args) in
  if negb (String.eqb combo_arg "auto") && negb (bool_decide (combo_arg ∈ COMBO_VALUES)) then
    SystemExit ("Invalid --combo: " +:+ combo_arg)
  else if negb (String.eqb mode_arg "auto") && negb (bool_decide (mode_arg ∈ MODE_VALUES)) then
    SystemExit ("Invalid --mode: " +:+ mode_arg)
  else
    or_uncaught (load_requirements file) (λ req,
    let quality_issues := find_requirement_quality_issues req in
    if negb (allow_placeholder args) && negb (bool_decide (quality_issues = [])) then
      quality_exit quality_issues
    else
      or_uncaught (score_combos req) (λ scores,
      or_uncaught (select_combo scores combo_arg) (λ '(primary_code, secondary_code),
      or_uncaught (complexity_level req) (λ complexity,
      or_uncaught (recommend_mode req complexity mode_arg) (λ mode,
      or_uncaught (COMBOS !! primary_code) (λ primary,
      or_uncaught
        (match secondary_code with
         | Some c => if PyStr.truthy c then Some <$> COMBOS !! c else Some None
         | None => Some None
         end) (λ secondary,
      or_uncaught (planned_docs primary_code mode) (λ docs,
      or_uncaught (report_markdown req scores primary secondary mode complexity docs) (λ report,
      let plan :=
        {| plan_req := req; plan_scores := scores; plan_primary := primary;
           plan_secondary := secondary; plan_complexity := complexity;
           plan_mode := mode; plan_docs := docs; plan_report := report |} in
      if print_only args then Printed plan else GoesOnToWrite plan))))))))).

(** [normalize_docs] of the flow runner. *)
Definition normalize_docs (raw : string) : list string :=
  let items :=
    map (λ x, lower (strip x))
        (List.filter (λ x, PyStr.truthy (strip x)) (split_on "," raw)) in
  let items := match items with [] => VALID_DOCS | _ => items end in
  let picked := foldl pick_doc [] items in
  let picked := match picked with [] => VALID_DOCS | _ => picked end in
  List.filter (λ d, bool_decide (d ∈ picked)) VALID_DOCS.

End Builtins.

End Py.

(** * Definitions of the specification

    What the specification says of the engine, in its own words, for
    comparison with the embedding above. *)

(** ** Normalized requirements

    The invariant of the data model: every field is within its domain. *)

Record normalized (r : Requirement) : Prop := {
  norm_name : project_name r ≠ "";
  norm_goal : project_goal r ≠ "";
  norm_users : target_users r ≠ "";
  norm_team : 1 ≤ team_size r;
  norm_modules : 1 ≤ module_count r;
  norm_ui : ui_priority r ∈ dom LEVEL_MAP;
  norm_backend : backend_complexity r ∈ dom LEVEL_MAP;
  norm_domain : domain_complexity r ∈ dom LEVEL_MAP;
  norm_compliance : compliance_level r ∈ dom LEVEL_MAP;
  norm_design : design_source r ∈ DESIGN_VALUES;
  norm_speed : iteration_speed r ∈ dom SPEED_MAP
}.

(** ** Boolean fields *)

Definition is_bool_or_str (v : pyval) : Prop :=
  match v with PBool _ | PStr _ => True | _ => False end.

#[global] Instance is_bool_or_str_dec v : Decision (is_bool_or_str v).
Proof. destruct v; simpl; apply _. Defined.

Definition numeric_flags_data : gmap string pyval :=
  {[ "frontend_backend_separation" := PInt 1; "need_fast_validation" := PInt 0 ]}.

(** ** Mode policy *)

(** The policy in the words of the specification. *)
Definition spec_mode (req : Requirement) (tier forced : string) : string :=
  if bool_decide (forced ∈ MODE_VALUES) then forced
  else if bool_decide (tier = "S" ∧ need_fast_validation req = true) then "minimal"
  else if bool_decide (tier = "XL" ∨ compliance_level req = "high") then "full"
  else "standard".

(** ** Complexity bands *)

(** The classification in the words of the specification. *)
Module ClassifierSpec.

Definition team_band (n : Z) : Z :=
  if decide (n ≤ 2) then 0 else if decide (n ≤ 5) then 1
  else if decide (n ≤ 8) then 2 else 3.

Definition module_band (n : Z) : Z :=
  if decide (n ≤ 3) then 0 else if decide (n ≤ 6) then 1
  else if decide (n ≤ 10) then 2 else 3.

(** Ordinal value of a level of {low, medium, high}. *)
Definition ordinal (level : string) : Z :=
  if decide (level = "low") then 0
  else if decide (level = "medium") then 1
  else 2.

Definition total (r : Requirement) : Z :=
  team_band (team_size r) + module_band (module_count r)
  + ordinal (domain_complexity r) + ordinal (compliance_level r)
  + ordinal (backend_complexity r)
  + (if frontend_backend_separation r then 1 else 0).

Definition tier_of (total : Z) : string :=
  if decide (total ≤ 4) then "S" else if decide (total ≤ 7) then "M"
  else if decide (total ≤ 10) then "L" else "XL".

End ClassifierSpec.

(** Position of a tier on the scale S < M < L < XL. *)
Definition tier_rank (tier : string) : option nat :=
  if String.eqb tier "S" then Some 0%nat
  else if String.eqb tier "M" then Some 1%nat
  else if String.eqb tier "L" then Some 2%nat
  else if String.eqb tier "XL" then Some 3%nat
  else None.

(** Two requirements that agree on every field but [compliance_level]. *)
Record same_but_compliance (r1 r2 : Requirement) : Prop := {
  same_name : project_name r1 = project_name r2;
  same_goal : project_goal r1 = project_goal r2;
  same_users : target_users r1 = target_users r2;
  same_team : team_size r1 = team_size r2;
  same_modules : module_count r1 = module_count r2;
  same_ui : ui_priority r1 = ui_priority r2;
  same_backend : backend_complexity r1 = backend_complexity r2;
  same_domain : domain_complexity r1 = domain_complexity r2;
  same_design : design_source r1 = design_source r2;
  same_separation : frontend_backend_separation r1 = frontend_backend_separation r2;
  same_fast : need_fast_validation r1 = need_fast_validation r2;
  same_speed : iteration_speed r1 = iteration_speed r2
}.

Definition scenario2_high : Requirement :=
  {| project_name := "New Project"; project_goal := "待补充项目目标";
     target_users := "待补充目标用户"; team_size := 2; module_count := 5;
     ui_priority := "medium"; backend_complexity := "high";
     domain_complexity := "low"; compliance_level := "high";
     design_source := "none"; frontend_backend_separation := true;
     need_fast_validation := true; iteration_speed := "normal" |}.

(** ** Per-field checks of the gate *)

(** The per-field checks in the words of the specification: the first check
    that matches decides the issue of the field, if any. *)
Module GateSpec.

Definition has_angle (raw : string) : Prop :=
  PyStr.contains "<" raw = true ∨ PyStr.contains ">" raw = true.

Definition has_hint (raw : string) : Prop :=
  ∃ token, In token placeholder_hints ∧
           PyStr.contains token (PyStr.lower raw) = true.

Definition too_short (key raw : string) : Prop :=
  key = "project_goal" ∧ PyStr.len raw < 8.

Inductive field_check (key label value : string) : option string → Prop :=
| check_empty :
    PyStr.strip value = "" →
    field_check key label value (Some (label +:+ " 为空"))
| check_template :
    PyStr.strip value ≠ "" → has_angle (PyStr.strip value) →
    field_check key label value (Some (label +:+ " 仍包含模板占位符"))
| check_hint :
    PyStr.strip value ≠ "" → ¬ has_angle (PyStr.strip value) →
    has_hint (PyStr.strip value) →
    field_check key label value
      (Some (label +:+ " 仍是占位/示例文本：" +:+ PyStr.strip value))
| check_short :
    PyStr.strip value ≠ "" → ¬ has_angle (PyStr.strip value) →
    ¬ has_hint (PyStr.strip value) → too_short key (PyStr.strip value) →
    field_check key label value
      (Some "项目目标过短，建议写清业务结果与验收口径")
| check_pass :
    PyStr.strip value ≠ "" → ¬ has_angle (PyStr.strip value) →
    ¬ has_hint (PyStr.strip value) → ¬ too_short key (PyStr.strip value) →
    field_check key label value None.

End GateSpec.

(** ** The gate over the string operations of Python

    The checks of a field in the words of the specification, trimming and
    lower-casing being those of Python, whatever they do to a text. *)

Module GateSpecPy.

Section Builtins.

Variables strip lower : string → string.

Definition has_hint (raw : string) : Prop :=
  ∃ token, In token placeholder_hints ∧ PyStr.contains token (lower raw) = true.

Inductive field_check (key label value : string) : option string → Prop :=
| check_empty :
    strip value = "" →
    field_check key label value (Some (label +:+ " 为空"))
| check_template :
    strip value ≠ "" → GateSpec.has_angle (strip value) →
    field_check key label value (Some (label +:+ " 仍包含模板占位符"))
| check_hint :
    strip value ≠ "" → ¬ GateSpec.has_angle (strip value) →
    has_hint (strip value) →
    field_check key label value
      (Some (label +:+ " 仍是占位/示例文本：" +:+ strip value))
| check_short :
    strip value ≠ "" → ¬ GateSpec.has_angle (strip value) →
    ¬ has_hint (strip value) → GateSpec.too_short key (strip value) →
    field_check key label value
      (Some "项目目标过短，建议写清业务结果与验收口径")
| check_pass :
    strip value ≠ "" → ¬ GateSpec.has_angle (strip value) →
    ¬ has_hint (strip value) → ¬ GateSpec.too_short key (strip value) →
    field_check key label value None.

End Builtins.

End GateSpecPy.

(** ** Items of a list of documents *)

(** The item, trimmed and in lower case, is a name or an alias of [d]; an
    item that is blank after trimming names nothing. *)
Definition names_doc (strip lower : string → string) (part d : string) : Prop :=
  strip part ≠ "" ∧ DOC_ALIAS !! lower (strip part) = Some d.

(** ** Score floors *)

(** The table has the six codes as keys and holds at least [n] for [k]. *)
Definition scored (k : string) (n : Z) (t : gmap string Z) : Prop :=
  dom t = COMBO_VALUES ∧ ∃ v, t !! k = Some v ∧ n ≤ v.

(** ** Ranking *)

(** The ranking in the words of the specification: descending score, ties
    by ascending code. *)
Definition ranks_before (x y : string * Z) : Prop :=
  y.2 < x.2 ∨ (x.2 = y.2 ∧ String.le x.1 y.1).

(** The score table of the second scenario: c2 and c3 share the top score. *)
Definition scenario2_scores : gmap string Z :=
  {[ "c1" := 8; "c2" := 9; "c3" := 9; "c4" := 3; "c5" := 8; "c6" := 1 ]}.

(** ** The contract-first scenario *)

(** The scenario as the specification words it: the primary combo is c3 and
    the tier lies above the tier of the first scenario. *)
Definition contract_first_scenario_claim : Prop :=
  ∃ r r0 scores secondary tier tier0 n n0,
    load_requirements scenario2_data = Some r ∧
    load_requirements scenario1_data = Some r0 ∧
    score_combos r = Some scores ∧
    select_combo scores "auto" = Some ("c3", secondary) ∧
    complexity_level r = Some tier ∧ complexity_level r0 = Some tier0 ∧
    tier_rank tier = Some n ∧ tier_rank tier0 = Some n0 ∧ (n0 < n)%nat.

(** ** Shape of a slug *)

Fixpoint str_all (p : ascii → bool) (s : string) : bool :=
  match s with
  | String a t => p a && str_all p t
  | EmptyString => true
  end.

Definition starts_dash (s : string) : bool :=
  match s with String a _ => is_dash a | EmptyString => false end.

Fixpoint no_double_dash (s : string) : bool :=
  match s with
  | String a t => negb (is_dash a && starts_dash t) && no_double_dash t
  | EmptyString => true
  end.

Definition slug_char_or_dash (a : ascii) : bool := is_slug_char a || is_dash a.

(** ** Missing text *)

(** The key is absent from the parsed mapping, or its value renders as
    nothing but whitespace. *)
Definition text_missing (data : gmap string pyval) (key : string) : Prop :=
  match data !! key with
  | Some v => PyStr.strip (py_str v) = ""
  | None => True
  end.

Definition is_infinite (v : pyval) : Prop :=
  match v with PFloat (FInf _) => True | _ => False end.

Definition infinite_sizes_data : gmap string pyval :=
  {[ "team_size" := PFloat (FInf false) ]}.

(** ** Inputs that make the normalizer raise *)

(** The file cannot be read or parsed, its value is not an object, or the
    team size or the module count is an infinite float. *)
Definition input_raises (file : Py.parsed_input) : Prop :=
  match file with
  | Py.Unreadable | Py.NotAnObject => True
  | Py.JsonObject data =>
      is_infinite (dict_get data "team_size") ∨ is_infinite (dict_get data "module_count")
  end.

(** ** Scores as sums *)

(** The delta of a rule: [d] when its condition holds. *)
Definition rule (c : bool) (d : Z) : Z := if c then d else 0.

(** The ordinal of a value of a level table. *)
Definition level_of (table : gmap string Z) (value : string) : Z :=
  default 0 (table !! value).

(** The score of a combo as the baseline plus the deltas of its rules. *)
Definition combo_score (r : Requirement) (k : string) : Z :=
  let team := team_size r in
  let modules := module_count r in
  let ui := level_of LEVEL_MAP (ui_priority r) in
  let backend := level_of LEVEL_MAP (backend_complexity r) in
  let domain := level_of LEVEL_MAP (domain_complexity r) in
  let compliance := level_of LEVEL_MAP (compliance_level r) in
  let design := design_source r in
  let separation := frontend_backend_separation r in
  let fast := need_fast_validation r in
  let speed := level_of SPEED_MAP (iteration_speed r) in
  if String.eqb k "c1" then
    2 + rule (team <=? 2) 2 + rule (modules <=? 3) 2 + rule fast 2
    + rule (bool_decide (design ∈ ({[ "none"; "wireframe" ]} : gset string))) 1
    + Z.max 0 (1 - domain) + rule (compliance >=? 1) (-1)
  else if String.eqb k "c2" then
    2 + rule ((2 <=? team) && (team <=? 5)) 2
    + rule ((3 <=? modules) && (modules <=? 8)) 2
    + rule (speed >=? 1) 2 + rule (domain >=? 1) 1 + rule fast 1
  else if String.eqb k "c3" then
    2 + rule separation 3 + rule (backend >=? 1) 2 + rule (modules >=? 4) 2
    + rule (compliance >=? 1) 1
  else if String.eqb k "c4" then
    2 + rule (String.eqb design "figma") 4 + rule (ui =? 2) 3 + rule fast 1
    + rule (domain =? 2) (-1)
  else if String.eqb k "c5" then
    2 + rule fast 3 + rule (team <=? 3) 2 + rule (speed =? 2) 2
    + rule (modules <=? 5) 1 + rule (domain =? 2) (-1)
  else
    2 + rule (domain =? 2) 4 + rule (compliance >=? 1) 2 + rule (team >=? 5) 2
    + rule (modules >=? 6) 2 + rule fast (-1).

(** What the rules of a combo add to its score on top of the common
    baseline: the sum of the deltas of its rules, the subtractive ones
    included. *)
Definition rule_deltas (r : Requirement) (k : string) : Z :=
  let team := team_size r in
  let modules := module_count r in
  let ui := level_of LEVEL_MAP (ui_priority r) in
  let backend := level_of LEVEL_MAP (backend_complexity r) in
  let domain := level_of LEVEL_MAP (domain_complexity r) in
  let compliance := level_of LEVEL_MAP (compliance_level r) in
  let design := design_source r in
  let separation := frontend_backend_separation r in
  let fast := need_fast_validation r in
  let speed := level_of SPEED_MAP (iteration_speed r) in
  if String.eqb k "c1" then
    rule (team <=? 2) 2 + rule (modules <=? 3) 2 + rule fast 2
    + rule (bool_decide (design ∈ ({[ "none"; "wireframe" ]} : gset string))) 1
    + Z.max 0 (1 - domain) + rule (compliance >=? 1) (-1)
  else if String.eqb k "c2" then
    rule ((2 <=? team) && (team <=? 5)) 2
    + rule ((3 <=? modules) && (modules <=? 8)) 2
    + rule (speed >=? 1) 2 + rule (domain >=? 1) 1 + rule fast 1
  else if String.eqb k "c3" then
    rule separation 3 + rule (backend >=? 1) 2 + rule (modules >=? 4) 2
    + rule (compliance >=? 1) 1
  else if String.eqb k "c4" then
    rule (String.eqb design "figma") 4 + rule (ui =? 2) 3 + rule fast 1
    + rule (domain =? 2) (-1)
  else if String.eqb k "c5" then
    rule fast 3 + rule (team <=? 3) 2 + rule (speed =? 2) 2
    + rule (modules <=? 5) 1 + rule (domain =? 2) (-1)
  else
    rule (domain =? 2) 4 + rule (compliance >=? 1) 2 + rule (team >=? 5) 2
    + rule (modules >=? 6) 2 + rule fast (-1).

(** The table holds the six codes and the value [v] for [k]. *)
Definition holds (k : string) (v : Z) (t : gmap string Z) : Prop :=
  dom t = COMBO_VALUES ∧ t !! k = Some v.

(** The requirement with another value of one flag. *)
Definition with_fast (b : bool) (r : Requirement) : Requirement :=
  {| project_name := project_name r; project_goal := project_goal r;
     target_users := target_users r; team_size := team_size r;
     module_count := module_count r; ui_priority := ui_priority r;
     backend_complexity := backend_complexity r;
     domain_complexity := domain_complexity r;
     compliance_level := compliance_level r; design_source := design_source r;
     frontend_backend_separation := frontend_backend_separation r;
     need_fast_validation := b; iteration_speed := iteration_speed r |}.

Definition with_separation (b : bool) (r : Requirement) : Requirement :=
  {| project_name := project_name r; project_goal := project_goal r;
     target_users := target_users r; team_size := team_size r;
     module_count := module_count r; ui_priority := ui_priority r;
     backend_complexity := backend_complexity r;
     domain_complexity := domain_complexity r;
     compliance_level := compliance_level r; design_source := design_source r;
     frontend_backend_separation := b;
     need_fast_validation := need_fast_validation r;
     iteration_speed := iteration_speed r |}.

(** What turning on fast validation adds to the score of each combo. *)
Definition fast_bonus : gmap string Z :=
  {[ "c1" := 2; "c2" := 1; "c3" := 0; "c4" := 1; "c5" := 3; "c6" := -1 ]}.

(** A value [int] rejects with an exception that [to_int] catches: null, an
    array or object, a float that is not a number. *)
Definition no_integer (v : pyval) : Prop :=
  match v with
  | PNone | PContainer _ | PFloat FNan => True
  | _ => False
  end.

(** * Properties *)

(** ** String operations *)

Example strip_example : PyStr.strip "  Hi There 	" = "Hi There".
Proof. reflexivity. Qed.

Example lower_example : PyStr.lower "To Be DETERMINED" = "to be determined".
Proof. reflexivity. Qed.

Example contains_example :
  PyStr.contains "tbd" "name: tbd" = true ∧ PyStr.contains "<" "abc" = false.
Proof. split; reflexivity. Qed.

Example len_example : PyStr.len "项目目标" = 4 ∧ PyStr.len "goal" = 4.
Proof. split; reflexivity. Qed.

Example parse_int_example :
  PyStr.parse_int " 1_000 " = Some 1000 ∧ PyStr.parse_int "-7" = Some (-7) ∧
  PyStr.parse_int "1__0" = None ∧ PyStr.parse_int "" = None ∧
  PyStr.parse_int "3.5" = None ∧
  PyStr.parse_int (String (ascii_of_nat 28) "12") = None.
Proof. repeat split; reflexivity. Qed.

(** ** Requirement normalizer *)

Lemma level_cases (s : string) :
  s ∈ dom LEVEL_MAP ↔ s = "low" ∨ s = "medium" ∨ s = "high".
Proof. unfold LEVEL_MAP. rewrite !dom_insert_L, dom_singleton_L. set_solver. Qed.

Lemma speed_cases (s : string) :
  s ∈ dom SPEED_MAP ↔ s = "slow" ∨ s = "normal" ∨ s = "fast".
Proof. unfold SPEED_MAP. rewrite !dom_insert_L, dom_singleton_L. set_solver. Qed.

Lemma combo_cases (k : string) :
  k ∈ COMBO_VALUES ↔
  k = "c1" ∨ k = "c2" ∨ k = "c3" ∨ k = "c4" ∨ k = "c5" ∨ k = "c6".
Proof. unfold COMBO_VALUES. rewrite !elem_of_union, !elem_of_singleton. tauto. Qed.

Lemma level_lookup (s : string) :
  s ∈ dom LEVEL_MAP → ∃ n, LEVEL_MAP !! s = Some n ∧ 0 ≤ n ≤ 2.
Proof.
  intros [-> | [-> | ->]]%level_cases; eexists; (split; [reflexivity | lia]).
Qed.

Lemma speed_lookup (s : string) :
  s ∈ dom SPEED_MAP → ∃ n, SPEED_MAP !! s = Some n ∧ 0 ≤ n ≤ 2.
Proof.
  intros [-> | [-> | ->]]%speed_cases; eexists; (split; [reflexivity | lia]).
Qed.

Lemma normalize_level_in (v : pyval) (d : string) :
  d ∈ dom LEVEL_MAP → normalize_level v d ∈ dom LEVEL_MAP.
Proof. intros Hd. unfold normalize_level. case_bool_decide; assumption. Qed.

Lemma normalize_speed_in (v : pyval) (d : string) :
  d ∈ dom SPEED_MAP → normalize_speed v d ∈ dom SPEED_MAP.
Proof. intros Hd. unfold normalize_speed. case_bool_decide; assumption. Qed.

Lemma normalize_design_in (v : pyval) (d : string) :
  d ∈ DESIGN_VALUES → normalize_design v d ∈ DESIGN_VALUES.
Proof. intros Hd. unfold normalize_design. case_bool_decide; assumption. Qed.

Lemma or_else_nonempty (s d : string) : d ≠ "" → PyStr.or_else s d ≠ "".
Proof. intros Hd. unfold PyStr.or_else. destruct s; simpl; [assumption | discriminate]. Qed.

(** Whatever the parsed mapping holds, a requirement that comes out of the
    normalizer is normalized. *)
Lemma load_requirements_normalized (data : gmap string pyval) (r : Requirement) :
  load_requirements data = Some r → normalized r.
Proof.
  unfold load_requirements. intros H.
  destruct (to_int (dict_get data "team_size") 2) as [team|]; [|discriminate].
  destruct (to_int (dict_get data "module_count") 3) as [modules|]; [|discriminate].
  cbn [mbind option_bind] in H. injection H as <-.
  split; cbn [project_name project_goal target_users team_size module_count
              ui_priority backend_complexity domain_complexity compliance_level
              design_source iteration_speed].
  - apply or_else_nonempty. discriminate.
  - apply or_else_nonempty. discriminate.
  - apply or_else_nonempty. discriminate.
  - lia.
  - lia.
  - apply normalize_level_in, level_cases. auto.
  - apply normalize_level_in, level_cases. auto.
  - apply normalize_level_in, level_cases. auto.
  - apply normalize_level_in, level_cases. auto.
  - apply normalize_design_in. unfold DESIGN_VALUES.
    rewrite !elem_of_union, !elem_of_singleton. auto.
  - apply normalize_speed_in, speed_cases. auto.
Qed.

(** The normalizer fails only on an infinite float in one of the two
    integer fields. *)
Lemma load_requirements_total (data : gmap string pyval) :
  (∀ b, dict_get data "team_size" ≠ PFloat (FInf b)) →
  (∀ b, dict_get data "module_count" ≠ PFloat (FInf b)) →
  is_Some (load_requirements data).
Proof.
  intros Ht Hm. unfold load_requirements, to_int, py_int.
  destruct (dict_get data "team_size") as [| | |[| |]| |]; try (by destruct (Ht negative));
  destruct (dict_get data "module_count") as [| | |[| |]| |]; try (by destruct (Hm negative));
  repeat case_match; simpl; eauto; discriminate.
Qed.

Lemma scenario1_loaded : load_requirements scenario1_data = Some scenario1.
Proof. vm_compute. reflexivity. Qed.

Lemma scenario2_loaded : load_requirements scenario2_data = Some scenario2.
Proof. vm_compute. reflexivity. Qed.

Lemma scenario1_normalized : normalized scenario1.
Proof. exact (load_requirements_normalized _ _ scenario1_loaded). Qed.

Lemma scenario2_normalized : normalized scenario2.
Proof. exact (load_requirements_normalized _ _ scenario2_loaded). Qed.

(** ** Boolean normalization *)

Lemma normalize_bool_other (v : pyval) (d : bool) :
  ¬ is_bool_or_str v → normalize_bool v d = d.
Proof. destruct v; simpl; intros H; try reflexivity; destruct H; exact I. Qed.

(** C10: a value that is neither a bool nor a string, the JSON numbers 1 and
    0 among them, normalizes to the default of the field and not to its
    truthiness: [frontend_backend_separation] stays [False] and
    [need_fast_validation] stays [True]; only a bool or a string can move a
    field away from its default. *)
Theorem normalize_bool_non_bool_non_str_defaults
    (data : gmap string pyval) (r : Requirement) :
  load_requirements data = Some r →
  (∀ v d, ¬ is_bool_or_str v → normalize_bool v d = d) ∧
  (∀ v d, normalize_bool v d ≠ d → is_bool_or_str v) ∧
  (∀ n d, normalize_bool (PInt n) d = d) ∧
  (¬ is_bool_or_str (dict_get data "frontend_backend_separation") →
     frontend_backend_separation r = false) ∧
  (¬ is_bool_or_str (dict_get data "need_fast_validation") →
     need_fast_validation r = true).
Proof.
  intros Hload.
  split; [exact normalize_bool_other |].
  split.
  { intros v d Hne. destruct (decide (is_bool_or_str v)) as [|Hn]; [assumption |].
    destruct Hne. by apply normalize_bool_other. }
  split; [reflexivity |].
  unfold load_requirements in Hload.
  destruct (to_int (dict_get data "team_size") 2); [|discriminate].
  destruct (to_int (dict_get data "module_count") 3); [|discriminate].
  cbn [mbind option_bind] in Hload. injection Hload as <-.
  cbn [frontend_backend_separation need_fast_validation].
  split; apply normalize_bool_other.
Qed.

Lemma normalize_bool_non_bool_non_str_defaults_witness :
  ∃ r, load_requirements numeric_flags_data = Some r ∧
       frontend_backend_separation r = false ∧ need_fast_validation r = true.
Proof.
  destruct (load_requirements numeric_flags_data) as [r|] eqn:E;
    [| vm_compute in E; discriminate].
  exists r. split; [reflexivity |].
  destruct (normalize_bool_non_bool_non_str_defaults numeric_flags_data r E)
    as (_ & _ & _ & Hsep & Hfast).
  split; [apply Hsep | apply Hfast]; vm_compute; tauto.
Defined.

(** String tokens and booleans do set the fields. *)
Example normalize_bool_tokens :
  normalize_bool (PStr " YES ") false = true ∧
  normalize_bool (PStr "0") true = false ∧
  normalize_bool (PStr "maybe") true = true ∧
  normalize_bool (PBool false) true = false ∧
  normalize_bool (PInt 1) false = false ∧
  normalize_bool (PInt 0) true = true.
Proof. repeat split; reflexivity. Qed.

(** ** Mode resolver *)

Lemma level_high (s : string) :
  s ∈ dom LEVEL_MAP → ∃ n, LEVEL_MAP !! s = Some n ∧ (n = 2 ↔ s = "high").
Proof.
  intros [-> | [-> | ->]]%level_cases; eexists; (split; [reflexivity |]);
    split; (discriminate || reflexivity).
Qed.

(** C3: forced mode first, then [minimal] for tier S with fast validation,
    then [full] for tier XL or high compliance, then [standard]; one branch
    fires, in this order, so XL with fast validation gives [full]. *)
Theorem recommend_mode_priority (req : Requirement) (tier forced : string) :
  normalized req →
  recommend_mode req tier forced = Some (spec_mode req tier forced) ∧
  (forced ∉ MODE_VALUES → recommend_mode req "XL" forced = Some "full").
Proof.
  intros Hn. destruct (level_high _ (norm_compliance _ Hn)) as (n & Hl & Hhigh).
  assert (bool_decide (tier = "S" ∧ need_fast_validation req = true)
          = (String.eqb tier "S" && need_fast_validation req)) as E1.
  { destruct (String.eqb_spec tier "S"), (need_fast_validation req); simpl;
      first [ apply bool_decide_eq_true_2; by split
            | apply bool_decide_eq_false_2; by intros [? ?] ]. }
  assert (bool_decide (tier = "XL" ∨ compliance_level req = "high")
          = (String.eqb tier "XL" || (n =? 2))) as E2.
  { destruct (String.eqb_spec tier "XL"), (Z.eqb_spec n 2); simpl;
      first [ apply bool_decide_eq_true_2; tauto
            | apply bool_decide_eq_false_2; tauto ]. }
  unfold recommend_mode, spec_mode. rewrite Hl, E1, E2. clear E1 E2. simpl.
  split.
  - case_bool_decide; [reflexivity |].
    destruct (String.eqb tier "S" && need_fast_validation req); [reflexivity |].
    destruct (String.eqb tier "XL" || (n =? 2)); reflexivity.
  - intros Hf. rewrite bool_decide_eq_false_2 by assumption. reflexivity.
Qed.

Lemma recommend_mode_priority_witness :
  recommend_mode scenario1 "XL" "auto" = Some "full" ∧
  recommend_mode scenario1 "S" "auto" = Some "minimal" ∧
  recommend_mode scenario1 "S" "single-file" = Some "single-file".
Proof.
  split; [| split].
  - apply (recommend_mode_priority scenario1 "XL" "auto" scenario1_normalized).
    vm_compute. intros H. discriminate.
  - apply (recommend_mode_priority scenario1 "S" "auto" scenario1_normalized).
  - apply (recommend_mode_priority scenario1 "S" "single-file" scenario1_normalized).
Defined.

(** ** Document planner *)

(** C9: one fixed document in single-file mode; otherwise the three
    baseline documents, the three base documents, the two or three documents
    of the primary combo, the standard documents exactly in modes [standard]
    and [full], and the full documents exactly in mode [full], in this
    order. *)
Theorem planned_docs_layout (primary_combo mode : string) :
  primary_combo ∈ COMBO_VALUES →
  ∃ combo_docs,
    COMBO_MIN_DOCS !! primary_combo = Some combo_docs ∧
    (2 ≤ length combo_docs ≤ 3)%nat ∧
    length BASELINE_DOCS = 3%nat ∧ length BASE_DOCS = 3%nat ∧
    planned_docs primary_combo mode =
      Some (if decide (mode = "single-file") then [SINGLE_FILE_DOC]
            else BASELINE_DOCS ++ BASE_DOCS ++ combo_docs
                 ++ (if decide (mode = "standard" ∨ mode = "full") then STANDARD_DOCS else [])
                 ++ (if decide (mode = "full") then FULL_DOCS else [])).
Proof.
  intros Hc.
  assert (∃ combo_docs, COMBO_MIN_DOCS !! primary_combo = Some combo_docs
                        ∧ (2 ≤ length combo_docs ≤ 3)%nat) as (cd & Hcd & Hlen).
  { apply combo_cases in Hc.
    destruct Hc as [-> | [-> | [-> | [-> | [-> | ->]]]]];
      eexists; (split; [reflexivity | simpl; lia]). }
  exists cd. repeat (split; [first [assumption | reflexivity | lia] |]).
  assert (bool_decide (mode ∈ ({[ "standard"; "full" ]} : gset string))
          = bool_decide (mode = "standard" ∨ mode = "full")) as Hstd.
  { apply bool_decide_ext. rewrite elem_of_union, !elem_of_singleton. tauto. }
  unfold planned_docs. rewrite Hcd, Hstd. clear Hstd.
  destruct (String.eqb_spec mode "single-file") as [-> | Hsf]; [reflexivity |].
  rewrite (decide_False (P := mode = "single-file")) by assumption.
  destruct (decide (mode = "standard" ∨ mode = "full")) as [Hs | Hs];
    [rewrite (bool_decide_eq_true_2 _ Hs) | rewrite (bool_decide_eq_false_2 _ Hs)];
    (destruct (String.eqb_spec mode "full") as [-> | Hfull];
     [| rewrite (decide_False (P := mode = "full")) by assumption]);
    simpl; rewrite <- ?app_assoc, ?app_nil_r;
    first [reflexivity | exfalso; apply Hs; auto].
Qed.

Lemma planned_docs_layout_witness :
  ∃ docs, planned_docs "c3" "standard" = Some docs ∧ length docs = 14%nat.
Proof.
  destruct (planned_docs_layout "c3" "standard") as (cd & Hcd & _ & _ & _ & Hplan).
  - vm_compute. tauto.
  - vm_compute in Hcd. injection Hcd as <-.
    eexists. split; [exact Hplan | reflexivity].
Defined.

(** ** Complexity classifier *)

Lemma level_ordinal (s : string) :
  s ∈ dom LEVEL_MAP → LEVEL_MAP !! s = Some (ClassifierSpec.ordinal s).
Proof. intros [-> | [-> | ->]]%level_cases; reflexivity. Qed.

Lemma ordinal_bounds (s : string) : 0 ≤ ClassifierSpec.ordinal s ≤ 2.
Proof. unfold ClassifierSpec.ordinal. repeat case_decide; lia. Qed.

Lemma tier_of_rank (n : Z) :
  tier_rank (ClassifierSpec.tier_of n) =
  Some (if decide (n ≤ 4) then 0%nat else if decide (n ≤ 7) then 1%nat
        else if decide (n ≤ 10) then 2%nat else 3%nat).
Proof. unfold ClassifierSpec.tier_of. repeat case_decide; reflexivity. Qed.

(** The classifier, as the source computes it, on a normalized requirement. *)
Lemma complexity_level_total (r : Requirement) :
  normalized r →
  complexity_level r = Some (ClassifierSpec.tier_of (ClassifierSpec.total r)).
Proof.
  intros Hn. unfold complexity_level.
  rewrite (level_ordinal _ (norm_domain _ Hn)),
          (level_ordinal _ (norm_compliance _ Hn)),
          (level_ordinal _ (norm_backend _ Hn)).
  cbn [mbind option_bind].
  match goal with |- context [?s <=? 4] => set (score := s) end.
  assert (score = ClassifierSpec.total r) as ->.
  { subst score.
    unfold ClassifierSpec.total, ClassifierSpec.team_band, ClassifierSpec.module_band.
    generalize (team_size r) (module_count r). intros t m.
    destruct (frontend_backend_separation r);
      destruct (Z.leb_spec t 2), (Z.leb_spec t 5), (Z.leb_spec t 8); try lia;
      destruct (Z.leb_spec m 3), (Z.leb_spec m 6), (Z.leb_spec m 10); try lia;
      repeat (case_decide; try lia). }
  generalize (ClassifierSpec.total r). intros n.
  unfold ClassifierSpec.tier_of.
  destruct (Z.leb_spec n 4), (Z.leb_spec n 7), (Z.leb_spec n 10); try lia;
    repeat (case_decide; try lia); reflexivity.
Qed.

(** C5: the total is the team band plus the module band plus the three
    ordinals plus one for frontend/backend separation, and the tier is S up
    to 4, M up to 7, L up to 10 and XL above, bounds included. *)
Theorem complexity_level_bands (r : Requirement) :
  normalized r →
  complexity_level r = Some (ClassifierSpec.tier_of (ClassifierSpec.total r)) ∧
  ClassifierSpec.tier_of 4 = "S" ∧ ClassifierSpec.tier_of 5 = "M" ∧
  ClassifierSpec.tier_of 7 = "M" ∧ ClassifierSpec.tier_of 8 = "L" ∧
  ClassifierSpec.tier_of 10 = "L" ∧ ClassifierSpec.tier_of 11 = "XL".
Proof.
  intros Hn. split; [by apply complexity_level_total |].
  repeat split; reflexivity.
Qed.

Lemma complexity_level_bands_witness :
  complexity_level scenario2 = Some "S" ∧ ClassifierSpec.total scenario2 = 4.
Proof.
  split; [| reflexivity].
  destruct (complexity_level_bands scenario2 scenario2_normalized) as [H _].
  exact H.
Defined.

(** C6: raising [compliance_level] from low to high, all else equal, never
    lowers the tier on the scale S < M < L < XL. *)
Theorem complexity_level_compliance_monotone (r_low r_high : Requirement) :
  normalized r_low → normalized r_high →
  same_but_compliance r_low r_high →
  compliance_level r_low = "low" → compliance_level r_high = "high" →
  ∃ t_low t_high n_low n_high,
    complexity_level r_low = Some t_low ∧
    complexity_level r_high = Some t_high ∧
    tier_rank t_low = Some n_low ∧ tier_rank t_high = Some n_high ∧
    (n_low ≤ n_high)%nat.
Proof.
  intros Hl Hh Hsame Clow Chigh.
  do 4 eexists.
  split; [by apply complexity_level_total |].
  split; [by apply complexity_level_total |].
  split; [apply tier_of_rank |].
  split; [apply tier_of_rank |].
  assert (ClassifierSpec.total r_high = ClassifierSpec.total r_low + 2) as ->.
  { unfold ClassifierSpec.total. destruct Hsame.
    rewrite Clow, Chigh.
    rewrite same_team0, same_modules0, same_domain0, same_backend0, same_separation0.
    change (ClassifierSpec.ordinal "low") with 0.
    change (ClassifierSpec.ordinal "high") with 2. lia. }
  repeat case_decide; lia.
Qed.

Lemma scenario2_high_normalized : normalized scenario2_high.
Proof.
  split; simpl; try discriminate; try lia;
    try (apply level_cases; auto); try (apply speed_cases; auto).
  unfold DESIGN_VALUES. rewrite !elem_of_union, !elem_of_singleton. auto.
Qed.

Lemma complexity_level_compliance_monotone_witness :
  ∃ t_low t_high n_low n_high,
    complexity_level scenario2 = Some t_low ∧
    complexity_level scenario2_high = Some t_high ∧
    tier_rank t_low = Some n_low ∧ tier_rank t_high = Some n_high ∧
    (n_low ≤ n_high)%nat.
Proof.
  apply (complexity_level_compliance_monotone scenario2 scenario2_high
           scenario2_normalized scenario2_high_normalized).
  - split; reflexivity.
  - reflexivity.
  - reflexivity.
Defined.

(** ** Quality gate *)

Lemma truthy_false (s : string) : PyStr.truthy s = false ↔ s = "".
Proof. destruct s; simpl; split; congruence. Qed.

(** The checks are exclusive: a field has one outcome. *)
Lemma field_check_functional (key label value : string) (i j : option string) :
  GateSpec.field_check key label value i →
  GateSpec.field_check key label value j → i = j.
Proof. intros Hi Hj. destruct Hi; destruct Hj; try reflexivity; contradiction. Qed.

(** One iteration appends the outcome of its own field and nothing else. *)
Lemma gate_step_field (req : Requirement) (issues : list string) (key label : string) :
  ∃ i, GateSpec.field_check key label (req_text req key) i ∧
       gate_step req issues (key, label) = issues ++ option_list i.
Proof.
  unfold gate_step.
  generalize (req_text req key). intros value.
  destruct (PyStr.truthy (PyStr.strip value)) eqn:Ht; cbn [negb].
  2:{ eexists. split; [apply GateSpec.check_empty; by apply truthy_false | reflexivity]. }
  assert (PyStr.strip value ≠ "") as Hne.
  { intros E%truthy_false. congruence. }
  destruct (PyStr.contains "<" (PyStr.strip value) || PyStr.contains ">" (PyStr.strip value))
    eqn:Ha.
  { eexists. split; [apply GateSpec.check_template |]; [assumption | | reflexivity].
    by apply orb_true_iff. }
  assert (¬ GateSpec.has_angle (PyStr.strip value)) as Hna.
  { intros H%orb_true_iff. congruence. }
  destruct (existsb _ placeholder_hints) eqn:Hh.
  { eexists. split; [apply GateSpec.check_hint |]; [assumption .. | | reflexivity].
    apply existsb_exists in Hh. exact Hh. }
  assert (¬ GateSpec.has_hint (PyStr.strip value)) as Hnh.
  { intros H. apply existsb_exists in H. congruence. }
  destruct (String.eqb_spec key "project_goal") as [Hk | Hk]; cbn [andb].
  - destruct (Z.ltb_spec (PyStr.len (PyStr.strip value)) 8) as [Hl | Hl].
    + eexists. split; [apply GateSpec.check_short |]; [assumption .. | | reflexivity].
      by split.
    + exists None. split; [apply GateSpec.check_pass |]; [assumption .. | |].
      * intros [_ ?]. lia.
      * symmetry. apply app_nil_r.
  - exists None. split; [apply GateSpec.check_pass |]; [assumption .. | |].
    + by intros [? _].
    + symmetry. apply app_nil_r.
Qed.

(** A goal that is both a placeholder hint and under 8 characters reports
    the hint only; an issue of the name does not hide the issue of the goal. *)
Example quality_gate_first_match :
  find_requirement_quality_issues
    {| project_name := "<name>"; project_goal := "todo";
       target_users := "Accountants"; team_size := 2; module_count := 3;
       ui_priority := "medium"; backend_complexity := "medium";
       domain_complexity := "low"; compliance_level := "low";
       design_source := "none"; frontend_backend_separation := false;
       need_fast_validation := true; iteration_speed := "normal" |}
  = [ "项目名称 仍包含模板占位符"; "项目目标 仍是占位/示例文本：todo" ].
Proof. vm_compute. reflexivity. Qed.

(** The length check counts characters and applies to the goal alone. *)
Example quality_gate_short_goal :
  find_requirement_quality_issues
    {| project_name := "Ledger"; project_goal := "对账";
       target_users := "Ops"; team_size := 2; module_count := 3;
       ui_priority := "medium"; backend_complexity := "medium";
       domain_complexity := "low"; compliance_level := "low";
       design_source := "none"; frontend_backend_separation := false;
       need_fast_validation := true; iteration_speed := "normal" |}
  = [ "项目目标过短，建议写清业务结果与验收口径" ].
Proof. vm_compute. reflexivity. Qed.

Example quality_gate_pass :
  find_requirement_quality_issues
    {| project_name := "Ledger"; project_goal := "Reconcile invoices daily";
       target_users := "Accountants"; team_size := 2; module_count := 3;
       ui_priority := "medium"; backend_complexity := "medium";
       domain_complexity := "low"; compliance_level := "low";
       design_source := "none"; frontend_backend_separation := false;
       need_fast_validation := true; iteration_speed := "normal" |}
  = [].
Proof. vm_compute. reflexivity. Qed.

(** All three fields offend: three issues, one per field. *)
Example quality_gate_all_fields :
  find_requirement_quality_issues scenario1 =
  [ "项目名称 仍是占位/示例文本：New Project";
    "项目目标 仍是占位/示例文本：待补充项目目标";
    "目标用户 仍是占位/示例文本：待补充目标用户" ].
Proof. vm_compute. reflexivity. Qed.

(** ** Combo scorer *)

Lemma scored_weaken (k : string) (n n' : Z) (t : gmap string Z) :
  n' ≤ n → scored k n t → scored k n' t.
Proof. intros Hle (Hd & v & Hv & Hn). split; [assumption |]. exists v. split; [assumption | lia]. Qed.

Lemma bump_scored (j : string) (d : Z) (k : string) (n : Z) (t : gmap string Z) :
  j ∈ COMBO_VALUES → scored k n t →
  ∃ t', bump j d t = Some t' ∧ scored k (if decide (j = k) then n + d else n) t'.
Proof.
  intros Hj (Hd & v & Hv & Hn).
  assert (is_Some (t !! j)) as [w Hw] by (apply elem_of_dom; by rewrite Hd).
  unfold bump. rewrite Hw. cbn [mbind option_bind].
  eexists. split; [reflexivity |]. split.
  - rewrite dom_insert_L, Hd. apply (anti_symm (⊆)).
    + apply union_least; [by apply singleton_subseteq_l | reflexivity].
    + apply union_subseteq_r.
  - case_decide as E.
    + subst k. exists (w + d). rewrite lookup_insert_eq. split; [reflexivity |].
      assert (w = v) by congruence. lia.
    + exists v. rewrite lookup_insert_ne by assumption. by split.
Qed.

Lemma when_scored (c : bool) (j : string) (d : Z) (k : string) (n n' : Z)
    (t : gmap string Z) :
  j ∈ COMBO_VALUES → scored k n t →
  n' = (if decide (j = k) then n + Z.min 0 d else n) →
  ∃ t', when c (bump j d) t = Some t' ∧ scored k n' t'.
Proof.
  intros Hj Hs ->. destruct c; cbn [when].
  - destruct (bump_scored j d k n t Hj Hs) as (t' & Ht & Hs').
    exists t'. split; [assumption |]. eapply scored_weaken; [| exact Hs'].
    case_decide; lia.
  - exists t. split; [reflexivity |]. eapply scored_weaken; [| exact Hs].
    case_decide; lia.
Qed.

Lemma bump_scored_nonneg (j : string) (d : Z) (k : string) (n : Z) (t : gmap string Z) :
  j ∈ COMBO_VALUES → scored k n t → 0 ≤ d →
  ∃ t', bump j d t = Some t' ∧ scored k n t'.
Proof.
  intros Hj Hs Hd. destruct (bump_scored j d k n t Hj Hs) as (t' & Ht & Hs').
  exists t'. split; [assumption |]. eapply scored_weaken; [| exact Hs'].
  case_decide; lia.
Qed.

Lemma bind_scored (k : string) (n : Z) (m : option (gmap string Z))
    (f : gmap string Z → option (gmap string Z)) (Q : gmap string Z → Prop) :
  (∃ t1, m = Some t1 ∧ scored k n t1) →
  (∀ t1, scored k n t1 → ∃ t', f t1 = Some t' ∧ Q t') →
  ∃ t', m ≫= f = Some t' ∧ Q t'.
Proof. intros (t1 & -> & Hs) Hf. cbn [mbind option_bind]. by apply Hf. Qed.

Lemma initial_scored (k : string) : k ∈ COMBO_VALUES → scored k 2 initial_scores.
Proof.
  intros Hk. unfold initial_scores. split; [apply dom_gset_to_gmap |].
  exists 2. split; [| lia]. by apply lookup_gset_to_gmap_Some.
Qed.

Ltac combo_member := apply combo_cases; auto 10.

(** One statement of the scorer, tracking the floor of the score of [k]. *)
Ltac scorer_step :=
  lazymatch goal with
  | |- ∃ t', when _ (bump _ _) _ ≫= _ = Some t' ∧ _ =>
      eapply bind_scored;
      [ eapply when_scored; [combo_member | eassumption | cbv; reflexivity]
      | let t := fresh "t" in let H := fresh "Hs" in intros t H ]
  | |- ∃ t', bump _ _ _ ≫= _ = Some t' ∧ _ =>
      eapply bind_scored;
      [ eapply bump_scored_nonneg; [combo_member | eassumption | lia]
      | let t := fresh "t" in let H := fresh "Hs" in intros t H ]
  end.

(** On a normalized requirement the scorer returns a table over the six
    codes in which the score of every code is at least 1. *)
Lemma score_combos_floor (r : Requirement) (k : string) :
  normalized r → k ∈ COMBO_VALUES →
  ∃ t, score_combos r = Some t ∧ scored k 1 t.
Proof.
  intros Hn Hk. unfold score_combos.
  destruct (level_lookup _ (norm_ui _ Hn)) as (ui & -> & _).
  destruct (level_lookup _ (norm_backend _ Hn)) as (backend & -> & _).
  destruct (level_lookup _ (norm_domain _ Hn)) as (domain & -> & _).
  destruct (level_lookup _ (norm_compliance _ Hn)) as (compliance & -> & _).
  destruct (speed_lookup _ (norm_speed _ Hn)) as (speed & -> & _).
  cbn [mbind option_bind].
  pose proof (initial_scored k Hk) as Hs0.
  apply combo_cases in Hk.
  destruct Hk as [-> | [-> | [-> | [-> | [-> | ->]]]]];
    repeat scorer_step;
    (eexists; split; [reflexivity | eapply scored_weaken; [| eassumption]; lia]).
Qed.

(** With no rule of c3 firing, its score is the baseline itself. *)
Example score_combos_baseline_c3 :
  (score_combos scenario1 ≫= λ t, t !! "c3") = Some 4 ∧
  (score_combos
     {| project_name := "Ledger"; project_goal := "Reconcile invoices daily";
        target_users := "Accountants"; team_size := 2; module_count := 2;
        ui_priority := "medium"; backend_complexity := "low";
        domain_complexity := "low"; compliance_level := "low";
        design_source := "none"; frontend_backend_separation := false;
        need_fast_validation := true; iteration_speed := "normal" |}
     ≫= λ t, t !! "c3") = Some 2.
Proof. split; vm_compute; reflexivity. Qed.

(** ** Selection resolver *)

Lemma item_le_ranks (x y : string * Z) : item_le x y ↔ ranks_before x y.
Proof. unfold item_le, key_le, sort_key, ranks_before. simpl. split; intros [? | [? ?]]; auto with lia. Qed.

#[global] Instance item_le_total : Total item_le.
Proof.
  intros [k1 v1] [k2 v2]. unfold item_le, key_le, sort_key. simpl.
  destruct (Z.lt_trichotomy (- v1) (- v2)) as [? | [? | ?]]; auto.
  destruct (total String.le k1 k2); auto with lia.
Qed.

#[global] Instance item_le_trans : Transitive item_le.
Proof.
  intros [k1 v1] [k2 v2] [k3 v3]. unfold item_le, key_le, sort_key. simpl.
  intros [? | [? ?]] [? | [? ?]]; auto with lia.
  right. split; [lia |]. by trans k2.
Qed.

#[global] Instance item_le_antisym : AntiSymm (=) item_le.
Proof.
  intros [k1 v1] [k2 v2]. unfold item_le, key_le, sort_key. simpl.
  intros [? | [? ?]] [? | [? ?]]; try lia.
  f_equal; [by apply (anti_symm String.le) | lia].
Qed.

Lemma sorted_items_sorted (scores : gmap string Z) :
  StronglySorted item_le (sorted_items scores).
Proof. apply StronglySorted_merge_sort; apply _. Qed.

Lemma sorted_items_perm (scores : gmap string Z) :
  sorted_items scores ≡ₚ map_to_list scores.
Proof. apply merge_sort_Permutation. Qed.

(** The sorted order does not depend on the order in which the dict yields
    its items: the order is deterministic. *)
Lemma sorted_items_unique (scores : gmap string Z) (items : list (string * Z)) :
  items ≡ₚ map_to_list scores →
  merge_sort item_le items = sorted_items scores.
Proof.
  intros Hp. apply (StronglySorted_unique item_le).
  - apply StronglySorted_merge_sort; apply _.
  - apply sorted_items_sorted.
  - rewrite merge_sort_Permutation, Hp. symmetry. apply sorted_items_perm.
Qed.

Lemma sorted_items_ranked (scores : gmap string Z) :
  StronglySorted ranks_before (sorted_items scores).
Proof.
  pose proof (sorted_items_sorted scores) as H.
  induction H as [| x l _ IH Hall]; constructor; [assumption |].
  eapply Forall_impl; [exact Hall |]. intros y. apply item_le_ranks.
Qed.

Lemma sorted_items_elem (scores : gmap string Z) (k : string) (v : Z) :
  (k, v) ∈ sorted_items scores ↔ scores !! k = Some v.
Proof. rewrite sorted_items_perm. apply elem_of_map_to_list. Qed.

Lemma sorted_items_length (scores : gmap string Z) :
  dom scores = COMBO_VALUES → length (sorted_items scores) = 6%nat.
Proof.
  intros Hd. rewrite sorted_items_perm, length_map_to_list, <- size_dom, Hd.
  reflexivity.
Qed.

(** C2: a forced code that is one of the six is the primary whatever its
    score; the secondary is the top of the sorted order when that differs
    from the forced code, and the second of the sorted order otherwise. *)
Theorem select_combo_forced (scores : gmap string Z) (forced_combo : string) :
  dom scores = COMBO_VALUES → forced_combo ∈ COMBO_VALUES →
  ∃ top second rest,
    sorted_items scores = top :: second :: rest ∧
    StronglySorted ranks_before (sorted_items scores) ∧
    sorted_items scores ≡ₚ map_to_list scores ∧
    select_combo scores forced_combo =
      Some (forced_combo,
            Some (if decide (top.1 ≠ forced_combo) then top.1 else second.1)).
Proof.
  intros Hd Hf.
  pose proof (sorted_items_length scores Hd) as Hlen.
  pose proof (sorted_items_ranked scores) as Hsorted.
  pose proof (sorted_items_perm scores) as Hperm.
  unfold select_combo. rewrite bool_decide_eq_true_2 by assumption.
  destruct (sorted_items scores) as [| top [| second rest]]; try discriminate.
  exists top, second, rest. repeat split; try assumption.
  cbn [lookup list_lookup fmap option_fmap option_map].
  destruct (decide (top.1 ≠ forced_combo)) as [Hne | Heq];
    [rewrite (bool_decide_eq_true_2 _ Hne) | rewrite (bool_decide_eq_false_2 _ Heq)];
    reflexivity.
Qed.

(** C4: without a forced code the primary is a code of maximal score, and
    among the codes of maximal score the least in lexicographic order. *)
Theorem select_combo_tie_break (scores : gmap string Z) (forced_combo : string) :
  dom scores = COMBO_VALUES → forced_combo ∉ COMBO_VALUES →
  ∃ primary secondary best,
    select_combo scores forced_combo = Some (primary, secondary) ∧
    scores !! primary = Some best ∧
    (∀ k v, scores !! k = Some v → v ≤ best) ∧
    (∀ k, scores !! k = Some best → String.le primary k) ∧
    StronglySorted ranks_before (sorted_items scores).
Proof.
  intros Hd Hf.
  pose proof (sorted_items_length scores Hd) as Hlen.
  pose proof (sorted_items_ranked scores) as Hsorted.
  pose proof (sorted_items_elem scores) as Helem.
  unfold select_combo. rewrite bool_decide_eq_false_2 by assumption.
  destruct (sorted_items scores) as [| [p best] rest]; [discriminate |].
  cbn [lookup list_lookup mbind option_bind].
  eexists p, _, best. split; [reflexivity |].
  assert (∀ k v, scores !! k = Some v → ranks_before (p, best) (k, v)) as Hrank.
  { intros k v Hkv. apply Helem in Hkv.
    apply StronglySorted_inv in Hsorted as [_ Hall].
    apply elem_of_cons in Hkv as [E | Hin].
    - injection E as -> ->. right. split; reflexivity.
    - rewrite Forall_forall in Hall. by apply Hall. }
  repeat split.
  - apply Helem. left.
  - intros k v Hkv. destruct (Hrank k v Hkv) as [? | [? _]]; simpl in *; lia.
  - intros k Hk. destruct (Hrank k best Hk) as [? | [_ ?]]; simpl in *; [lia | assumption].
  - assumption.
Qed.

Lemma scenario2_scored : score_combos scenario2 = Some scenario2_scores.
Proof. vm_compute. reflexivity. Qed.

Lemma scenario2_scores_dom : dom scenario2_scores = COMBO_VALUES.
Proof. vm_compute. reflexivity. Qed.

Lemma auto_not_combo : "auto" ∉ COMBO_VALUES.
Proof.
  intros H%combo_cases.
  destruct H as [H | [H | [H | [H | [H | H]]]]]; discriminate.
Qed.

(** The forced code c6 scores last in the second scenario and is the
    primary all the same. *)
Lemma select_combo_forced_witness :
  select_combo scenario2_scores "c6" = Some ("c6", Some "c2") ∧
  select_combo scenario2_scores "c2" = Some ("c2", Some "c3").
Proof.
  split.
  - destruct (select_combo_forced scenario2_scores "c6")
      as (top & second & rest & Hs & _ & _ & Hsel).
    + exact scenario2_scores_dom.
    + combo_member.
    + vm_compute in Hs. injection Hs as <- <- <-. exact Hsel.
  - destruct (select_combo_forced scenario2_scores "c2")
      as (top & second & rest & Hs & _ & _ & Hsel).
    + exact scenario2_scores_dom.
    + combo_member.
    + vm_compute in Hs. injection Hs as <- <- <-. exact Hsel.
Defined.

Lemma select_combo_tie_break_witness :
  ∃ primary secondary,
    select_combo scenario2_scores "auto" = Some (primary, secondary) ∧
    primary = "c2" ∧ scenario2_scores !! "c3" = scenario2_scores !! primary.
Proof.
  destruct (select_combo_tie_break scenario2_scores "auto")
    as (p & s & best & Hsel & _).
  - exact scenario2_scores_dom.
  - exact auto_not_combo.
  - exists p, s. split; [exact Hsel |].
    vm_compute in Hsel. injection Hsel as <- <-. split; reflexivity.
Defined.

(** ** The contract-first scenario *)

Lemma scenario2_selected : select_combo scenario2_scores "auto" = Some ("c2", Some "c3").
Proof. vm_compute. reflexivity. Qed.

(** The scenario as worded does not hold of the code. *)
Lemma contract_first_scenario_fails : ¬ contract_first_scenario_claim.
Proof.
  intros (r & r0 & scores & secondary & tier & tier0 & n & n0
          & Hr & Hr0 & Hs & Hsel & _).
  rewrite scenario2_loaded in Hr. injection Hr as <-.
  rewrite scenario2_scored in Hs. injection Hs as <-.
  rewrite scenario2_selected in Hsel. discriminate.
Qed.

(** The tier does not rise either: both scenarios are of tier S. *)
Lemma contract_first_scenario_tier_stays :
  complexity_level scenario1 = Some "S" ∧ complexity_level scenario2 = Some "S".
Proof. split; vm_compute; reflexivity. Qed.

(** C1, as the code has it: in the second scenario c2 and c3 share the top
    score 9, the tie goes to c2 as primary with c3 (contract-first) as
    secondary, and the tier stays S, the total rising from 1 to 4. *)
Theorem contract_first_scenario_selection :
  ∃ r r0 scores,
    load_requirements scenario2_data = Some r ∧
    load_requirements scenario1_data = Some r0 ∧
    score_combos r = Some scores ∧
    scores !! "c2" = Some 9 ∧ scores !! "c3" = Some 9 ∧
    select_combo scores "auto" = Some ("c2", Some "c3") ∧
    complexity_level r = Some "S" ∧ ClassifierSpec.total r = 4 ∧
    complexity_level r0 = Some "S" ∧ ClassifierSpec.total r0 = 1.
Proof.
  exists scenario2, scenario1, scenario2_scores.
  split; [exact scenario2_loaded |].
  split; [exact scenario1_loaded |].
  split; [exact scenario2_scored |].
  split; [reflexivity |]. split; [reflexivity |].
  split; [exact scenario2_selected |].
  repeat split; vm_compute; reflexivity.
Qed.

(** ** Slugs *)

Lemma slug_char_not_dash (a : ascii) : is_slug_char a = true → is_dash a = false.
Proof. destruct a as [[] [] [] [] [] [] [] []]; cbv; congruence. Qed.

Lemma sub_non_slug_chars (s : string) (b : bool) :
  str_all slug_char_or_dash (sub_non_slug b s) = true.
Proof.
  revert b. induction s as [| a t IH]; intros b; [reflexivity |].
  cbn [sub_non_slug]. destruct (is_slug_char a) eqn:Ha.
  - cbn [str_all]. unfold slug_char_or_dash at 1. rewrite Ha. apply IH.
  - destruct b; [apply IH |]. cbn [str_all]. apply IH.
Qed.

Lemma sub_non_slug_in_run (s : string) : starts_dash (sub_non_slug true s) = false.
Proof.
  induction s as [| a t IH]; [reflexivity |].
  cbn [sub_non_slug]. destruct (is_slug_char a) eqn:Ha; [| exact IH].
  cbn [starts_dash]. by apply slug_char_not_dash.
Qed.

Lemma sub_non_slug_no_double (s : string) (b : bool) :
  no_double_dash (sub_non_slug b s) = true.
Proof.
  revert b. induction s as [| a t IH]; intros b; [reflexivity |].
  cbn [sub_non_slug]. destruct (is_slug_char a) eqn:Ha.
  - cbn [no_double_dash]. rewrite (slug_char_not_dash a Ha). apply IH.
  - destruct b; [apply IH |]. cbn [no_double_dash].
    rewrite sub_non_slug_in_run, andb_false_r. apply IH.
Qed.

Lemma sub_dashes_after_sub (s : string) (b : bool) :
  sub_dashes b (sub_non_slug b s) = sub_non_slug b s.
Proof.
  revert b. induction s as [| a t IH]; intros b; [reflexivity |].
  cbn [sub_non_slug]. destruct (is_slug_char a) eqn:Ha.
  - cbn [sub_dashes]. rewrite (slug_char_not_dash a Ha). by rewrite IH.
  - destruct b; [apply IH |]. cbn [sub_dashes].
    change (is_dash "-") with true. cbn match. by rewrite IH.
Qed.

Lemma lstrip_dashes_shape (p : ascii → bool) (s : string) :
  str_all p s = true → no_double_dash s = true →
  str_all p (lstrip_dashes s) = true ∧ no_double_dash (lstrip_dashes s) = true ∧
  starts_dash (lstrip_dashes s) = false.
Proof.
  induction s as [| a t IH]; [done |].
  cbn [str_all no_double_dash lstrip_dashes].
  intros [Hp Ht]%andb_true_iff [Hd Hn]%andb_true_iff.
  destruct (is_dash a) eqn:Ha; [by apply IH |].
  cbn [str_all no_double_dash starts_dash]. rewrite Hp, Ht, Ha, Hn. done.
Qed.

Lemma rstrip_dashes_head (s : string) (b : ascii) (u : string) :
  rstrip_dashes s = String b u → ∃ u', s = String b u'.
Proof.
  destruct s as [| a t]; [discriminate |]. cbn [rstrip_dashes].
  destruct (rstrip_dashes t); [destruct (is_dash a) |]; intros [= <- _]; eauto.
Qed.

Lemma rstrip_dashes_shape (p : ascii → bool) (s : string) :
  str_all p s = true → no_double_dash s = true →
  str_all p (rstrip_dashes s) = true ∧ no_double_dash (rstrip_dashes s) = true ∧
  (starts_dash s = false → starts_dash (rstrip_dashes s) = false).
Proof.
  induction s as [| a t IH]; [done |].
  cbn [str_all no_double_dash rstrip_dashes].
  intros [Hp Ht]%andb_true_iff [Hd Hn]%andb_true_iff.
  destruct (IH Ht Hn) as (IHp & IHn & _).
  destruct (rstrip_dashes t) as [| b u] eqn:E.
  - destruct (is_dash a) eqn:Ha; [done |].
    cbn [str_all no_double_dash starts_dash]. rewrite Hp, Ha. done.
  - cbn [str_all no_double_dash starts_dash] in *.
    rewrite Hp, IHp, IHn. repeat split; [| done].
    destruct (rstrip_dashes_head _ _ _ E) as [u' ->].
    cbn [starts_dash] in Hd. rewrite Hd. done.
Qed.

Lemma str_take_shape (p : ascii → bool) (n : nat) (s : string) :
  str_all p s = true → no_double_dash s = true →
  str_all p (str_take n s) = true ∧ no_double_dash (str_take n s) = true ∧
  (starts_dash s = false → starts_dash (str_take n s) = false) ∧
  (String.length (str_take n s) ≤ n)%nat.
Proof.
  revert s. induction n as [| n IH]; intros s; [destruct s; cbn; auto with lia |].
  destruct s as [| a t]; [cbn; auto with lia |].
  cbn [str_all no_double_dash str_take String.length].
  intros [Hp Ht]%andb_true_iff [Hd Hn]%andb_true_iff.
  destruct (IH t Ht Hn) as (IHp & IHn & IHs & IHl).
  rewrite Hp, IHp, IHn. repeat split; [| done | lia].
  destruct (is_dash a) eqn:Ha; [| done].
  cbn [andb negb] in Hd. apply negb_true_iff in Hd. by rewrite (IHs Hd).
Qed.

(** A slug holds only lower-case letters, digits and dashes, is at most 64
    characters long, does not start with a dash and has no two dashes in a
    row. *)
Theorem slugify_shape (value : string) :
  str_all slug_char_or_dash (slugify value) = true ∧
  (String.length (slugify value) ≤ 64)%nat ∧
  starts_dash (slugify value) = false ∧
  no_double_dash (slugify value) = true.
Proof.
  unfold slugify. rewrite sub_dashes_after_sub.
  set (text := sub_non_slug false _).
  pose proof (sub_non_slug_chars (PyStr.lower (PyStr.strip value)) false) as Hc.
  pose proof (sub_non_slug_no_double (PyStr.lower (PyStr.strip value)) false) as Hn.
  fold text in Hc, Hn. unfold strip_dashes.
  destruct (lstrip_dashes_shape _ _ Hc Hn) as (Hc1 & Hn1 & Hs1).
  destruct (rstrip_dashes_shape _ _ Hc1 Hn1) as (Hc2 & Hn2 & Hs2).
  destruct (str_take_shape _ 64 _ Hc2 Hn2) as (Hc3 & Hn3 & Hs3 & Hl3).
  split; [exact Hc3 |]. split; [exact Hl3 |]. split; [| exact Hn3].
  apply Hs3, Hs2, Hs1.
Qed.

(** After the first substitution of [slugify] no two dashes are adjacent, so
    the second substitution changes nothing. *)
Theorem slugify_second_substitution_idle (text : string) :
  sub_dashes false (sub_non_slug false text) = sub_non_slug false text.
Proof. apply sub_dashes_after_sub. Qed.

(** The cut at 64 characters comes after the dashes are stripped, so a slug
    can end with a dash; a name without a letter or digit has the empty
    slug. *)
Example slugify_examples :
  slugify "  My Project: v2 (Draft) " = "my-project-v2-draft" ∧
  slugify "项目" = "" ∧
  slugify "a234567890123456789012345678901234567890123456789012345678901b3 tail"
  = "a234567890123456789012345678901234567890123456789012345678901b3-".
Proof. repeat split; vm_compute; reflexivity. Qed.

(** ** The normalizer and the gate together *)

Lemma lstrip_head (s : string) :
  PyStr.lstrip s = "" ∨
  ∃ a t, PyStr.lstrip s = String a t ∧ PyStr.is_space a = false.
Proof.
  induction s as [| a t IH]; [by left |].
  cbn [PyStr.lstrip]. destruct (PyStr.is_space a) eqn:Ha; [exact IH |].
  right. eauto.
Qed.

Lemma rstrip_cons (a : ascii) (t : string) :
  PyStr.rstrip (String a t) =
  match PyStr.rstrip t with
  | EmptyString => if PyStr.is_space a then EmptyString else String a EmptyString
  | t' => String a t'
  end.
Proof. reflexivity. Qed.

Lemma rstrip_idempotent (s : string) :
  PyStr.rstrip (PyStr.rstrip s) = PyStr.rstrip s.
Proof.
  induction s as [| a t IH]; [reflexivity |].
  rewrite rstrip_cons. destruct (PyStr.rstrip t) as [| b u] eqn:E.
  - destruct (PyStr.is_space a) eqn:Ha; [reflexivity |].
    rewrite rstrip_cons. cbn [PyStr.rstrip]. by rewrite Ha.
  - rewrite rstrip_cons, IH. reflexivity.
Qed.

Lemma rstrip_keeps_head (a : ascii) (t : string) :
  PyStr.is_space a = false → ∃ t', PyStr.rstrip (String a t) = String a t'.
Proof.
  intros Ha. rewrite rstrip_cons. destruct (PyStr.rstrip t); [rewrite Ha |]; eauto.
Qed.

Lemma strip_idempotent (s : string) : PyStr.strip (PyStr.strip s) = PyStr.strip s.
Proof.
  unfold PyStr.strip.
  destruct (lstrip_head s) as [-> | (a & t & -> & Ha)]; [reflexivity |].
  destruct (rstrip_keeps_head a t Ha) as [t' E].
  rewrite E at 1. cbn [PyStr.lstrip]. rewrite Ha, <- E. apply rstrip_idempotent.
Qed.

Lemma or_else_stripped (s d : string) :
  PyStr.strip d = d → d ≠ "" →
  let text := PyStr.or_else (PyStr.strip s) d in
  PyStr.strip text = text ∧ text ≠ "".
Proof.
  intros Hd Hne. unfold PyStr.or_else.
  destruct (PyStr.strip s) eqn:E; cbn [PyStr.truthy].
  - by split.
  - rewrite <- E. split; [apply strip_idempotent | by rewrite E].
Qed.

Lemma load_requirements_fields (data : gmap string pyval) (r : Requirement) :
  load_requirements data = Some r →
  project_name r =
    PyStr.or_else (PyStr.strip (py_str (dict_get_or data "project_name" (PStr "New Project")))) "New Project" ∧
  project_goal r =
    PyStr.or_else (PyStr.strip (py_str (dict_get_or data "project_goal" (PStr "待补充项目目标")))) "待补充项目目标" ∧
  target_users r =
    PyStr.or_else (PyStr.strip (py_str (dict_get_or data "target_users" (PStr "待补充目标用户")))) "待补充目标用户".
Proof.
  unfold load_requirements. intros H.
  destruct (to_int (dict_get data "team_size") 2); [| discriminate].
  destruct (to_int (dict_get data "module_count") 3); [| discriminate].
  cbn [mbind option_bind] in H. injection H as <-. done.
Qed.

(** What comes out of the normalizer is within the domain of every field:
    sizes at least 1, levels, design source and speed among their values,
    texts not empty. *)
Theorem load_requirements_in_domain (data : gmap string pyval) (r : Requirement) :
  load_requirements data = Some r → normalized r.
Proof. apply load_requirements_normalized. Qed.

Lemma load_requirements_in_domain_witness : normalized scenario2.
Proof. exact (load_requirements_in_domain scenario2_data scenario2 scenario2_loaded). Defined.

Lemma to_int_none (v : pyval) (d : Z) : to_int v d = None ↔ is_infinite v.
Proof.
  unfold to_int, py_int, is_infinite.
  destruct v as [| | | [| |] | |]; try (split; [discriminate | tauto]);
    try (split; [tauto | reflexivity]).
  destruct (PyStr.parse_int s); split; (discriminate || tauto).
Qed.

Lemma load_requirements_none_iff (data : gmap string pyval) :
  load_requirements data = None ↔
  is_infinite (dict_get data "team_size") ∨ is_infinite (dict_get data "module_count").
Proof.
  unfold load_requirements.
  destruct (to_int (dict_get data "team_size") 2) as [team |] eqn:Et.
  - destruct (to_int (dict_get data "module_count") 3) as [modules |] eqn:Em;
      cbn [mbind option_bind].
    + split; [discriminate |].
      intros [H | H]; [apply (to_int_none _ 2) in H | apply (to_int_none _ 3) in H];
        congruence.
    + split; [| reflexivity]. intros _. right. by apply (to_int_none _ 3).
  - cbn [mbind option_bind]. split; [| reflexivity].
    intros _. left. by apply (to_int_none _ 2).
Qed.

(** The normalizer raises on one input only: an infinite float as the team
    size or the module count, whose [OverflowError] [to_int] does not
    catch.  Every other mapping gives a requirement. *)
Theorem load_requirements_raises_iff (data : gmap string pyval) :
  load_requirements data = None ↔
  is_infinite (dict_get data "team_size") ∨ is_infinite (dict_get data "module_count").
Proof. apply load_requirements_none_iff. Qed.

Example load_requirements_infinite : load_requirements infinite_sizes_data = None.
Proof. vm_compute. reflexivity. Qed.

(** The text fields leave the normalizer trimmed and not empty, so the
    first check of the gate, for an empty field, cannot fire on them. *)
Theorem load_requirements_text_trimmed (data : gmap string pyval) (r : Requirement) :
  load_requirements data = Some r →
  (PyStr.strip (project_name r) = project_name r ∧ project_name r ≠ "") ∧
  (PyStr.strip (project_goal r) = project_goal r ∧ project_goal r ≠ "") ∧
  (PyStr.strip (target_users r) = target_users r ∧ target_users r ≠ "") ∧
  ¬ (∃ key label, In (key, label) required_fields ∧
                  PyStr.strip (req_text r key) = "").
Proof.
  intros (Hn & Hg & Hu)%load_requirements_fields.
  assert (PyStr.strip (project_name r) = project_name r ∧ project_name r ≠ "") as H1.
  { rewrite Hn. by apply or_else_stripped. }
  assert (PyStr.strip (project_goal r) = project_goal r ∧ project_goal r ≠ "") as H2.
  { rewrite Hg. by apply or_else_stripped. }
  assert (PyStr.strip (target_users r) = target_users r ∧ target_users r ≠ "") as H3.
  { rewrite Hu. by apply or_else_stripped. }
  repeat split; try tauto.
  intros (key & label & Hin & He).
  destruct Hin as [[= <- <-] | [[= <- <-] | [[= <- <-] | []]]].
  - change (req_text r "project_name") with (project_name r) in He.
    destruct H1. congruence.
  - change (req_text r "project_goal") with (project_goal r) in He.
    destruct H2. congruence.
  - change (req_text r "target_users") with (target_users r) in He.
    destruct H3. congruence.
Qed.

Lemma load_requirements_text_trimmed_witness :
  PyStr.strip (project_name scenario2) = project_name scenario2.
Proof.
  apply (load_requirements_text_trimmed scenario2_data scenario2 scenario2_loaded).
Defined.

(** The issues of the gate, field by field. *)
Lemma gate_fields (req : Requirement) :
  ∃ i_name i_goal i_users,
    GateSpec.field_check "project_name" "项目名称" (project_name req) i_name ∧
    GateSpec.field_check "project_goal" "项目目标" (project_goal req) i_goal ∧
    GateSpec.field_check "target_users" "目标用户" (target_users req) i_users ∧
    find_requirement_quality_issues req
      = option_list i_name ++ option_list i_goal ++ option_list i_users.
Proof.
  unfold find_requirement_quality_issues, required_fields. cbn [foldl].
  destruct (gate_step_field req [] "project_name" "项目名称") as (i1 & H1 & ->).
  destruct (gate_step_field req ([] ++ option_list i1) "project_goal" "项目目标")
    as (i2 & H2 & ->).
  destruct (gate_step_field req (([] ++ option_list i1) ++ option_list i2)
              "target_users" "目标用户") as (i3 & H3 & ->).
  exists i1, i2, i3. rewrite app_nil_l, <- app_assoc. done.
Qed.

Lemma hint_check (key label value hint : string) :
  PyStr.strip value ≠ "" →
  (PyStr.contains "<" (PyStr.strip value) || PyStr.contains ">" (PyStr.strip value)) = false →
  In hint placeholder_hints →
  PyStr.contains hint (PyStr.lower (PyStr.strip value)) = true →
  GateSpec.field_check key label value
    (Some (label +:+ " 仍是占位/示例文本：" +:+ PyStr.strip value)).
Proof.
  intros Hne Ha Hin Hc. apply GateSpec.check_hint; [assumption | |].
  - intros H%orb_true_iff. congruence.
  - exists hint. by split.
Qed.

(** A text field that is absent or blank in the input gets its placeholder
    from the normalizer, and the gate reports that placeholder. *)
Theorem missing_text_is_reported (data : gmap string pyval) (r : Requirement) :
  load_requirements data = Some r →
  (text_missing data "project_name" →
     "项目名称 仍是占位/示例文本：New Project" ∈ find_requirement_quality_issues r) ∧
  (text_missing data "project_goal" →
     "项目目标 仍是占位/示例文本：待补充项目目标" ∈ find_requirement_quality_issues r) ∧
  (text_missing data "target_users" →
     "目标用户 仍是占位/示例文本：待补充目标用户" ∈ find_requirement_quality_issues r).
Proof.
  intros (Hn & Hg & Hu)%load_requirements_fields.
  destruct (gate_fields r) as (i1 & i2 & i3 & H1 & H2 & H3 & ->).
  unfold text_missing, dict_get_or in *.
  repeat split; intros Hm.
  - assert (project_name r = "New Project") as E.
    { rewrite Hn. revert Hm. destruct (data !! "project_name"); cbn [default from_option id];
        [by intros -> | reflexivity]. }
    rewrite E in H1.
    assert (i1 = Some "项目名称 仍是占位/示例文本：New Project") as ->.
    { eapply field_check_functional; [exact H1 |].
      refine (hint_check "project_name" "项目名称" "New Project" "new project" _ _ _ _);
        [discriminate | reflexivity | | reflexivity].
      cbn. tauto. }
    rewrite !elem_of_app. left. apply list_elem_of_singleton. reflexivity.
  - assert (project_goal r = "待补充项目目标") as E.
    { rewrite Hg. revert Hm. destruct (data !! "project_goal"); cbn [default from_option id];
        [by intros -> | reflexivity]. }
    rewrite E in H2.
    assert (i2 = Some "项目目标 仍是占位/示例文本：待补充项目目标") as ->.
    { eapply field_check_functional; [exact H2 |].
      refine (hint_check "project_goal" "项目目标" "待补充项目目标" "待补充" _ _ _ _);
        [discriminate | reflexivity | | reflexivity].
      cbn. tauto. }
    rewrite !elem_of_app. right. left. apply list_elem_of_singleton. reflexivity.
  - assert (target_users r = "待补充目标用户") as E.
    { rewrite Hu. revert Hm. destruct (data !! "target_users"); cbn [default from_option id];
        [by intros -> | reflexivity]. }
    rewrite E in H3.
    assert (i3 = Some "目标用户 仍是占位/示例文本：待补充目标用户") as ->.
    { eapply field_check_functional; [exact H3 |].
      refine (hint_check "target_users" "目标用户" "待补充目标用户" "待补充" _ _ _ _);
        [discriminate | reflexivity | | reflexivity].
      cbn. tauto. }
    rewrite !elem_of_app. right. right. apply list_elem_of_singleton. reflexivity.
Qed.

Lemma missing_text_is_reported_witness :
  "项目名称 仍是占位/示例文本：New Project" ∈ find_requirement_quality_issues scenario2.
Proof.
  apply (missing_text_is_reported scenario2_data scenario2 scenario2_loaded).
  vm_compute. exact I.
Defined.

(** ** Plans, templates and reasons *)

(** Settle a decidable statement without variables by evaluation. *)
Ltac by_computation := apply (bool_decide_unpack _); vm_compute; exact I.

Lemma combo_min_docs_dom : dom COMBO_MIN_DOCS = COMBO_VALUES.
Proof. vm_compute. reflexivity. Qed.

(** The plan for any code and mode, known or not. *)
Lemma planned_docs_by_mode (primary_combo mode : string) :
  planned_docs primary_combo mode =
  (if decide (mode = "single-file") then Some [SINGLE_FILE_DOC]
   else
     COMBO_MIN_DOCS !! primary_combo ≫= λ combo_docs,
     Some (BASELINE_DOCS ++ BASE_DOCS ++ combo_docs
           ++ (if decide (mode = "standard" ∨ mode = "full") then STANDARD_DOCS else [])
           ++ (if decide (mode = "full") then FULL_DOCS else []))).
Proof.
  assert (bool_decide (mode ∈ ({[ "standard"; "full" ]} : gset string))
          = bool_decide (mode = "standard" ∨ mode = "full")) as Hstd.
  { apply bool_decide_ext. rewrite elem_of_union, !elem_of_singleton. tauto. }
  unfold planned_docs. rewrite Hstd. clear Hstd.
  destruct (String.eqb_spec mode "single-file") as [-> | Hsf]; [reflexivity |].
  rewrite (decide_False (P := mode = "single-file")) by assumption.
  destruct (COMBO_MIN_DOCS !! primary_combo) as [cd |]; [| reflexivity].
  destruct (decide (mode = "standard" ∨ mode = "full")) as [Hs | Hs];
    [rewrite (bool_decide_eq_true_2 _ Hs) | rewrite (bool_decide_eq_false_2 _ Hs)];
    (destruct (String.eqb_spec mode "full") as [-> | Hfull];
     [| rewrite (decide_False (P := mode = "full")) by assumption]);
    simpl; rewrite <- ?app_assoc, ?app_nil_r;
    first [reflexivity | exfalso; apply Hs; auto].
Qed.

(** The planner raises, with a [KeyError], exactly on a code outside the six
    in a mode other than single-file; in single-file mode the code is not
    looked at. *)
Theorem planned_docs_raises_iff (primary_combo mode : string) :
  planned_docs primary_combo mode = None ↔
  (primary_combo ∉ COMBO_VALUES) ∧ (mode ≠ "single-file").
Proof.
  rewrite planned_docs_by_mode. rewrite <- combo_min_docs_dom. rewrite not_elem_of_dom.
  case_decide as Hm.
  - split; [discriminate | tauto].
  - destruct (COMBO_MIN_DOCS !! primary_combo); cbn [mbind option_bind].
    + split; [discriminate | intros [? _]; discriminate].
    + tauto.
Qed.

Lemma combo_docs_cases (primary_combo : string) :
  primary_combo ∈ COMBO_VALUES →
  ∃ combo_docs, COMBO_MIN_DOCS !! primary_combo = Some combo_docs ∧
    (primary_combo = "c1" ∨ primary_combo = "c2" ∨ primary_combo = "c3" ∨
     primary_combo = "c4" ∨ primary_combo = "c5" ∨ primary_combo = "c6").
Proof.
  intros Hc. pose proof Hc as Hc'. apply combo_cases in Hc'.
  rewrite <- combo_min_docs_dom in Hc. apply elem_of_dom in Hc as [cd Hcd]. eauto.
Qed.

Ltac plan_cases Hc Hplan :=
  destruct (combo_docs_cases _ Hc) as (cd & Hcd & Hk);
  rewrite planned_docs_by_mode, Hcd in Hplan; cbn [mbind option_bind] in Hplan;
  destruct Hk as [-> | [-> | [-> | [-> | [-> | ->]]]]];
  vm_compute in Hcd; injection Hcd as <-;
  repeat case_decide; injection Hplan as <-.

(** The file names of a plan are pairwise distinct, and none of them is the
    name of the selection report that [main] writes beside them: no file of
    a pack overwrites another. *)
Theorem planned_docs_names_distinct (primary_combo mode : string) (docs : list doc) :
  primary_combo ∈ COMBO_VALUES →
  planned_docs primary_combo mode = Some docs →
  NoDup docs.*1 ∧ "selection-report.md" ∉ docs.*1.
Proof.
  intros Hc Hplan. plan_cases Hc Hplan;
    (split; by_computation).
Qed.

Lemma planned_docs_names_distinct_witness :
  ∃ docs, planned_docs "c6" "full" = Some docs ∧ NoDup docs.*1.
Proof.
  eexists. split; [vm_compute; reflexivity |].
  eapply (planned_docs_names_distinct "c6" "full").
  - combo_member.
  - vm_compute. reflexivity.
Defined.

(** The plans grow with the mode: the plan of a mode that adds no layer is
    the beginning of the standard plan, which is the beginning of the full
    plan. *)
Theorem planned_docs_grow (primary_combo mode : string)
    (lean standard full : list doc) :
  mode ≠ "single-file" → mode ≠ "standard" → mode ≠ "full" →
  planned_docs primary_combo mode = Some lean →
  planned_docs primary_combo "standard" = Some standard →
  planned_docs primary_combo "full" = Some full →
  lean `prefix_of` standard ∧ standard `prefix_of` full ∧
  length standard = (length lean + 5)%nat ∧ length full = (length standard + 4)%nat.
Proof.
  intros H1 H2 H3. rewrite !planned_docs_by_mode.
  rewrite (decide_False (P := mode = "single-file")) by assumption.
  rewrite (decide_False (P := mode = "standard" ∨ mode = "full")) by tauto.
  rewrite (decide_False (P := mode = "full")) by assumption.
  destruct (COMBO_MIN_DOCS !! primary_combo) as [cd |]; [| discriminate].
  cbn [mbind option_bind]. intros [= <-] [= <-] [= <-].
  repeat split.
  - exists STANDARD_DOCS. simpl. rewrite ?app_nil_r, <- ?app_assoc. reflexivity.
  - exists FULL_DOCS. simpl. rewrite ?app_nil_r, <- ?app_assoc. reflexivity.
  - simpl. rewrite ?length_app. simpl. lia.
  - simpl. rewrite ?length_app. simpl. lia.
Qed.

Lemma planned_docs_grow_witness :
  ∃ lean standard full,
    planned_docs "c1" "minimal" = Some lean ∧
    planned_docs "c1" "standard" = Some standard ∧
    planned_docs "c1" "full" = Some full ∧
    lean `prefix_of` standard ∧ standard `prefix_of` full.
Proof.
  destruct (planned_docs "c1" "minimal") as [lean |] eqn:E1;
    [| vm_compute in E1; discriminate].
  destruct (planned_docs "c1" "standard") as [standard |] eqn:E2;
    [| vm_compute in E2; discriminate].
  destruct (planned_docs "c1" "full") as [full |] eqn:E3;
    [| vm_compute in E3; discriminate].
  exists lean, standard, full.
  destruct (planned_docs_grow "c1" "minimal" lean standard full) as (H1 & H2 & _);
    [discriminate | discriminate | discriminate | exact E1 | exact E2 | exact E3 |].
  auto.
Defined.

(** In a plan, the documents of the primary combo are exactly the ones for
    which [doc_body] has no template of its own: they are rendered from the
    generic template, every other planned document from its own. *)
Theorem combo_docs_use_generic_template (primary_combo mode : string)
    (docs combo_docs : list doc) :
  primary_combo ∈ COMBO_VALUES → mode ≠ "single-file" →
  planned_docs primary_combo mode = Some docs →
  COMBO_MIN_DOCS !! primary_combo = Some combo_docs →
  Forall (λ d, doc_body_template d.1 = GenericTemplate ↔ d ∈ combo_docs) docs.
Proof.
  intros Hc Hm Hplan Hcd'. plan_cases Hc Hplan; try contradiction;
    vm_compute in Hcd'; injection Hcd' as <-;
    by_computation.
Qed.

Lemma combo_docs_use_generic_template_witness :
  doc_body_template "31-api-contract-priority.md" = GenericTemplate ∧
  doc_body_template "12-api-spec.md" ≠ GenericTemplate.
Proof.
  pose proof (combo_docs_use_generic_template "c3" "standard" _ _
                ltac:(combo_member) ltac:(discriminate)
                ltac:(vm_compute; reflexivity) ltac:(vm_compute; reflexivity)) as H.
  rewrite Forall_forall in H. split.
  - apply (H ("31-api-contract-priority.md", "接口契约优先级"));
      by_computation.
  - intros E.
    apply (H ("12-api-spec.md", "API Spec")) in E;
      [| by_computation].
    revert E. by_computation.
Defined.

(** The reasons of a report start with the reason of the common base and
    hold one to three entries, so the cut at four never drops one; a code
    outside the six gets the base reason alone, and all codes but c1 get at
    least one reason of their own. *)
Theorem build_reasons_shape (req : Requirement) (combo_code : string) :
  ∃ own, build_reasons req combo_code = base_reason :: own ∧
         (length own ≤ 2)%nat ∧
         (combo_code ∉ COMBO_VALUES → own = []) ∧
         (combo_code ∈ COMBO_VALUES → combo_code ≠ "c1" → own ≠ []).
Proof.
  unfold build_reasons, append_if.
  destruct (String.eqb_spec combo_code "c1") as [-> | H1].
  { destruct (team_size req <=? 2), (module_count req <=? 3);
      eexists; (split; [reflexivity |]); cbn; repeat split; try lia;
      try (intros []; combo_member); congruence. }
  destruct (String.eqb_spec combo_code "c2") as [-> | H2].
  { destruct (module_count req >=? 3);
      eexists; (split; [reflexivity |]); cbn; repeat split; try lia;
      try (intros []; combo_member); congruence. }
  destruct (String.eqb_spec combo_code "c3") as [-> | H3].
  { case_bool_decide;
      eexists; (split; [reflexivity |]); cbn; repeat split; try lia;
      try (intros []; combo_member); congruence. }
  destruct (String.eqb_spec combo_code "c4") as [-> | H4].
  { eexists; (split; [reflexivity |]); cbn; repeat split; try lia;
      try (intros []; combo_member); congruence. }
  destruct (String.eqb_spec combo_code "c5") as [-> | H5].
  { eexists; (split; [reflexivity |]); cbn; repeat split; try lia;
      try (intros []; combo_member); congruence. }
  destruct (String.eqb_spec combo_code "c6") as [-> | H6].
  { eexists; (split; [reflexivity |]); cbn; repeat split; try lia;
      try (intros []; combo_member); congruence. }
  exists []. split; [reflexivity |]. cbn. repeat split; try lia.
  intros Hc%combo_cases. tauto.
Qed.

(** ** Scores as sums *)

Lemma bump_holds_same (k : string) (d v : Z) (t : gmap string Z) :
  holds k v t → ∃ t', bump k d t = Some t' ∧ holds k (v + d) t'.
Proof.
  intros [Hd Hv]. unfold bump. rewrite Hv. cbn [mbind option_bind].
  eexists. split; [reflexivity |]. split; [| apply lookup_insert_eq].
  rewrite dom_insert_L, <- Hd. apply subseteq_union_1_L, singleton_subseteq_l.
  apply elem_of_dom. eauto.
Qed.

Lemma bump_holds_other (j k : string) (d v : Z) (t : gmap string Z) :
  j ∈ COMBO_VALUES → j ≠ k → holds k v t →
  ∃ t', bump j d t = Some t' ∧ holds k v t'.
Proof.
  intros Hj Hne [Hd Hv].
  assert (is_Some (t !! j)) as [w Hw] by (apply elem_of_dom; by rewrite Hd).
  unfold bump. rewrite Hw. cbn [mbind option_bind].
  eexists. split; [reflexivity |]. split; [| by rewrite lookup_insert_ne].
  rewrite dom_insert_L, <- Hd. apply subseteq_union_1_L, singleton_subseteq_l.
  apply elem_of_dom. eauto.
Qed.

Lemma when_holds_same (c : bool) (k : string) (d v : Z) (t : gmap string Z) :
  holds k v t → ∃ t', when c (bump k d) t = Some t' ∧ holds k (v + rule c d) t'.
Proof.
  intros Hs. destruct c; cbn [when rule]; [by apply bump_holds_same |].
  exists t. split; [reflexivity |]. by rewrite Z.add_0_r.
Qed.

Lemma when_holds_other (c : bool) (j k : string) (d v : Z) (t : gmap string Z) :
  j ∈ COMBO_VALUES → j ≠ k → holds k v t →
  ∃ t', when c (bump j d) t = Some t' ∧ holds k v t'.
Proof.
  intros Hj Hne Hs. destruct c; cbn [when]; [by apply bump_holds_other | eauto].
Qed.

Lemma bind_holds (k : string) (v : Z) (m : option (gmap string Z))
    (f : gmap string Z → option (gmap string Z)) (Q : gmap string Z → Prop) :
  (∃ t1, m = Some t1 ∧ holds k v t1) →
  (∀ t1, holds k v t1 → ∃ t', f t1 = Some t' ∧ Q t') →
  ∃ t', m ≫= f = Some t' ∧ Q t'.
Proof. intros (t1 & -> & Hs) Hf. cbn [mbind option_bind]. by apply Hf. Qed.

Lemma initial_holds (k : string) : k ∈ COMBO_VALUES → holds k 2 initial_scores.
Proof.
  intros Hk. unfold initial_scores. split; [apply dom_gset_to_gmap |].
  by apply lookup_gset_to_gmap_Some.
Qed.

(** One statement of the scorer, tracking the score of [k]. *)
Ltac value_step :=
  lazymatch goal with
  | H : holds ?k ?v ?t |- ∃ t', when _ (bump ?j _) ?t ≫= _ = Some t' ∧ _ =>
      eapply (bind_holds k);
      [ first [ refine (when_holds_same _ k _ v t H)
              | refine (when_holds_other _ j k _ v t _ _ H); [combo_member | discriminate] ]
      | clear H; let t1 := fresh "t" in let H1 := fresh "Hs" in intros t1 H1 ]
  | H : holds ?k ?v ?t |- ∃ t', bump ?j _ ?t ≫= _ = Some t' ∧ _ =>
      eapply (bind_holds k);
      [ first [ refine (bump_holds_same k _ v t H)
              | refine (bump_holds_other j k _ v t _ _ H); [combo_member | discriminate] ]
      | clear H; let t1 := fresh "t" in let H1 := fresh "Hs" in intros t1 H1 ]
  end.

(** On a normalized requirement the scorer returns a table over the six
    codes, each with the baseline plus the deltas of its rules. *)
Lemma score_combos_closed (r : Requirement) (k : string) :
  normalized r → k ∈ COMBO_VALUES →
  ∃ t, score_combos r = Some t ∧ holds k (combo_score r k) t.
Proof.
  intros Hn Hk. unfold score_combos, combo_score, level_of.
  destruct (level_lookup _ (norm_ui _ Hn)) as (ui & -> & _).
  destruct (level_lookup _ (norm_backend _ Hn)) as (backend & -> & _).
  destruct (level_lookup _ (norm_domain _ Hn)) as (domain & -> & _).
  destruct (level_lookup _ (norm_compliance _ Hn)) as (compliance & -> & _).
  destruct (speed_lookup _ (norm_speed _ Hn)) as (speed & -> & _).
  cbn [mbind option_bind default from_option id].
  pose proof (initial_holds k Hk) as Hs0.
  apply combo_cases in Hk.
  destruct Hk as [-> | [-> | [-> | [-> | [-> | ->]]]]];
    repeat value_step;
    (eexists; split; [reflexivity |]);
    match goal with H : holds _ _ ?t |- holds _ _ ?t => exact H end.
Qed.

Lemma score_combos_lookup (r : Requirement) (t : gmap string Z) (k : string) :
  normalized r → score_combos r = Some t → k ∈ COMBO_VALUES →
  dom t = COMBO_VALUES ∧ t !! k = Some (combo_score r k).
Proof.
  intros Hn Ht Hk. destruct (score_combos_closed r k Hn Hk) as (t' & Ht' & Hh).
  assert (t' = t) by congruence. subst t'. exact Hh.
Qed.

(** The score of the embedding is the baseline 2 plus the deltas. *)
Lemma combo_score_baseline (r : Requirement) (k : string) :
  combo_score r k = 2 + rule_deltas r k.
Proof. unfold combo_score, rule_deltas. repeat case_match; lia. Qed.

(** C7: on a normalized requirement the scorer returns a table whose keys
    are the six combo codes; the score of every code is the common baseline
    2 plus the deltas of the rules of that code; and every score of the
    table is an integer that is at least 0, the subtractive rules of c1,
    c4, c5 and c6 notwithstanding. *)
Theorem score_combos_six_nonneg (r : Requirement) :
  normalized r →
  ∃ t, score_combos r = Some t ∧
       dom t = COMBO_VALUES ∧
       (∀ k, k ∈ COMBO_VALUES → t !! k = Some (2 + rule_deltas r k)) ∧
       (∀ k v, t !! k = Some v → 0 ≤ v).
Proof.
  intros Hn.
  destruct (score_combos_floor r "c1" Hn) as (t & Ht & Hd & _); [combo_member |].
  exists t. split; [exact Ht |]. split; [exact Hd |]. split.
  - intros k Hk. destruct (score_combos_lookup r t k Hn Ht Hk) as [_ ->].
    by rewrite combo_score_baseline.
  - intros k v Hv.
    assert (k ∈ COMBO_VALUES) as Hk by (rewrite <- Hd; apply elem_of_dom; eauto).
    destruct (score_combos_floor r k Hn Hk) as (t' & Ht' & _ & v' & Hv' & Hle).
    assert (t' = t) by congruence. subst t'.
    assert (v' = v) by congruence. lia.
Qed.

Lemma score_combos_six_nonneg_witness :
  ∃ t, score_combos scenario2 = Some t ∧ dom t = COMBO_VALUES ∧
       t !! "c6" = Some (2 + rule_deltas scenario2 "c6") ∧
       rule_deltas scenario2 "c6" = -1 ∧
       (∀ k v, t !! k = Some v → 0 ≤ v).
Proof.
  destruct (score_combos_six_nonneg scenario2 scenario2_normalized)
    as (t & Ht & Hd & Hv & Hpos).
  exists t. split; [exact Ht |]. split; [exact Hd |].
  split; [apply Hv; combo_member |].
  split; [vm_compute; reflexivity | exact Hpos].
Defined.

Lemma level_of_bounds (s : string) :
  s ∈ dom LEVEL_MAP → 0 ≤ level_of LEVEL_MAP s ≤ 2.
Proof. intros (n & Hn & ?)%level_lookup. unfold level_of. rewrite Hn. done. Qed.

Lemma speed_of_bounds (s : string) :
  s ∈ dom SPEED_MAP → 0 ≤ level_of SPEED_MAP s ≤ 2.
Proof. intros (n & Hn & ?)%speed_lookup. unfold level_of. rewrite Hn. done. Qed.

Ltac rule_cases :=
  unfold rule;
  repeat match goal with
         | |- context [if ?c then _ else _] => destruct c
         end;
  lia.

(** Every score lies between 1 and 12; only c6 can pass 10. *)
Theorem score_combos_range (r : Requirement) (t : gmap string Z) (k : string) (v : Z) :
  normalized r → score_combos r = Some t → t !! k = Some v →
  1 ≤ v ≤ 12 ∧ (k ≠ "c6" → v ≤ 10).
Proof.
  intros Hn Ht Hv.
  assert (k ∈ COMBO_VALUES) as Hk.
  { destruct (score_combos_lookup r t "c1" Hn Ht) as [Hd _]; [combo_member |].
    rewrite <- Hd. apply elem_of_dom. eauto. }
  destruct (score_combos_lookup r t k Hn Ht Hk) as [_ Hv'].
  assert (v = combo_score r k) as -> by congruence. clear Hv Hv' Ht.
  pose proof (level_of_bounds _ (norm_domain _ Hn)) as Hdom.
  apply combo_cases in Hk.
  unfold combo_score.
  generalize dependent (level_of LEVEL_MAP (domain_complexity r)). intros domain Hdom.
  destruct Hk as [-> | [-> | [-> | [-> | [-> | ->]]]]]; cbn [String.eqb Ascii.eqb Bool.eqb];
    (split; [| intros ?; try congruence]); rule_cases.
Qed.

Lemma score_combos_range_witness : 1 ≤ 9 ≤ 12.
Proof.
  apply (score_combos_range scenario2 scenario2_scores "c3" 9 scenario2_normalized
           scenario2_scored).
  reflexivity.
Defined.

Lemma with_fast_normalized (b : bool) (r : Requirement) :
  normalized r → normalized (with_fast b r).
Proof. intros []. by split. Qed.

Lemma with_separation_normalized (b : bool) (r : Requirement) :
  normalized r → normalized (with_separation b r).
Proof. intros []. by split. Qed.

Lemma score_combos_key (r : Requirement) (t : gmap string Z) (k : string) :
  normalized r → score_combos r = Some t → is_Some (t !! k) → k ∈ COMBO_VALUES.
Proof.
  intros Hn Ht Hk.
  destruct (score_combos_lookup r t "c1" Hn Ht) as [Hd _]; [combo_member |].
  rewrite <- Hd. by apply elem_of_dom.
Qed.

(** Asking for fast validation moves the scores by fixed amounts, whatever
    the other fields: c1 +2, c2 +1, c3 unchanged, c4 +1, c5 +3, c6 -1. *)
Theorem fast_validation_effect (r : Requirement) (t_off t_on : gmap string Z)
    (k : string) (v : Z) :
  normalized r →
  score_combos (with_fast false r) = Some t_off →
  score_combos (with_fast true r) = Some t_on →
  t_off !! k = Some v →
  ∃ b, fast_bonus !! k = Some b ∧ t_on !! k = Some (v + b).
Proof.
  intros Hn Hoff Hon Hv.
  pose proof (with_fast_normalized false r Hn) as Hn0.
  pose proof (with_fast_normalized true r Hn) as Hn1.
  assert (k ∈ COMBO_VALUES) as Hk by (apply (score_combos_key _ _ _ Hn0 Hoff); eauto).
  destruct (score_combos_lookup _ _ k Hn0 Hoff Hk) as [_ H0].
  destruct (score_combos_lookup _ _ k Hn1 Hon Hk) as [_ H1].
  assert (v = combo_score (with_fast false r) k) as -> by congruence.
  rewrite H1. clear - Hk. apply combo_cases in Hk.
  destruct Hk as [-> | [-> | [-> | [-> | [-> | ->]]]]];
    eexists; (split; [reflexivity |]); f_equal;
    unfold combo_score;
    cbn [String.eqb Ascii.eqb Bool.eqb with_fast team_size module_count ui_priority
         backend_complexity domain_complexity compliance_level design_source
         frontend_backend_separation need_fast_validation iteration_speed];
    change (rule true ?d) with d; change (rule false ?d) with 0; lia.
Qed.

Lemma fast_validation_effect_witness :
  ∃ b, fast_bonus !! "c5" = Some b ∧ scenario2_scores !! "c5" = Some (5 + b).
Proof.
  apply (fast_validation_effect scenario2
           {[ "c1" := 6; "c2" := 8; "c3" := 9; "c4" := 2; "c5" := 5; "c6" := 2 ]}
           scenario2_scores "c5" 5 scenario2_normalized);
    vm_compute; reflexivity.
Defined.

(** Separating frontend and backend adds 3 to the score of c3 and leaves
    every other score as it is. *)
Theorem separation_effect (r : Requirement) (t_off t_on : gmap string Z)
    (k : string) (v : Z) :
  normalized r →
  score_combos (with_separation false r) = Some t_off →
  score_combos (with_separation true r) = Some t_on →
  t_off !! k = Some v →
  t_on !! k = Some (if decide (k = "c3") then v + 3 else v).
Proof.
  intros Hn Hoff Hon Hv.
  pose proof (with_separation_normalized false r Hn) as Hn0.
  pose proof (with_separation_normalized true r Hn) as Hn1.
  assert (k ∈ COMBO_VALUES) as Hk by (apply (score_combos_key _ _ _ Hn0 Hoff); eauto).
  destruct (score_combos_lookup _ _ k Hn0 Hoff Hk) as [_ H0].
  destruct (score_combos_lookup _ _ k Hn1 Hon Hk) as [_ H1].
  assert (v = combo_score (with_separation false r) k) as -> by congruence.
  rewrite H1. clear - Hk. apply combo_cases in Hk.
  destruct Hk as [-> | [-> | [-> | [-> | [-> | ->]]]]];
    f_equal; unfold combo_score;
    cbn [String.eqb Ascii.eqb Bool.eqb with_separation team_size module_count
         ui_priority backend_complexity domain_complexity compliance_level
         design_source frontend_backend_separation need_fast_validation
         iteration_speed];
    change (rule true ?d) with d; change (rule false ?d) with 0;
    (rewrite decide_True by reflexivity || rewrite decide_False by discriminate); lia.
Qed.

Lemma separation_effect_witness : scenario2_scores !! "c3" = Some (6 + 3).
Proof.
  apply (separation_effect scenario2
           {[ "c1" := 8; "c2" := 9; "c3" := 6; "c4" := 3; "c5" := 8; "c6" := 1 ]}
           scenario2_scores "c3" 6 scenario2_normalized);
    vm_compute; reflexivity.
Defined.

(** ** More on the selection *)

Lemma sorted_items_keys_distinct (scores : gmap string Z) :
  NoDup (sorted_items scores).*1.
Proof. rewrite sorted_items_perm. apply NoDup_fst_map_to_list. Qed.

Lemma sorted_items_key (scores : gmap string Z) (item : string * Z) :
  item ∈ sorted_items scores → item.1 ∈ dom scores.
Proof.
  destruct item as [k v]. intros H%sorted_items_elem. apply elem_of_dom. eauto.
Qed.

(** The first two entries of the sorted order of a table over the six codes. *)
Lemma sorted_items_front (scores : gmap string Z) :
  dom scores = COMBO_VALUES →
  ∃ top second rest,
    sorted_items scores = top :: second :: rest ∧
    top.1 ∈ COMBO_VALUES ∧ second.1 ∈ COMBO_VALUES ∧ top.1 ≠ second.1 ∧
    scores !! top.1 = Some top.2 ∧ scores !! second.1 = Some second.2 ∧
    (∀ k v, scores !! k = Some v → k ≠ top.1 → ranks_before second (k, v)).
Proof.
  intros Hd.
  pose proof (sorted_items_length scores Hd) as Hlen.
  pose proof (sorted_items_keys_distinct scores) as Hnd.
  pose proof (sorted_items_ranked scores) as Hs.
  pose proof (sorted_items_elem scores) as He.
  pose proof (sorted_items_key scores) as Hk.
  destruct (sorted_items scores) as [| [k1 v1] [| [k2 v2] rest]]; try discriminate.
  exists (k1, v1), (k2, v2), rest. cbn [fst snd].
  split; [reflexivity |].
  split; [rewrite <- Hd; apply (Hk (k1, v1)); left |].
  split; [rewrite <- Hd; apply (Hk (k2, v2)); right; left |].
  split.
  { cbn [fmap list_fmap fst] in Hnd. apply NoDup_cons in Hnd as [Hn _].
    intros ->. apply Hn. left. }
  split; [apply He; left |].
  split; [apply He; right; left |].
  intros k v Hkv Hne. apply He in Hkv.
  apply elem_of_cons in Hkv as [[= -> ->] | Hin]; [contradiction |].
  apply StronglySorted_inv in Hs as [Hs _].
  apply StronglySorted_inv in Hs as [_ Hall].
  apply elem_of_cons in Hin as [-> | Hin].
  - right. split; reflexivity.
  - rewrite Forall_forall in Hall. by apply Hall.
Qed.

Lemma select_combo_codes (scores : gmap string Z) (forced_combo : string) :
  dom scores = COMBO_VALUES →
  ∃ primary secondary,
    select_combo scores forced_combo = Some (primary, secondary) ∧
    primary ∈ COMBO_VALUES ∧
    (forced_combo ∈ COMBO_VALUES → primary = forced_combo) ∧
    (∀ c, secondary = Some c → c ∈ COMBO_VALUES ∧ c ≠ primary).
Proof.
  intros Hd.
  destruct (sorted_items_front scores Hd)
    as (top & second & rest & Hs & Ht & Hsec & Hne & _).
  unfold select_combo. rewrite Hs.
  cbn [lookup list_lookup fmap option_fmap option_map mbind option_bind].
  case_bool_decide as Hf.
  - eexists _, _. split; [reflexivity |]. split; [assumption |]. split; [done |].
    intros c. case_bool_decide as Htop; intros [= <-]; split; try assumption.
    congruence.
  - eexists _, _. split; [reflexivity |]. split; [assumption |]. split; [done |].
    intros c. destruct (top.2 - second.2 <=? 2); intros [= <-]. by split.
Qed.

(** Both codes of a selection are among the six and differ from each other,
    with or without a forced code; a forced code among the six is the
    primary. *)
Theorem select_combo_distinct_codes (scores : gmap string Z) (forced_combo : string) :
  dom scores = COMBO_VALUES →
  ∃ primary secondary,
    select_combo scores forced_combo = Some (primary, secondary) ∧
    primary ∈ COMBO_VALUES ∧
    (forced_combo ∈ COMBO_VALUES → primary = forced_combo) ∧
    (∀ c, secondary = Some c → c ∈ COMBO_VALUES ∧ c ≠ primary).
Proof. apply select_combo_codes. Qed.

Lemma select_combo_distinct_codes_witness :
  ∃ primary secondary,
    select_combo scenario2_scores "c3" = Some (primary, secondary) ∧
    primary ∈ COMBO_VALUES.
Proof.
  destruct (select_combo_distinct_codes scenario2_scores "c3" scenario2_scores_dom)
    as (p & s & H & Hp & _).
  eauto.
Defined.

(** The first entry of the sorted order ranks before every entry of the
    table. *)
Lemma sorted_items_top (scores : gmap string Z) (top : string * Z)
    (rest : list (string * Z)) :
  sorted_items scores = top :: rest →
  ∀ k v, scores !! k = Some v → ranks_before top (k, v).
Proof.
  intros Hs k v Hkv.
  pose proof (sorted_items_ranked scores) as Hr.
  apply sorted_items_elem in Hkv. rewrite Hs in Hkv, Hr.
  apply elem_of_cons in Hkv as [<- | Hin].
  - right. split; reflexivity.
  - apply StronglySorted_inv in Hr as [_ Hall].
    rewrite Forall_forall in Hall. by apply Hall.
Qed.

(** Without a forced code the primary is the first code of the ranking
    (best score, smallest code among equals).  A secondary is another code
    than the primary: the first of the ranking of the other codes, and it
    trails the primary by at most 2 points.  There is a secondary exactly
    when some other code trails the primary by at most 2 points, and none
    exactly when every other code trails it by more than 2. *)
Theorem select_combo_gap (scores : gmap string Z) (forced_combo : string) :
  dom scores = COMBO_VALUES → forced_combo ∉ COMBO_VALUES →
  ∃ primary secondary best,
    select_combo scores forced_combo = Some (primary, secondary) ∧
    scores !! primary = Some best ∧
    (∀ k w, scores !! k = Some w → ranks_before (primary, best) (k, w)) ∧
    (∀ c, secondary = Some c ↔
          c ≠ primary ∧
          ∃ v, scores !! c = Some v ∧ best - v ≤ 2 ∧
               ∀ k w, scores !! k = Some w → k ≠ primary →
                      ranks_before (c, v) (k, w)) ∧
    (secondary = None ↔
       ∀ k w, scores !! k = Some w → k ≠ primary → w < best - 2).
Proof.
  intros Hd Hf.
  destruct (sorted_items_front scores Hd)
    as ([k1 v1] & [k2 v2] & rest & Hs & _ & _ & Hne & H1 & H2 & Hrank).
  pose proof (sorted_items_top scores _ _ Hs) as Htop.
  cbn [fst snd] in *.
  assert (∀ k w, scores !! k = Some w → k ≠ k1 → w ≤ v2) as Hle.
  { intros k w Hk Hk1. destruct (Hrank k w Hk Hk1) as [? | [? _]]; cbn in *; lia. }
  assert (∀ c v, c ≠ k1 → scores !! c = Some v →
            (∀ k w, scores !! k = Some w → k ≠ k1 → ranks_before (c, v) (k, w)) →
            c = k2 ∧ v = v2) as Hfirst.
  { intros c v Hc Hcv Hall.
    pose proof (Hall k2 v2 H2 (not_eq_sym Hne)) as Ha.
    pose proof (Hrank c v Hcv Hc) as Hb.
    unfold ranks_before in Ha, Hb. cbn [fst snd] in Ha, Hb.
    assert (v = v2) as -> by (destruct Ha as [? | [? _]], Hb as [? | [? _]]; lia).
    split; [| reflexivity].
    destruct Ha as [? | [_ Ha]]; [lia |]. destruct Hb as [? | [_ Hb]]; [lia |].
    by apply (anti_symm String.le). }
  unfold select_combo. rewrite Hs, bool_decide_eq_false_2 by assumption.
  cbn [lookup list_lookup mbind option_bind fst snd].
  exists k1. destruct (Z.leb_spec (v1 - v2) 2) as [Hgap | Hgap].
  - exists (Some k2), v1.
    split; [reflexivity |]. split; [exact H1 |]. split; [exact Htop |]. split.
    + intros c. split.
      * intros [= <-]. split; [by apply not_eq_sym |]. exists v2. auto.
      * intros (Hc & v & Hcv & _ & Hall).
        destruct (Hfirst c v Hc Hcv Hall) as [-> _]. reflexivity.
    + split; [discriminate |]. intros Hall.
      specialize (Hall k2 v2 H2 (not_eq_sym Hne)). lia.
  - exists None, v1.
    split; [reflexivity |]. split; [exact H1 |]. split; [exact Htop |]. split.
    + intros c. split; [discriminate |].
      intros (Hc & v & Hcv & Hv & _). specialize (Hle c v Hcv Hc). lia.
    + split; [| reflexivity]. intros _ k w Hk Hk1.
      specialize (Hle k w Hk Hk1). lia.
Qed.

Lemma select_combo_gap_witness :
  ∃ primary secondary,
    select_combo scenario2_scores "auto" = Some (primary, secondary) ∧
    secondary ≠ None.
Proof.
  destruct (select_combo_gap scenario2_scores "auto" scenario2_scores_dom auto_not_combo)
    as (p & s & best & Hsel & _).
  exists p, s. split; [exact Hsel |].
  vm_compute in Hsel. injection Hsel as <- <-. discriminate.
Defined.

(** Python may hand the items of the score table to [sorted] in any order,
    since the table is filled from a set: the sorted order, and with it the
    selection, is the same for every such order. *)
Theorem sorted_order_independent (scores : gmap string Z) (items : list (string * Z)) :
  items ≡ₚ map_to_list scores →
  merge_sort item_le items = sorted_items scores.
Proof.
  intros Hp. apply (StronglySorted_unique item_le).
  - apply StronglySorted_merge_sort; apply _.
  - apply sorted_items_sorted.
  - rewrite merge_sort_Permutation, Hp. symmetry. apply sorted_items_perm.
Qed.

Lemma sorted_order_independent_witness :
  merge_sort item_le
    [("c6", 1); ("c3", 9); ("c5", 8); ("c1", 8); ("c4", 3); ("c2", 9)]
  = sorted_items scenario2_scores.
Proof.
  apply (sorted_order_independent scenario2_scores).
  apply (NoDup_Permutation _ _).
  - by_computation.
  - apply NoDup_map_to_list.
  - intros [k v]. rewrite elem_of_map_to_list. split.
    + intros H. repeat (apply elem_of_cons in H as [[= -> ->] | H]; [reflexivity |]).
      by apply elem_of_nil in H.
    + intros H.
      assert (k ∈ COMBO_VALUES) as Hk
        by (rewrite <- scenario2_scores_dom; apply elem_of_dom; eauto).
      apply combo_cases in Hk.
      destruct Hk as [-> | [-> | [-> | [-> | [-> | ->]]]]];
        vm_compute in H; injection H as <-; by_computation.
Defined.

(** ** Classifier and mode *)

Lemma level_of_ordinal (s : string) :
  s ∈ dom LEVEL_MAP → level_of LEVEL_MAP s = ClassifierSpec.ordinal s.
Proof. intros H. unfold level_of. by rewrite (level_ordinal s H). Qed.

(** The tier never goes down when a requirement grows: a larger team, more
    modules, a higher level of domain, compliance or backend complexity, or
    separation turned on, each other input staying put or growing too. *)
Theorem complexity_level_monotone (r1 r2 : Requirement) :
  normalized r1 → normalized r2 →
  team_size r1 ≤ team_size r2 → module_count r1 ≤ module_count r2 →
  level_of LEVEL_MAP (domain_complexity r1) ≤ level_of LEVEL_MAP (domain_complexity r2) →
  level_of LEVEL_MAP (compliance_level r1) ≤ level_of LEVEL_MAP (compliance_level r2) →
  level_of LEVEL_MAP (backend_complexity r1) ≤ level_of LEVEL_MAP (backend_complexity r2) →
  (frontend_backend_separation r1 = true → frontend_backend_separation r2 = true) →
  ∃ t1 t2 n1 n2,
    complexity_level r1 = Some t1 ∧ complexity_level r2 = Some t2 ∧
    tier_rank t1 = Some n1 ∧ tier_rank t2 = Some n2 ∧ (n1 ≤ n2)%nat.
Proof.
  intros Hn1 Hn2 Ht Hm Hd Hc Hb Hs.
  rewrite !level_of_ordinal in Hd, Hc, Hb by (apply norm_domain || apply norm_compliance
                                               || apply norm_backend; assumption).
  do 4 eexists.
  split; [by apply complexity_level_total |].
  split; [by apply complexity_level_total |].
  split; [apply tier_of_rank |].
  split; [apply tier_of_rank |].
  assert (ClassifierSpec.total r1 ≤ ClassifierSpec.total r2) as Htot.
  { unfold ClassifierSpec.total, ClassifierSpec.team_band, ClassifierSpec.module_band.
    destruct (frontend_backend_separation r1), (frontend_backend_separation r2);
      try (specialize (Hs eq_refl); discriminate);
      repeat (case_decide; try lia). }
  repeat (case_decide; try lia).
Qed.

Lemma complexity_level_monotone_witness :
  ∃ t1 t2 n1 n2,
    complexity_level scenario1 = Some t1 ∧ complexity_level scenario2_high = Some t2 ∧
    tier_rank t1 = Some n1 ∧ tier_rank t2 = Some n2 ∧ (n1 ≤ n2)%nat.
Proof.
  apply (complexity_level_monotone scenario1 scenario2_high scenario1_normalized
           scenario2_high_normalized); vm_compute; congruence.
Defined.

Lemma recommend_mode_valid (req : Requirement) (complexity forced_mode : string) :
  normalized req →
  ∃ mode, recommend_mode req complexity forced_mode = Some mode ∧
          mode ∈ MODE_VALUES ∧
          (forced_mode ∈ MODE_VALUES → mode = forced_mode) ∧
          (forced_mode ∉ MODE_VALUES → mode ≠ "single-file").
Proof.
  intros Hn. destruct (level_lookup _ (norm_compliance _ Hn)) as (n & Hl & _).
  unfold recommend_mode. case_bool_decide as Hf.
  - exists forced_mode. repeat split; try done.
  - rewrite Hl. cbn [mbind option_bind].
    destruct (String.eqb complexity "S" && need_fast_validation req);
      [| destruct (String.eqb complexity "XL" || (n =? 2))];
      eexists; (split; [reflexivity |]); (split; [by_computation |]);
      (split; [done | intros _; discriminate]).
Qed.

(** The mode that comes out is always one of the four, a valid forced mode
    comes out as it is, and without one the mode is never single-file: the
    single-file pack is only produced on request. *)
Theorem recommend_mode_in_values (req : Requirement) (complexity forced_mode : string) :
  normalized req →
  ∃ mode, recommend_mode req complexity forced_mode = Some mode ∧
          mode ∈ MODE_VALUES ∧
          (forced_mode ∈ MODE_VALUES → mode = forced_mode) ∧
          (forced_mode ∉ MODE_VALUES → mode ≠ "single-file").
Proof. apply recommend_mode_valid. Qed.

Lemma recommend_mode_in_values_witness :
  ∃ mode, recommend_mode scenario2 "S" "auto" = Some mode ∧ mode ∈ MODE_VALUES.
Proof.
  destruct (recommend_mode_in_values scenario2 "S" "auto" scenario2_normalized)
    as (m & H & Hm & _).
  eauto.
Defined.

Lemma combos_lookup (k : string) :
  k ∈ COMBO_VALUES → ∃ combo, COMBOS !! k = Some combo ∧ code combo = k.
Proof.
  intros [-> | [-> | [-> | [-> | [-> | ->]]]]]%combo_cases;
    eexists; split; reflexivity.
Qed.

Lemma combo_code_truthy (k : string) : k ∈ COMBO_VALUES → PyStr.truthy k = true.
Proof. intros [-> | [-> | [-> | [-> | [-> | ->]]]]]%combo_cases; reflexivity. Qed.

(** ** The flow runner *)

Example normalize_docs_examples :
  normalize_docs "DB, arch ,foo, db" = ["architecture"; "database"] ∧
  normalize_docs "" = VALID_DOCS ∧ normalize_docs "foo,bar" = VALID_DOCS ∧
  normalize_docs " , ,API" = ["api"].
Proof. repeat split; vm_compute; reflexivity. Qed.

Lemma alias_values (item key : string) :
  DOC_ALIAS !! item = Some key → In key VALID_DOCS ∧ PyStr.truthy key = true.
Proof.
  assert (map_Forall (λ _ v, v ∈ VALID_DOCS ∧ PyStr.truthy v = true) DOC_ALIAS) as H
    by by_computation.
  intros Hk. destruct (H item key Hk) as [Hv Ht]. split; [| exact Ht].
  by apply list_elem_of_In.
Qed.

Lemma pick_doc_elem (picked : list string) (item d : string) :
  In d (pick_doc picked item) ↔ In d picked ∨ DOC_ALIAS !! item = Some d.
Proof.
  unfold pick_doc. destruct (DOC_ALIAS !! item) as [key |] eqn:E.
  - destruct (alias_values item key E) as [_ ->]. cbn [andb].
    case_bool_decide as Hin; cbn [negb].
    + apply list_elem_of_In in Hin. split; [tauto |].
      intros [? | [= <-]]; assumption.
    + rewrite in_app_iff. cbn [In]. split.
      * intros [? | [<- | []]]; auto.
      * intros [? | [= <-]]; auto.
  - split; [tauto |]. intros [? | ?]; [assumption | discriminate].
Qed.

Lemma fold_pick_elem (items picked : list string) (d : string) :
  In d (foldl pick_doc picked items) ↔
  In d picked ∨ ∃ item, In item items ∧ DOC_ALIAS !! item = Some d.
Proof.
  revert picked. induction items as [| item items IH]; intros picked; cbn [foldl].
  - split; [tauto |]. intros [? | (? & [] & _)]. assumption.
  - rewrite IH, pick_doc_elem. split.
    + intros [[? | ?] | (i & ? & ?)]; [tauto | right; exists item | right; exists i];
        cbn [In]; tauto.
    + intros [? | (i & [<- | ?] & ?)]; [tauto | tauto | right; eauto].
Qed.

Lemma filter_sublist {A} (f : A → bool) (l : list A) : List.filter f l `sublist_of` l.
Proof.
  induction l as [| a l IH]; cbn [List.filter]; [constructor |].
  destruct (f a); by constructor.
Qed.

Lemma default_picked_nonempty (picked : list string) :
  (∀ d, In d picked → In d VALID_DOCS) →
  let picked' := match picked with [] => VALID_DOCS | _ => picked end in
  List.filter (λ d, bool_decide (d ∈ picked')) VALID_DOCS ≠ [].
Proof.
  intros Hv. destruct picked as [| d picked]; cbn zeta; [discriminate |].
  intros E.
  assert (In d (List.filter (λ x, bool_decide (x ∈ d :: picked)) VALID_DOCS)) as Hin.
  { apply filter_In. split; [apply Hv; by left |].
    apply bool_decide_eq_true_2. left. }
  rewrite E in Hin. destruct Hin.
Qed.

(** The traditional documents to write are never none and always a choice
    among the four known ones, in their fixed order and without repetition,
    whatever the list given. *)
Theorem normalize_docs_selection (raw : string) :
  normalize_docs raw ≠ [] ∧ normalize_docs raw `sublist_of` VALID_DOCS ∧
  NoDup (normalize_docs raw).
Proof.
  assert (normalize_docs raw `sublist_of` VALID_DOCS) as Hsub
    by apply filter_sublist.
  split; [| split; [exact Hsub |]].
  - unfold normalize_docs. apply default_picked_nonempty.
    intros d [[] | (item & _ & Hd)]%fold_pick_elem.
    by destruct (alias_values item d Hd).
  - eapply sublist_NoDup; [| exact Hsub]. by_computation.
Qed.

Lemma set_flag_keys (key val : string) (result : gmap string string) :
  dom result ⊆ override_keys → dom (set_flag key val result) ⊆ override_keys.
Proof.
  intros Hd. unfold set_flag.
  repeat case_match; try assumption;
    rewrite dom_insert; apply union_least; try assumption;
    apply singleton_subseteq_l; by_computation.
Qed.

Lemma parse_flags_pair (key val : string) (rest : list string)
    (result : gmap string string) :
  parse_flags (key :: val :: rest) result =
  if String.prefix "--" key then parse_flags rest (set_flag key val result)
  else parse_flags (val :: rest) result.
Proof. reflexivity. Qed.

Lemma parse_flags_keys (tokens : list string) (result : gmap string string) :
  dom result ⊆ override_keys → dom (parse_flags tokens result) ⊆ override_keys.
Proof.
  remember (length tokens) as n eqn:Hn.
  revert tokens result Hn. induction (lt_wf n) as [n _ IH].
  intros tokens result -> Hd.
  destruct tokens as [| key [| val rest]]; [assumption | assumption |].
  rewrite parse_flags_pair.
  destruct (String.prefix "--" key).
  - apply (IH (length rest)); [cbn; lia | reflexivity |]. by apply set_flag_keys.
  - apply (IH (length (val :: rest))); [cbn; lia | reflexivity | assumption].
Qed.

(** Whatever the command and however it is split into tokens, the overrides
    parsed from it hold no key but path, combo, mode, recommend,
    traditional_docs and output. *)
Theorem parse_command_keys (shlex_split : string → option (list string))
    (raw : string) (result : gmap string string) :
  parse_command shlex_split raw = Some result → dom result ⊆ override_keys.
Proof.
  unfold parse_command.
  destruct (negb (PyStr.truthy (PyStr.strip raw))).
  { intros [= <-]. rewrite dom_empty. apply empty_subseteq. }
  case_bool_decide.
  { intros [= <-]. by_computation. }
  destruct (shlex_split (PyStr.strip raw)) as [tokens |]; [| discriminate].
  cbn [mbind option_bind].
  destruct tokens as [| first others].
  { intros [= <-]. rewrite dom_empty. apply empty_subseteq. }
  destruct (if bool_decide (first ∈ ({[ "/umx"; "umx" ]} : gset string))
            then others else first :: others) as [| head flags].
  { intros [= <-]. rewrite dom_empty. apply empty_subseteq. }
  destruct (String.eqb (PyStr.lower head) "start").
  { intros [= <-]. by_computation. }
  destruct (action_overrides (PyStr.lower head)) as [start |] eqn:Ea.
  - intros [= <-]. apply parse_flags_keys.
    unfold action_overrides in Ea.
    repeat case_match; try discriminate; injection Ea as <-; by_computation.
  - intros [= <-]. rewrite dom_empty. apply empty_subseteq.
Qed.

Lemma parse_command_keys_witness :
  ∃ result,
    parse_command (λ s, Some (String.words s)) "/umx Direct --mode full --combo c3 --x"
      = Some result ∧
    result !! "mode" = Some "full" ∧ dom result ⊆ override_keys.
Proof.
  eexists. split; [vm_compute; reflexivity |]. split; [reflexivity |].
  eapply (parse_command_keys (λ s, Some (String.words s))
            "/umx Direct --mode full --combo c3 --x").
  vm_compute. reflexivity.
Defined.

(** ** Arguments and sizes *)

Lemma mode_alias_cases (m v : string) :
  MODE_ALIAS !! m = Some v →
  v = "single-file" ∧ (m = "single" ∨ m = "single_file" ∨ m = "single-file").
Proof.
  intros H.
  assert (map_Forall (λ _ v, v = "single-file") MODE_ALIAS) as Hv by by_computation.
  split; [exact (Hv m v H) |].
  assert (m ∈ dom MODE_ALIAS) as Hm by (apply elem_of_dom; eauto).
  revert Hm. unfold MODE_ALIAS. rewrite !dom_insert_L, dom_singleton_L.
  rewrite !elem_of_union, !elem_of_singleton. tauto.
Qed.

Lemma load_requirements_sizes (data : gmap string pyval) (r : Requirement) :
  load_requirements data = Some r →
  to_int (dict_get data "team_size") 2 = Some (team_size r) ∨
  to_int (dict_get data "team_size") 2 ≠ Some (team_size r) ∧ team_size r = 1.
Proof.
  unfold load_requirements. intros H.
  destruct (to_int (dict_get data "team_size") 2) as [team |]; [| discriminate].
  destruct (to_int (dict_get data "module_count") 3); [| discriminate].
  cbn [mbind option_bind] in H. injection H as <-. cbn [team_size].
  destruct (decide (team = Z.max team 1)) as [<- | Hne]; [by left |].
  right. split; [congruence | lia].
Qed.

(** The sizes at the edges: a JSON boolean is taken as the number 0 or 1 and
    so gives a team or module count of 1, not the default; a number below 1
    is raised to 1; a missing key, null, an array or object and a float
    that is not a number give the default, 2 for the team and 3 for the
    modules. *)
Theorem size_fields_edges (data : gmap string pyval) (r : Requirement) :
  load_requirements data = Some r →
  (∀ b, dict_get data "team_size" = PBool b → team_size r = 1) ∧
  (∀ b, dict_get data "module_count" = PBool b → module_count r = 1) ∧
  (∀ n, dict_get data "team_size" = PInt n → team_size r = Z.max n 1) ∧
  (∀ n, dict_get data "module_count" = PInt n → module_count r = Z.max n 1) ∧
  (no_integer (dict_get data "team_size") → team_size r = 2) ∧
  (no_integer (dict_get data "module_count") → module_count r = 3).
Proof.
  unfold load_requirements. intros H.
  destruct (to_int (dict_get data "team_size") 2) as [team |] eqn:Et; [| discriminate].
  destruct (to_int (dict_get data "module_count") 3) as [modules |] eqn:Em;
    [| discriminate].
  cbn [mbind option_bind] in H. injection H as <-.
  cbn [team_size module_count].
  repeat split.
  - intros b Hb. rewrite Hb in Et. injection Et as <-. by destruct b.
  - intros b Hb. rewrite Hb in Em. injection Em as <-. by destruct b.
  - intros n Hn. rewrite Hn in Et. by injection Et as <-.
  - intros n Hn. rewrite Hn in Em. by injection Em as <-.
  - intros Hno. destruct (dict_get data "team_size") as [| | | [| |] | |];
      try destruct Hno; by injection Et as <-.
  - intros Hno. destruct (dict_get data "module_count") as [| | | [| |] | |];
      try destruct Hno; by injection Em as <-.
Qed.

Lemma size_fields_edges_witness :
  team_size scenario2 = Z.max 2 1 ∧ module_count scenario2 = Z.max 5 1.
Proof.
  destruct (size_fields_edges scenario2_data scenario2 scenario2_loaded)
    as (_ & _ & Ht & Hm & _).
  split; [apply Ht | apply Hm]; vm_compute; reflexivity.
Defined.

(** ** Small projects *)

(** A small project stays small: with a team of at most 2 and at most 3
    modules the tier is S or M whatever the levels, and the tier XL needs a
    team above 5 or more than 6 modules. *)
Theorem complexity_level_small_projects (r : Requirement) :
  normalized r →
  ∃ tier, complexity_level r = Some tier ∧
    (team_size r ≤ 2 → module_count r ≤ 3 → tier = "S" ∨ tier = "M") ∧
    (tier = "XL" → 5 < team_size r ∨ 6 < module_count r).
Proof.
  intros Hn. eexists. split; [by apply complexity_level_total |].
  pose proof (ordinal_bounds (domain_complexity r)).
  pose proof (ordinal_bounds (compliance_level r)).
  pose proof (ordinal_bounds (backend_complexity r)).
  unfold ClassifierSpec.tier_of, ClassifierSpec.total,
         ClassifierSpec.team_band, ClassifierSpec.module_band.
  generalize dependent (ClassifierSpec.ordinal (domain_complexity r)).
  generalize dependent (ClassifierSpec.ordinal (compliance_level r)).
  generalize dependent (ClassifierSpec.ordinal (backend_complexity r)).
  intros b Hb c Hc d Hd.
  destruct (frontend_backend_separation r); split.
  all: intros; repeat (case_decide; try lia); first [discriminate | tauto | lia].
Qed.

Lemma complexity_level_small_projects_witness :
  ∃ tier, complexity_level scenario1 = Some tier ∧ (tier = "S" ∨ tier = "M").
Proof.
  destruct (complexity_level_small_projects scenario1 scenario1_normalized)
    as (tier & Ht & Hsmall & _).
  exists tier. split; [exact Ht |]. apply Hsmall; vm_compute; discriminate.
Defined.

(** * Properties over the string operations of Python *)

(** ** The two embeddings *)

(** The embedding of the first part is the one of [Py] at the operations of
    [PyStr]. *)
Lemma load_requirements_instance (data : gmap string pyval) :
  Py.load_requirements PyStr.strip PyStr.lower PyStr.parse_int (Py.JsonObject data)
  = load_requirements data.
Proof. reflexivity. Qed.

Lemma find_requirement_quality_issues_instance (req : Requirement) :
  Py.find_requirement_quality_issues PyStr.strip PyStr.lower req
  = find_requirement_quality_issues req.
Proof. reflexivity. Qed.

Lemma normalize_docs_instance (raw : string) :
  Py.normalize_docs PyStr.strip PyStr.lower raw = normalize_docs raw.
Proof. reflexivity. Qed.

(** ** Normalizer *)

Section IntBuiltin.

Variable int_of_str : string → option Z.

Lemma py_to_int_none (v : pyval) (d : Z) :
  Py.to_int int_of_str v d = None ↔ is_infinite v.
Proof.
  unfold Py.to_int, Py.py_int, is_infinite.
  destruct v as [| | | [| |] | |]; try (split; [discriminate | tauto]);
    try (split; [tauto | reflexivity]).
  destruct (int_of_str s); split; (discriminate || tauto).
Qed.

End IntBuiltin.

Section StringBuiltins.

Variables strip lower : string → string.

(** ** Quality gate *)

(** The checks are exclusive: a field has one outcome. *)
Lemma py_field_check_functional (key label value : string) (i j : option string) :
  GateSpecPy.field_check strip lower key label value i →
  GateSpecPy.field_check strip lower key label value j → i = j.
Proof. intros Hi Hj. destruct Hi; destruct Hj; try reflexivity; contradiction. Qed.

(** One iteration appends the outcome of its own field and nothing else. *)
Lemma py_gate_step_field (req : Requirement) (issues : list string) (key label : string) :
  ∃ i, GateSpecPy.field_check strip lower key label (req_text req key) i ∧
       Py.gate_step strip lower req issues (key, label) = issues ++ option_list i.
Proof.
  unfold Py.gate_step.
  generalize (req_text req key). intros value.
  destruct (PyStr.truthy (strip value)) eqn:Ht; cbn [negb].
  2:{ eexists. split; [apply GateSpecPy.check_empty; by apply truthy_false | reflexivity]. }
  assert (strip value ≠ "") as Hne.
  { intros E%truthy_false. congruence. }
  destruct (PyStr.contains "<" (strip value) || PyStr.contains ">" (strip value)) eqn:Ha.
  { eexists. split; [apply GateSpecPy.check_template |]; [assumption | | reflexivity].
    by apply orb_true_iff. }
  assert (¬ GateSpec.has_angle (strip value)) as Hna.
  { intros H%orb_true_iff. congruence. }
  destruct (existsb _ placeholder_hints) eqn:Hh.
  { eexists. split; [apply GateSpecPy.check_hint |]; [assumption .. | | reflexivity].
    apply existsb_exists in Hh. exact Hh. }
  assert (¬ GateSpecPy.has_hint lower (strip value)) as Hnh.
  { intros H. apply existsb_exists in H. congruence. }
  destruct (String.eqb_spec key "project_goal") as [Hk | Hk]; cbn [andb].
  - destruct (Z.ltb_spec (PyStr.len (strip value)) 8) as [Hl | Hl].
    + eexists. split; [apply GateSpecPy.check_short |]; [assumption .. | | reflexivity].
      by split.
    + exists None. split; [apply GateSpecPy.check_pass |]; [assumption .. | |].
      * intros [_ ?]. lia.
      * symmetry. apply app_nil_r.
  - exists None. split; [apply GateSpecPy.check_pass |]; [assumption .. | |].
    + by intros [? _].
    + symmetry. apply app_nil_r.
Qed.

Lemma py_gate_fields (req : Requirement) :
  ∃ i_name i_goal i_users,
    GateSpecPy.field_check strip lower "project_name" "项目名称" (project_name req) i_name ∧
    GateSpecPy.field_check strip lower "project_goal" "项目目标" (project_goal req) i_goal ∧
    GateSpecPy.field_check strip lower "target_users" "目标用户" (target_users req) i_users ∧
    Py.find_requirement_quality_issues strip lower req
      = option_list i_name ++ option_list i_goal ++ option_list i_users.
Proof.
  unfold Py.find_requirement_quality_issues, required_fields. cbn [foldl].
  destruct (py_gate_step_field req [] "project_name" "项目名称") as (i1 & H1 & ->).
  destruct (py_gate_step_field req ([] ++ option_list i1) "project_goal" "项目目标")
    as (i2 & H2 & ->).
  destruct (py_gate_step_field req (([] ++ option_list i1) ++ option_list i2)
              "target_users" "目标用户") as (i3 & H3 & ->).
  exists i1, i2, i3. rewrite app_nil_l, <- app_assoc. done.
Qed.

Lemma py_field_check_none (key label value : string) (i : option string) :
  GateSpecPy.field_check strip lower key label value i →
  i = None ↔
  strip value ≠ "" ∧ ¬ GateSpec.has_angle (strip value) ∧
  ¬ GateSpecPy.has_hint lower (strip value) ∧
  ¬ GateSpec.too_short key (strip value).
Proof.
  intros H. destruct H; (split; [try discriminate | try tauto]).
  intros _. by repeat split.
Qed.

(** ** The list of documents of the flow runner *)

Lemma py_items_elem (raw item : string) :
  In item (map (λ x, lower (strip x))
             (List.filter (λ x, PyStr.truthy (strip x)) (split_on "," raw))) ↔
  ∃ part, In part (split_on "," raw) ∧ strip part ≠ "" ∧ item = lower (strip part).
Proof.
  rewrite in_map_iff. split.
  - intros (part & <- & [? Ht]%filter_In). exists part. repeat split; [assumption |].
    intros E%truthy_false. congruence.
  - intros (part & ? & Hne & ->). exists part. split; [reflexivity |].
    apply filter_In. split; [assumption |].
    destruct (PyStr.truthy (strip part)) eqn:E; [reflexivity |].
    by apply truthy_false in E.
Qed.

Lemma py_normalize_docs_elem (raw d : string) :
  In d (Py.normalize_docs strip lower raw) ↔
  In d VALID_DOCS ∧
  ((∃ part, In part (split_on "," raw) ∧ names_doc strip lower part d) ∨
   (∀ part d', In part (split_on "," raw) → ¬ names_doc strip lower part d')).
Proof.
  unfold Py.normalize_docs.
  set (items := map _ _).
  pose proof (py_items_elem raw) as Hitems. fold items in Hitems.
  assert (∀ d', (∃ item, In item items ∧ DOC_ALIAS !! item = Some d') ↔
                ∃ part, In part (split_on "," raw) ∧ names_doc strip lower part d')
    as Hnamed.
  { intros d'. split.
    - intros (item & (part & Hp & Hne & ->)%Hitems & Hd). exists part. by repeat split.
    - intros (part & Hp & Hne & Hd). exists (lower (strip part)).
      split; [| exact Hd]. apply Hitems. exists part. by repeat split. }
  assert (In d (List.filter (λ x, bool_decide (x ∈ VALID_DOCS)) VALID_DOCS)
          ↔ In d VALID_DOCS) as Hall.
  { rewrite filter_In. split; [tauto |]. intros H. split; [exact H |].
    apply bool_decide_eq_true_2. by apply list_elem_of_In. }
  destruct items as [| item0 items'] eqn:Ei.
  - (* no item at all: every document *)
    change (foldl pick_doc [] VALID_DOCS) with VALID_DOCS. cbn match.
    rewrite Hall. split; [| tauto]. intros Hd. split; [exact Hd |]. right.
    intros part d' Hp Hn.
    assert (∃ item, In item [] ∧ DOC_ALIAS !! item = Some d') as (? & [] & _).
    apply Hnamed. eauto.
  - rewrite <- Ei in *. clear Ei item0 items'.
    destruct (foldl pick_doc [] items) as [| p0 picked] eqn:Ep.
    + (* no item names a document: every document *)
      rewrite Hall. split; [| tauto]. intros Hd. split; [exact Hd |]. right.
      intros part d' Hp Hn.
      assert (In d' (foldl pick_doc [] items)) as Hin.
      { apply fold_pick_elem. right. apply Hnamed. eauto. }
      rewrite Ep in Hin. destruct Hin.
    + rewrite <- Ep. rewrite filter_In, bool_decide_eq_true, list_elem_of_In.
      rewrite fold_pick_elem, Hnamed. split.
      * intros [Hd [[] | Hn]]. split; [exact Hd | by left].
      * intros [Hd [Hn | Hnone]]; [split; [exact Hd | by right] |].
        exfalso.
        assert (In p0 (foldl pick_doc [] items)) as Hin by (rewrite Ep; by left).
        apply fold_pick_elem in Hin as [[] | Hin].
        apply Hnamed in Hin as (part & Hp & Hn). by apply (Hnone part p0).
Qed.

End StringBuiltins.

(** ** The report and the arguments *)

Lemma report_markdown_total (req : Requirement) (scores : gmap string Z)
    (primary : Combo) (secondary : option Combo) (mode complexity : string)
    (docs : list doc) :
  dom scores = COMBO_VALUES →
  is_Some (report_markdown req scores primary secondary mode complexity docs).
Proof.
  intros Hd. unfold report_markdown.
  destruct (mapM_is_Some_2 report_row (sorted_items scores)) as [rows ->].
  { apply Forall_forall. intros item Hin%sorted_items_key.
    rewrite Hd in Hin. destruct (combos_lookup _ Hin) as (c & Hc & _).
    unfold compose, report_row. rewrite Hc. cbn [mbind option_bind]. eauto. }
  cbn [mbind option_bind]. eauto.
Qed.

Lemma py_args_pass (combo_arg mode_arg : string) :
  combo_arg = "auto" ∨ combo_arg ∈ COMBO_VALUES →
  mode_arg = "auto" ∨ mode_arg ∈ MODE_VALUES →
  negb (String.eqb combo_arg "auto") && negb (bool_decide (combo_arg ∈ COMBO_VALUES)) = false ∧
  negb (String.eqb mode_arg "auto") && negb (bool_decide (mode_arg ∈ MODE_VALUES)) = false.
Proof.
  intros Hc Hm. split.
  - destruct Hc as [-> | H]; [reflexivity |].
    rewrite (bool_decide_eq_true_2 _ H). apply andb_false_r.
  - destruct Hm as [-> | H]; [reflexivity |].
    rewrite (bool_decide_eq_true_2 _ H). apply andb_false_r.
Qed.

Section Builtins.

Variables strip lower : string → string.
Variable int_of_str : string → option Z.

(** ** The normalizer on a file *)

Lemma py_load_requirements_normalized (file : Py.parsed_input) (r : Requirement) :
  Py.load_requirements strip lower int_of_str file = Some r → normalized r.
Proof.
  destruct file as [| | data]; [discriminate | discriminate |].
  unfold Py.load_requirements. intros H.
  destruct (Py.to_int int_of_str (dict_get data "team_size") 2) as [team|]; [|discriminate].
  destruct (Py.to_int int_of_str (dict_get data "module_count") 3) as [modules|];
    [|discriminate].
  cbn [mbind option_bind] in H. injection H as <-.
  split; cbn [project_name project_goal target_users team_size module_count
              ui_priority backend_complexity domain_complexity compliance_level
              design_source iteration_speed].
  - apply or_else_nonempty. discriminate.
  - apply or_else_nonempty. discriminate.
  - apply or_else_nonempty. discriminate.
  - lia.
  - lia.
  - unfold Py.normalize_level. case_bool_decide; [assumption |]. apply level_cases. auto.
  - unfold Py.normalize_level. case_bool_decide; [assumption |]. apply level_cases. auto.
  - unfold Py.normalize_level. case_bool_decide; [assumption |]. apply level_cases. auto.
  - unfold Py.normalize_level. case_bool_decide; [assumption |]. apply level_cases. auto.
  - unfold Py.normalize_design. case_bool_decide; [assumption |]. unfold DESIGN_VALUES.
    rewrite !elem_of_union, !elem_of_singleton. auto.
  - unfold Py.normalize_speed. case_bool_decide; [assumption |]. apply speed_cases. auto.
Qed.

Lemma py_load_requirements_none_iff (file : Py.parsed_input) :
  Py.load_requirements strip lower int_of_str file = None ↔ input_raises file.
Proof.
  destruct file as [| | data]; [done | done |].
  unfold Py.load_requirements, input_raises.
  destruct (Py.to_int int_of_str (dict_get data "team_size") 2) as [team |] eqn:Et.
  - destruct (Py.to_int int_of_str (dict_get data "module_count") 3) as [modules |] eqn:Em;
      cbn [mbind option_bind].
    + split; [discriminate |].
      intros [H | H]; [apply (py_to_int_none int_of_str _ 2) in H | apply (py_to_int_none int_of_str _ 3) in H];
        congruence.
    + split; [| reflexivity]. intros _. right. by apply (py_to_int_none int_of_str _ 3).
  - cbn [mbind option_bind]. split; [| reflexivity].
    intros _. left. by apply (py_to_int_none int_of_str _ 2).
Qed.

(** ** The run of [main] *)

Lemma py_main_reaches_plan (args : Py.Namespace) (file : Py.parsed_input)
    (req : Requirement) :
  let combo_arg := lower (strip (Py.combo args)) in
  let mode_arg := Py.normalize_mode_arg strip lower (Py.mode args) in
  combo_arg = "auto" ∨ combo_arg ∈ COMBO_VALUES →
  mode_arg = "auto" ∨ mode_arg ∈ MODE_VALUES →
  Py.load_requirements strip lower int_of_str file = Some req →
  Py.allow_placeholder args = true
  ∨ Py.find_requirement_quality_issues strip lower req = [] →
  ∃ plan,
    Py.main strip lower int_of_str args file
      = (if Py.print_only args then Py.Printed plan else Py.GoesOnToWrite plan) ∧
    Py.plan_req plan = req ∧
    score_combos req = Some (Py.plan_scores plan) ∧
    select_combo (Py.plan_scores plan) combo_arg
      = Some (code (Py.plan_primary plan), code <$> Py.plan_secondary plan) ∧
    COMBOS !! code (Py.plan_primary plan) = Some (Py.plan_primary plan) ∧
    (∀ c, Py.plan_secondary plan = Some c → COMBOS !! code c = Some c) ∧
    complexity_level req = Some (Py.plan_complexity plan) ∧
    recommend_mode req (Py.plan_complexity plan) mode_arg = Some (Py.plan_mode plan) ∧
    planned_docs (code (Py.plan_primary plan)) (Py.plan_mode plan)
      = Some (Py.plan_docs plan) ∧
    report_markdown req (Py.plan_scores plan) (Py.plan_primary plan)
      (Py.plan_secondary plan) (Py.plan_mode plan) (Py.plan_complexity plan)
      (Py.plan_docs plan) = Some (Py.plan_report plan) ∧
    code (Py.plan_primary plan) ∈ COMBO_VALUES ∧
    (combo_arg ∈ COMBO_VALUES → code (Py.plan_primary plan) = combo_arg) ∧
    Py.plan_mode plan ∈ MODE_VALUES ∧
    (mode_arg ∈ MODE_VALUES → Py.plan_mode plan = mode_arg) ∧
    (mode_arg = "auto" → Py.plan_mode plan ≠ "single-file").
Proof.
  intros combo_arg mode_arg Hcombo Hmode Hload Hgate.
  pose proof (py_load_requirements_normalized file req Hload) as Hn.
  destruct (score_combos_closed req "c1" Hn) as (scores & Hscores & Hdom & _);
    [combo_member |].
  destruct (select_combo_codes scores combo_arg Hdom)
    as (p & s & Hsel & Hp & Hforced & Hsec).
  pose proof (complexity_level_total req Hn) as Htier.
  destruct (recommend_mode_valid req (ClassifierSpec.tier_of (ClassifierSpec.total req))
              mode_arg Hn) as (m & Hm & Hmv & Hmf & Hma).
  destruct (combos_lookup p Hp) as (primary & Hprimary & Hcode).
  destruct (combo_docs_cases p Hp) as (cd & Hcd & _).
  assert (∃ docs, planned_docs p m = Some docs) as [docs Hdocs].
  { rewrite planned_docs_by_mode, Hcd. case_decide; eauto. }
  assert (∃ secondary,
            match s with
            | Some c => if PyStr.truthy c then Some <$> COMBOS !! c else Some None
            | None => Some None
            end = Some secondary ∧ code <$> secondary = s ∧
            ∀ c, secondary = Some c → COMBOS !! code c = Some c)
    as (secondary & Hsecondary & Hscode & Hslook).
  { destruct s as [c |]; [| exists None; by repeat split].
    destruct (Hsec c eq_refl) as [Hc _].
    rewrite (combo_code_truthy c Hc).
    destruct (combos_lookup c Hc) as (sc & Hsc & Hcc). rewrite Hsc.
    exists (Some sc). split; [reflexivity |]. split; [cbn; by rewrite Hcc |].
    intros ? [= <-]. by rewrite Hcc. }
  destruct (report_markdown_total req scores primary secondary m
              (ClassifierSpec.tier_of (ClassifierSpec.total req)) docs Hdom)
    as [report Hreport].
  exists {| Py.plan_req := req; Py.plan_scores := scores; Py.plan_primary := primary;
            Py.plan_secondary := secondary;
            Py.plan_complexity := ClassifierSpec.tier_of (ClassifierSpec.total req);
            Py.plan_mode := m; Py.plan_docs := docs; Py.plan_report := report |}.
  cbn [Py.plan_req Py.plan_scores Py.plan_primary Py.plan_secondary Py.plan_complexity
       Py.plan_mode Py.plan_docs Py.plan_report].
  split.
  - unfold Py.main. fold combo_arg mode_arg.
    destruct (py_args_pass combo_arg mode_arg Hcombo Hmode) as [-> ->].
    rewrite Hload. cbn [Py.or_uncaught].
    assert (negb (Py.allow_placeholder args)
            && negb (bool_decide (Py.find_requirement_quality_issues strip lower req = []))
            = false) as ->.
    { destruct Hgate as [-> | H]; [reflexivity |].
      rewrite (bool_decide_eq_true_2 _ H). apply andb_false_r. }
    rewrite Hscores. cbn [Py.or_uncaught]. rewrite Hsel. cbn [Py.or_uncaught].
    rewrite Htier. cbn [Py.or_uncaught]. rewrite Hm. cbn [Py.or_uncaught].
    rewrite Hprimary. cbn [Py.or_uncaught]. rewrite Hsecondary. cbn [Py.or_uncaught].
    rewrite Hdocs. cbn [Py.or_uncaught]. rewrite Hreport. cbn [Py.or_uncaught].
    reflexivity.
  - rewrite Hcode, Hscode. repeat split; try assumption.
    intros Ha. apply Hma. rewrite Ha. by_computation.
Qed.

(** The five ways of [main]: a bad combo, a bad mode, an input that makes
    the normalizer raise, a gate that fails, a plan. *)
Lemma py_main_cases (args : Py.Namespace) (file : Py.parsed_input) :
  let combo_arg := lower (strip (Py.combo args)) in
  let mode_arg := Py.normalize_mode_arg strip lower (Py.mode args) in
  let good_combo := combo_arg = "auto" ∨ combo_arg ∈ COMBO_VALUES in
  let good_mode := mode_arg = "auto" ∨ mode_arg ∈ MODE_VALUES in
  let run := Py.main strip lower int_of_str args file in
  (¬ good_combo ∧ run = Py.SystemExit ("Invalid --combo: " +:+ combo_arg)) ∨
  (good_combo ∧ ¬ good_mode ∧ run = Py.SystemExit ("Invalid --mode: " +:+ mode_arg)) ∨
  (good_combo ∧ good_mode ∧ input_raises file ∧ run = Py.Uncaught) ∨
  (good_combo ∧ good_mode ∧
   ∃ req, Py.load_requirements strip lower int_of_str file = Some req ∧
          Py.allow_placeholder args = false ∧
          Py.find_requirement_quality_issues strip lower req ≠ [] ∧
          run = Py.quality_exit (Py.find_requirement_quality_issues strip lower req)) ∨
  (good_combo ∧ good_mode ∧
   ∃ req plan, Py.load_requirements strip lower int_of_str file = Some req ∧
          (Py.allow_placeholder args = true
           ∨ Py.find_requirement_quality_issues strip lower req = []) ∧
          run = (if Py.print_only args then Py.Printed plan else Py.GoesOnToWrite plan)).
Proof.
  intros combo_arg mode_arg good_combo good_mode run.
  destruct (decide good_combo) as [Hc | Hc].
  2:{ left. split; [exact Hc |].
      unfold run, Py.main. fold combo_arg.
      destruct (String.eqb_spec combo_arg "auto") as [E | E]; [destruct Hc; by left |].
      rewrite bool_decide_eq_false_2; [reflexivity |]. intros H. destruct Hc. by right. }
  right.
  destruct (decide good_mode) as [Hm | Hm].
  2:{ left. split; [exact Hc |]. split; [exact Hm |].
      unfold run, Py.main. fold combo_arg mode_arg.
      destruct (py_args_pass combo_arg "auto" Hc (or_introl eq_refl)) as [-> _].
      destruct (String.eqb_spec mode_arg "auto") as [E | E]; [destruct Hm; by left |].
      rewrite bool_decide_eq_false_2; [reflexivity |]. intros H. destruct Hm. by right. }
  right.
  destruct (Py.load_requirements strip lower int_of_str file) as [req |] eqn:Hload.
  2:{ left. split; [exact Hc |]. split; [exact Hm |].
      split; [by apply py_load_requirements_none_iff |].
      unfold run, Py.main. fold combo_arg mode_arg.
      destruct (py_args_pass combo_arg mode_arg Hc Hm) as [-> ->].
      rewrite Hload. reflexivity. }
  right.
  destruct (decide (Py.allow_placeholder args = true
                    ∨ Py.find_requirement_quality_issues strip lower req = []))
    as [Hg | Hg].
  - right. split; [exact Hc |]. split; [exact Hm |].
    destruct (py_main_reaches_plan args file req Hc Hm Hload Hg) as (plan & Hrun & _).
    exists req, plan. by repeat split.
  - left. split; [exact Hc |]. split; [exact Hm |].
    exists req. split; [reflexivity |].
    assert (Py.allow_placeholder args = false) as Ha
      by (destruct (Py.allow_placeholder args); [tauto | reflexivity]).
    split; [exact Ha |]. split; [tauto |].
    unfold run, Py.main. fold combo_arg mode_arg.
    destruct (py_args_pass combo_arg mode_arg Hc Hm) as [-> ->].
    rewrite Hload, Ha. cbn [Py.or_uncaught negb andb].
    rewrite bool_decide_eq_false_2 by tauto. reflexivity.
Qed.

End Builtins.

(** ** The gate, field by field *)

(** C8: the gate checks the three required fields one by one, each with the
    checks empty after trimming, angle bracket, placeholder hint and (for
    the goal) length under 8 in this order, the first match giving the
    field's only issue; the result lists the issue of every offending
    field, in field order, so that no issue hides another.  This holds
    whatever [str.strip] and [str.lower] do to a text, and so for the
    whitespace and the case mappings of all of Unicode. *)
Theorem quality_gate_per_field (strip lower : string → string) (req : Requirement) :
  ∃ i_name i_goal i_users,
    GateSpecPy.field_check strip lower "project_name" "项目名称" (project_name req) i_name ∧
    GateSpecPy.field_check strip lower "project_goal" "项目目标" (project_goal req) i_goal ∧
    GateSpecPy.field_check strip lower "target_users" "目标用户" (target_users req) i_users ∧
    Py.find_requirement_quality_issues strip lower req
      = option_list i_name ++ option_list i_goal ++ option_list i_users ∧
    (∀ issue, i_name = Some issue ∨ i_goal = Some issue ∨ i_users = Some issue →
              issue ∈ Py.find_requirement_quality_issues strip lower req) ∧
    (length (Py.find_requirement_quality_issues strip lower req) ≤ 3)%nat.
Proof.
  destruct (py_gate_fields strip lower req) as (i1 & i2 & i3 & H1 & H2 & H3 & ->).
  exists i1, i2, i3.
  repeat split; try assumption.
  - intros issue [-> | [-> | ->]]; rewrite !elem_of_app; simpl;
      rewrite !list_elem_of_singleton; auto.
  - rewrite !length_app. destruct i1, i2, i3; simpl; lia.
Qed.

(** The ideographic space U+3000 is whitespace to [str.strip]: with such a
    [strip], a name made of it is reported as empty. *)
Example quality_gate_ideographic_space :
  let strip := λ s, if String.eqb s "　" then "" else PyStr.strip s in
  Py.find_requirement_quality_issues strip PyStr.lower
    {| project_name := "　"; project_goal := "Reconcile invoices daily";
       target_users := "Accountants"; team_size := 2; module_count := 3;
       ui_priority := "medium"; backend_complexity := "medium";
       domain_complexity := "low"; compliance_level := "low";
       design_source := "none"; frontend_backend_separation := false;
       need_fast_validation := true; iteration_speed := "normal" |}
  = [ "项目名称 为空" ].
Proof. vm_compute. reflexivity. Qed.

(** The Kelvin sign U+212A comes out of [str.lower] as [k]: with such a
    [lower], a text that spells a hint with it is reported. *)
Example quality_gate_kelvin_sign :
  let lower := λ s, if String.eqb s "UNKNOWN" then "unknown" else PyStr.lower s in
  Py.find_requirement_quality_issues PyStr.strip lower
    {| project_name := "Ledger"; project_goal := "Reconcile invoices daily";
       target_users := "UNKNOWN"; team_size := 2; module_count := 3;
       ui_priority := "medium"; backend_complexity := "medium";
       domain_complexity := "low"; compliance_level := "low";
       design_source := "none"; frontend_backend_separation := false;
       need_fast_validation := true; iteration_speed := "normal" |}
  = [ "目标用户 仍是占位/示例文本：UNKNOWN" ].
Proof. vm_compute. reflexivity. Qed.

(** The gate lets a requirement through, with no issue at all, exactly when
    each of the three required fields is not blank after trimming, holds no
    angle bracket and, in lower case, no placeholder hint, and the goal is
    at least 8 characters long; trimming and lower case are those of
    Python, whatever they do to a text. *)
Theorem quality_gate_passes_iff (strip lower : string → string) (req : Requirement) :
  Py.find_requirement_quality_issues strip lower req = [] ↔
  ∀ key label, In (key, label) required_fields →
    strip (req_text req key) ≠ "" ∧
    ¬ GateSpec.has_angle (strip (req_text req key)) ∧
    ¬ GateSpecPy.has_hint lower (strip (req_text req key)) ∧
    ¬ GateSpec.too_short key (strip (req_text req key)).
Proof.
  destruct (py_gate_fields strip lower req) as (i1 & i2 & i3 & H1 & H2 & H3 & ->).
  pose proof (py_field_check_none strip lower _ _ _ _ H1) as E1.
  pose proof (py_field_check_none strip lower _ _ _ _ H2) as E2.
  pose proof (py_field_check_none strip lower _ _ _ _ H3) as E3.
  split.
  - intros Hnil.
    assert (i1 = None ∧ i2 = None ∧ i3 = None) as (N1 & N2 & N3)
      by (destruct i1, i2, i3; try discriminate; done).
    intros key label [[= <- <-] | [[= <- <-] | [[= <- <-] | []]]].
    + by apply E1.
    + by apply E2.
    + by apply E3.
  - intros Hall.
    assert (i1 = None) as ->.
    { apply E1, (Hall "project_name" "项目名称"). left. reflexivity. }
    assert (i2 = None) as ->.
    { apply E2, (Hall "project_goal" "项目目标"). right. left. reflexivity. }
    assert (i3 = None) as ->.
    { apply E3, (Hall "target_users" "目标用户"). right. right. left. reflexivity. }
    reflexivity.
Qed.

(** ** Arguments of [main] *)

(** The values of [--mode] that [main] accepts: those that [str.strip] and
    [str.lower] of Python turn into auto, one of the four modes, or one of
    the two other spellings of single-file, which come out as single-file;
    [typed] is the value after [strip] and [lower]. *)
Theorem normalize_mode_arg_accepts (strip lower : string → string) (raw : string) :
  let typed := lower (strip raw) in
  (Py.normalize_mode_arg strip lower raw ∈ MODE_VALUES ↔
     typed ∈ MODE_VALUES ∨ typed = "single" ∨ typed = "single_file") ∧
  (Py.normalize_mode_arg strip lower raw = "auto" ↔ typed = "auto") ∧
  (typed = "single" ∨ typed = "single_file" →
     Py.normalize_mode_arg strip lower raw = "single-file").
Proof.
  intros typed. unfold Py.normalize_mode_arg. fold typed. clearbody typed.
  destruct (MODE_ALIAS !! typed) as [v |] eqn:E; cbn [default from_option id].
  - destruct (mode_alias_cases typed v E) as [-> Hk].
    split; [split | split; [split |]].
    + intros _. destruct Hk as [Hk | [Hk | Hk]]; [tauto | tauto |].
      left. rewrite Hk. by_computation.
    + intros _. by_computation.
    + discriminate.
    + intros Ha. rewrite Ha in Hk. destruct Hk as [? | [? | ?]]; discriminate.
    + reflexivity.
  - split; [split | split; [split |]]; try tauto.
    + intros [? | [-> | ->]]; [assumption | |]; vm_compute in E; discriminate.
    + intros [-> | ->]; vm_compute in E; discriminate.
Qed.

(** ** The run of [main] to its plan *)

(** Once [parse_args] has returned, with a combo and a mode that pass the
    checks, an input that [load_requirements] turns into a requirement and
    the gate passed or switched off, [main] reaches the test of
    [--print-only] with nothing raised on the way.  There, when the flag
    is set, it hands the report to [print] and returns without writing any
    file, and it goes on to the output folder otherwise.  What it holds at
    that point is
    what the functions of the engine give on the requirement: the scores,
    the selection, the tier, the mode, the plan of documents and the
    report.  The primary is one of the six combos, the forced one if one
    was given; the mode is one of the four, the forced one if one was
    given, and never single-file under auto. *)
Theorem main_plans (strip lower : string → string) (int_of_str : string → option Z)
    (args : Py.Namespace) (file : Py.parsed_input) (req : Requirement) :
  let combo_arg := lower (strip (Py.combo args)) in
  let mode_arg := Py.normalize_mode_arg strip lower (Py.mode args) in
  combo_arg = "auto" ∨ combo_arg ∈ COMBO_VALUES →
  mode_arg = "auto" ∨ mode_arg ∈ MODE_VALUES →
  Py.load_requirements strip lower int_of_str file = Some req →
  Py.allow_placeholder args = true
  ∨ Py.find_requirement_quality_issues strip lower req = [] →
  ∃ plan,
    Py.main strip lower int_of_str args file
      = (if Py.print_only args then Py.Printed plan else Py.GoesOnToWrite plan) ∧
    Py.plan_req plan = req ∧
    score_combos req = Some (Py.plan_scores plan) ∧
    select_combo (Py.plan_scores plan) combo_arg
      = Some (code (Py.plan_primary plan), code <$> Py.plan_secondary plan) ∧
    COMBOS !! code (Py.plan_primary plan) = Some (Py.plan_primary plan) ∧
    (∀ c, Py.plan_secondary plan = Some c → COMBOS !! code c = Some c) ∧
    complexity_level req = Some (Py.plan_complexity plan) ∧
    recommend_mode req (Py.plan_complexity plan) mode_arg = Some (Py.plan_mode plan) ∧
    planned_docs (code (Py.plan_primary plan)) (Py.plan_mode plan)
      = Some (Py.plan_docs plan) ∧
    report_markdown req (Py.plan_scores plan) (Py.plan_primary plan)
      (Py.plan_secondary plan) (Py.plan_mode plan) (Py.plan_complexity plan)
      (Py.plan_docs plan) = Some (Py.plan_report plan) ∧
    code (Py.plan_primary plan) ∈ COMBO_VALUES ∧
    (combo_arg ∈ COMBO_VALUES → code (Py.plan_primary plan) = combo_arg) ∧
    Py.plan_mode plan ∈ MODE_VALUES ∧
    (mode_arg ∈ MODE_VALUES → Py.plan_mode plan = mode_arg) ∧
    (mode_arg = "auto" → Py.plan_mode plan ≠ "single-file").
Proof. apply py_main_reaches_plan. Qed.

Lemma main_plans_witness :
  ∃ plan,
    Py.main PyStr.strip PyStr.lower PyStr.parse_int
      {| Py.input := "requirements.json"; Py.output := "./umx-doc-pack";
         Py.combo := " C3 "; Py.mode := "Single"; Py.project_slug := "";
         Py.print_only := true; Py.flat := false; Py.allow_placeholder := true |}
      (Py.JsonObject scenario2_data)
      = Py.Printed plan ∧
    code (Py.plan_primary plan) = "c3" ∧ Py.plan_mode plan = "single-file".
Proof.
  destruct (main_plans PyStr.strip PyStr.lower PyStr.parse_int
              {| Py.input := "requirements.json"; Py.output := "./umx-doc-pack";
                 Py.combo := " C3 "; Py.mode := "Single"; Py.project_slug := "";
                 Py.print_only := true; Py.flat := false; Py.allow_placeholder := true |}
              (Py.JsonObject scenario2_data) scenario2)
    as (plan & H & _ & _ & _ & _ & _ & _ & _ & _ & _ & _ & Hp & _ & Hm & _).
  - right. by_computation.
  - right. by_computation.
  - exact scenario2_loaded.
  - left. reflexivity.
  - exists plan. split; [exact H |]. split.
    + apply Hp. by_computation.
    + apply Hm. by_computation.
Defined.

(** Between the return of [parse_args] and the test of [--print-only], an
    exception other than [SystemExit] escapes [main] exactly when the combo
    and the mode pass their checks and [load_requirements] raises: the
    input cannot be read or parsed, its value is not a JSON object, or its
    team size or module count is an infinite float.  Nothing else raises:
    not the gate, the scorer, the resolvers, the planner or the report. *)
Theorem main_uncaught_iff (strip lower : string → string)
    (int_of_str : string → option Z) (args : Py.Namespace) (file : Py.parsed_input) :
  let combo_arg := lower (strip (Py.combo args)) in
  let mode_arg := Py.normalize_mode_arg strip lower (Py.mode args) in
  Py.main strip lower int_of_str args file = Py.Uncaught ↔
  (combo_arg = "auto" ∨ combo_arg ∈ COMBO_VALUES) ∧
  (mode_arg = "auto" ∨ mode_arg ∈ MODE_VALUES) ∧
  (file = Py.Unreadable ∨ file = Py.NotAnObject ∨
   ∃ data, file = Py.JsonObject data ∧
           (is_infinite (dict_get data "team_size")
            ∨ is_infinite (dict_get data "module_count"))).
Proof.
  intros combo_arg mode_arg.
  assert (input_raises file ↔
          file = Py.Unreadable ∨ file = Py.NotAnObject ∨
          ∃ data, file = Py.JsonObject data ∧
                  (is_infinite (dict_get data "team_size")
                   ∨ is_infinite (dict_get data "module_count"))) as <-.
  { destruct file as [| | data]; cbn [input_raises].
    - split; auto.
    - split; auto.
    - split; [eauto |]. intros [? | [? | (d & [= <-] & H)]]; [discriminate .. | exact H]. }
  destruct (py_main_cases strip lower int_of_str args file)
    as [(Hc & ->) | [(Hc & Hm & ->) | [(Hc & Hm & Hr & ->) |
        [(Hc & Hm & req & Hload & _ & _ & ->) | (Hc & Hm & req & plan & Hload & _ & ->)]]]];
    fold combo_arg mode_arg in Hc; try fold combo_arg mode_arg in Hm.
  - split; [discriminate | tauto].
  - split; [discriminate | tauto].
  - tauto.
  - split; [discriminate |]. intros (_ & _ & Hr).
    apply (py_load_requirements_none_iff strip lower int_of_str) in Hr. congruence.
  - split; [by destruct (Py.print_only args) |]. intros (_ & _ & Hr).
    apply (py_load_requirements_none_iff strip lower int_of_str) in Hr. congruence.
Qed.

(** Between the return of [parse_args] and the test of [--print-only],
    [main] raises [SystemExit] exactly for a combo that is neither auto nor
    one of the six, a mode that is neither auto nor one of the four, or a
    non-empty list of issues while [--allow-placeholder] is off; the combo
    is checked before the mode, both before the input is read, and a failed
    gate exits with the message built from the whole list of issues. *)
Theorem main_exit_iff (strip lower : string → string)
    (int_of_str : string → option Z) (args : Py.Namespace) (file : Py.parsed_input) :
  let combo_arg := lower (strip (Py.combo args)) in
  let mode_arg := Py.normalize_mode_arg strip lower (Py.mode args) in
  let bad_combo := combo_arg ≠ "auto" ∧ combo_arg ∉ COMBO_VALUES in
  let bad_mode := mode_arg ≠ "auto" ∧ mode_arg ∉ MODE_VALUES in
  let run := Py.main strip lower int_of_str args file in
  ((∃ message, run = Py.SystemExit message) ↔
     bad_combo ∨ bad_mode ∨
     ∃ req, Py.load_requirements strip lower int_of_str file = Some req ∧
            Py.allow_placeholder args = false ∧
            Py.find_requirement_quality_issues strip lower req ≠ []) ∧
  (bad_combo → run = Py.SystemExit ("Invalid --combo: " +:+ combo_arg)) ∧
  (¬ bad_combo → bad_mode → run = Py.SystemExit ("Invalid --mode: " +:+ mode_arg)) ∧
  (∀ req, ¬ bad_combo → ¬ bad_mode →
          Py.load_requirements strip lower int_of_str file = Some req →
          Py.allow_placeholder args = false →
          Py.find_requirement_quality_issues strip lower req ≠ [] →
          run = Py.quality_exit (Py.find_requirement_quality_issues strip lower req)).
Proof.
  intros combo_arg mode_arg bad_combo bad_mode run.
  assert (bad_combo ↔ ¬ (combo_arg = "auto" ∨ combo_arg ∈ COMBO_VALUES)) as Hbc
    by (unfold bad_combo; tauto).
  assert (bad_mode ↔ ¬ (mode_arg = "auto" ∨ mode_arg ∈ MODE_VALUES)) as Hbm
    by (unfold bad_mode; tauto).
  destruct (py_main_cases strip lower int_of_str args file)
    as [(Hc & Hrun) | [(Hc & Hm & Hrun) | [(Hc & Hm & Hr & Hrun) |
        [(Hc & Hm & req & Hload & Ha & Hi & Hrun) |
         (Hc & Hm & req & plan & Hload & Hg & Hrun)]]]];
    fold combo_arg mode_arg run in Hc, Hrun; try fold combo_arg mode_arg in Hm.
  - split; [split; [tauto | eauto] |]. repeat split; tauto.
  - split; [split; [tauto | eauto] |]. repeat split; tauto.
  - apply (py_load_requirements_none_iff strip lower int_of_str) in Hr.
    split; [split |].
    + intros [message E]. congruence.
    + intros [? | [? | (req & Hload & _)]]; [tauto | tauto | congruence].
    + split; [tauto |]. split; [tauto |]. intros req _ _ Hload. congruence.
  - split; [split |].
    + intros _. right. right. eauto.
    + intros _. unfold Py.quality_exit in Hrun. eauto.
    + split; [tauto |]. split; [tauto |]. intros req' _ _ Hload' _ _.
      assert (req' = req) as -> by congruence. exact Hrun.
  - split; [split |].
    + intros [message E]. rewrite Hrun in E. by destruct (Py.print_only args).
    + intros [? | [? | (req' & Hload' & Ha' & Hi')]]; [tauto | tauto |].
      assert (req' = req) as -> by congruence.
      destruct Hg as [Hg | Hg]; congruence.
    + split; [tauto |]. split; [tauto |]. intros req' _ _ Hload' Ha' Hi'.
      assert (req' = req) as -> by congruence.
      destruct Hg as [Hg | Hg]; congruence.
Qed.

(** An input file that holds a JSON array, and one that cannot be read,
    make [main] raise; the combo is checked before the file is touched. *)
Example main_on_bad_input :
  let args := {| Py.input := "requirements.json"; Py.output := "./umx-doc-pack";
                 Py.combo := "auto"; Py.mode := "auto"; Py.project_slug := "";
                 Py.print_only := false; Py.flat := false;
                 Py.allow_placeholder := false |} in
  let bad := {| Py.input := "requirements.json"; Py.output := "./umx-doc-pack";
                Py.combo := "c9"; Py.mode := "auto"; Py.project_slug := "";
                Py.print_only := false; Py.flat := false;
                Py.allow_placeholder := false |} in
  Py.main PyStr.strip PyStr.lower PyStr.parse_int args Py.NotAnObject = Py.Uncaught ∧
  Py.main PyStr.strip PyStr.lower PyStr.parse_int args Py.Unreadable = Py.Uncaught ∧
  Py.main PyStr.strip PyStr.lower PyStr.parse_int bad Py.Unreadable
    = Py.SystemExit "Invalid --combo: c9".
Proof. repeat split; vm_compute; reflexivity. Qed.

(** ** The list of documents *)

(** Which documents are written: a known document is written when an item
    of the list names it, by its name or an alias, after [str.strip] and
    [str.lower] of Python; when no item names a known document, all four
    are.  A blank item names nothing. *)
Theorem normalize_docs_members (strip lower : string → string) (raw d : string) :
  In d (Py.normalize_docs strip lower raw) ↔
  In d VALID_DOCS ∧
  ((∃ part, In part (split_on "," raw) ∧ names_doc strip lower part d) ∨
   (∀ part d', In part (split_on "," raw) → ¬ names_doc strip lower part d')).
Proof. apply py_normalize_docs_elem. Qed.
